(** * SelfHealingAPI: canary deployer, metrics collector, middleware injector
      and automatic rollback manager

    A shallow embedding of [src/packages/deployer] (metrics.ts, injector.ts,
    canary.ts, rollback.ts, types.ts) and the properties of it that the
    specification states.

    Conventions of the embedding:
    - every class is a record of its fields and every method a function from
      the state before to the state after (and a result);
    - [Date.now()] and [new Date().toISOString()] are the argument [now],
      milliseconds since the epoch; [randomUUID()] is an argument too;
    - a JS [number] that the code divides, rounds or compares with a
      threshold is a [number] below: an exact rational, NaN or an infinity
      (the rounding of doubles and the sign of zero are not represented);
      counters and array lengths are [nat], timestamps and durations [Z];
    - [console.log] is not represented. *)

From Stdlib Require Import ZArith QArith Qround Ascii DecimalString.
From stdpp Require Import gmap strings list fin_maps.

Open Scope Z_scope.

(** ** JavaScript numbers *)

Module JS.

Inductive number : Type :=
| Fin (q : Q)
| NaN
| PInf
| NInf.

Definition ofZ (z : Z) : number := Fin (inject_Z z).
Definition ofNat (n : nat) : number := ofZ (Z.of_nat n).

Definition Qlt_bool (a b : Q) : bool := negb (Qle_bool b a).

Definition neg (x : number) : number :=
  match x with
  | Fin q => Fin (Qred (- q))
  | NaN => NaN
  | PInf => NInf
  | NInf => PInf
  end.

Definition add (x y : number) : number :=
  match x, y with
  | NaN, _ | _, NaN => NaN
  | Fin a, Fin b => Fin (Qred (a + b))
  | PInf, NInf | NInf, PInf => NaN
  | PInf, _ | _, PInf => PInf
  | NInf, _ | _, NInf => NInf
  end.

Definition sub (x y : number) : number := add x (neg y).

(** The sign of a number: [Some true] positive, [Some false] negative,
    [None] for zero and NaN. *)
Definition sign (x : number) : option bool :=
  match x with
  | Fin q => if Qlt_bool 0 q then Some true
             else if Qlt_bool q 0 then Some false else None
  | NaN => None
  | PInf => Some true
  | NInf => Some false
  end.

Definition inf (positive : bool) : number := if positive then PInf else NInf.

Definition mul (x y : number) : number :=
  match x, y with
  | NaN, _ | _, NaN => NaN
  | Fin a, Fin b => Fin (Qred (a * b))
  | _, _ =>
      match sign x, sign y with
      | Some sx, Some sy => inf (Bool.eqb sx sy)
      | _, _ => NaN
      end
  end.

(** [x / y]: a zero divisor gives an infinity, or NaN for [0 / 0]. *)
Definition div (x y : number) : number :=
  match x, y with
  | NaN, _ | _, NaN => NaN
  | Fin a, Fin b =>
      if Qeq_bool b 0 then
        match sign x with
        | Some s => inf s
        | None => NaN
        end
      else Fin (Qred (a / b))
  | Fin _, _ => Fin 0
  | _, Fin b => if Qlt_bool b 0 then neg x else x
  | _, _ => NaN
  end.

(** [Math.round]: the nearest integer, halves towards plus infinity. *)
Definition round (x : number) : number :=
  match x with
  | Fin q => Fin (inject_Z (Qfloor (q + (1 # 2))))
  | _ => x
  end.

(** [x <= y]; every comparison with NaN is false. *)
Definition le (x y : number) : bool :=
  match x, y with
  | NaN, _ | _, NaN => false
  | Fin a, Fin b => Qle_bool a b
  | NInf, _ | _, PInf => true
  | _, _ => false
  end.

Definition lt (x y : number) : bool :=
  match x, y with
  | NaN, _ | _, NaN => false
  | Fin a, Fin b => Qlt_bool a b
  | PInf, _ | _, NInf => false
  | _, _ => true
  end.

Definition ge (x y : number) : bool := le y x.
Definition gt (x y : number) : bool := lt y x.

(** [x === y] on numbers. *)
Definition eqb (x y : number) : bool :=
  match x, y with
  | Fin a, Fin b => Qeq_bool a b
  | PInf, PInf | NInf, NInf => true
  | _, _ => false
  end.


End JS.

Abbreviation number := JS.number.

(** ** types.ts *)

Record DeploymentMetrics : Type := mkDeploymentMetrics {
  successRate : number;
  errorRate : number;
  latency : number;
  throughput : number;
  dm_timestamp : Z;
  sampleSize : nat
}.

Record Thresholds : Type := mkThresholds {
  th_successRate : number;
  th_errorRate : number;
  th_latencyIncrease : number
}.

(** ** metrics.ts: [DeploymentMetricsCollector] *)

Module Metrics.

Record RequestMetric : Type := mkRequestMetric {
  rm_timestamp : Z;
  statusCode : Z;
  responseTime : Z;
  rm_path : string
}.

Record EndpointMetrics : Type := mkEndpointMetrics {
  requests : list RequestMetric;
  em_startTime : Z;
  lastCleanup : Z
}.

Record MetricsComparison : Type := mkMetricsComparison {
  hasBaseline : bool;
  successRateChange : number;
  errorRateChange : number;
  latencyChange : number;
  throughputChange : number
}.

Record Checks : Type := mkChecks {
  successRateOk : bool;
  errorRateOk : bool;
  latencyOk : bool;
  sampleSizeOk : bool
}.

(** The entries of [HealthCheck.issues]. The source renders each one to a
    text; the number is the change that the text quotes. *)
Inductive Issue : Type :=
| SuccessRateTooLow (change : number)
| ErrorRateTooHigh (change : number)
| LatencyIncreased (change : number)
| InsufficientSampleSize.

Record HealthCheck : Type := mkHealthCheck {
  healthy : bool;
  checks : Checks;
  hc_metrics : DeploymentMetrics;
  comparison : MetricsComparison;
  issues : list Issue
}.

Record Collector : Type := mkCollector {
  endpointMetrics : gmap string EndpointMetrics;
  baselines : gmap string DeploymentMetrics;
  activeCollectors : gset string
}.

(** [new DeploymentMetricsCollector()]. *)
Definition create : Collector :=
  {| endpointMetrics := ∅; baselines := ∅; activeCollectors := ∅ |}.

Definition getEmptyMetrics (now : Z) : DeploymentMetrics :=
  {| successRate := JS.Fin 0;
     errorRate := JS.Fin 0;
     latency := JS.Fin 0;
     throughput := JS.Fin 0;
     dm_timestamp := now;
     sampleSize := 0 |}.

Definition setBaseline (c : Collector) (endpoint : string)
    (metrics : DeploymentMetrics) : Collector :=
  {| endpointMetrics := endpointMetrics c;
     baselines := <[endpoint := metrics]> (baselines c);
     activeCollectors := activeCollectors c |}.

Definition getBaseline (c : Collector) (endpoint : string)
    : option DeploymentMetrics :=
  baselines c !! endpoint.

(** [Math.round(x * scale) / scale]. *)
Definition roundTo (scale : Z) (x : number) : number :=
  JS.div (JS.round (JS.mul x (JS.ofZ scale))) (JS.ofZ scale).

Definition isSuccess (req : RequestMetric) : bool :=
  (200 <=? statusCode req) && (statusCode req <? 400).

Definition isError (req : RequestMetric) : bool :=
  400 <=? statusCode req.

Definition recent (cutoffTime : Z) (req : RequestMetric) : bool :=
  cutoffTime <=? rm_timestamp req.

(** [null] is [None]. *)
Definition calculateMetrics (c : Collector) (endpoint : string)
    (windowSeconds : Z) (now : Z) : option DeploymentMetrics :=
  match endpointMetrics c !! endpoint with
  | None => None
  | Some metrics =>
      let cutoffTime := now - windowSeconds * 1000 in
      let recentRequests := List.filter (recent cutoffTime) (requests metrics) in
      match recentRequests with
      | [] => None
      | _ :: _ =>
          let total := JS.ofNat (length recentRequests) in
          let successfulRequests := List.filter isSuccess recentRequests in
          let errorRequests := List.filter isError recentRequests in
          let successRate := JS.div (JS.ofNat (length successfulRequests)) total in
          let errorRate := JS.div (JS.ofNat (length errorRequests)) total in
          let latencies := List.map responseTime recentRequests in
          let averageLatency :=
            JS.div (fold_left (fun sum lat => JS.add sum (JS.ofZ lat))
                              latencies (JS.Fin 0))
                   (JS.ofNat (length latencies)) in
          let throughput := JS.div total (JS.ofZ windowSeconds) in
          Some {| successRate := roundTo 1000 successRate;
                  errorRate := roundTo 1000 errorRate;
                  latency := roundTo 100 averageLatency;
                  throughput := roundTo 100 throughput;
                  dm_timestamp := now;
                  sampleSize := length recentRequests |}
      end
  end.

Definition getMetrics (c : Collector) (endpoint : string)
    (windowSeconds : Z) (now : Z) : DeploymentMetrics :=
  match calculateMetrics c endpoint windowSeconds now with
  | None => getEmptyMetrics now
  | Some calculatedMetrics => calculatedMetrics
  end.

(** The default of [getMetrics]'s [windowSeconds]. *)
Definition defaultWindow : Z := 60.

(** [startCollection] without its timer. The timer is set when the
    endpoint has no baseline yet, and its callback, five seconds later, is
    [establishBaseline]. *)
Definition startCollection (c : Collector) (endpoint : string) (now : Z)
    : Collector :=
  if decide (endpoint ∈ activeCollectors c) then c
  else
    {| endpointMetrics :=
         <[endpoint := {| requests := []; em_startTime := now;
                          lastCleanup := now |}]> (endpointMetrics c);
       baselines := baselines c;
       activeCollectors := {[endpoint]} ∪ activeCollectors c |}.

Definition establishBaseline (c : Collector) (endpoint : string) (now : Z)
    : Collector :=
  match calculateMetrics c endpoint 30 now with
  | Some initialMetrics => setBaseline c endpoint initialMetrics
  | None => c
  end.

Definition stopCollection (c : Collector) (endpoint : string) : Collector :=
  {| endpointMetrics := endpointMetrics c;
     baselines := baselines c;
     activeCollectors := activeCollectors c ∖ {[endpoint]} |}.

(** [xs.slice(-n)]: the last [n] elements. *)
Definition lastN {A : Type} (n : nat) (xs : list A) : list A :=
  drop (length xs - n)%nat xs.

Definition cleanupOldRequests (c : Collector) (endpoint : string) (now : Z)
    : Collector :=
  match endpointMetrics c !! endpoint with
  | None => c
  | Some metrics =>
      let fiveMinutesAgo := now - 5 * 60 * 1000 in
      let timeFiltered := List.filter (recent fiveMinutesAgo) (requests metrics) in
      let finalRequests :=
        if (1000 <? length timeFiltered)%nat then lastN 1000 timeFiltered
        else timeFiltered in
      {| endpointMetrics :=
           <[endpoint := {| requests := finalRequests;
                            em_startTime := em_startTime metrics;
                            lastCleanup := lastCleanup metrics |}]>
             (endpointMetrics c);
         baselines := baselines c;
         activeCollectors := activeCollectors c |}
  end.

Definition setLastCleanup (c : Collector) (endpoint : string) (now : Z)
    : Collector :=
  {| endpointMetrics :=
       alter (fun m => {| requests := requests m;
                          em_startTime := em_startTime m;
                          lastCleanup := now |}) endpoint (endpointMetrics c);
     baselines := baselines c;
     activeCollectors := activeCollectors c |}.

Definition recordRequest (c : Collector) (endpoint : string)
    (request : RequestMetric) (now : Z) : Collector :=
  if decide (endpoint ∈ activeCollectors c) then
    match endpointMetrics c !! endpoint with
    | None => c
    | Some metrics =>
        let pushed :=
          {| endpointMetrics :=
               <[endpoint := {| requests := requests metrics ++ [request];
                                em_startTime := em_startTime metrics;
                                lastCleanup := lastCleanup metrics |}]>
                 (endpointMetrics c);
             baselines := baselines c;
             activeCollectors := activeCollectors c |} in
        if 30000 <? now - lastCleanup metrics then
          setLastCleanup (cleanupOldRequests pushed endpoint now) endpoint now
        else pushed
    end
  else c.

Definition compareWithBaseline (c : Collector) (endpoint : string)
    (currentMetrics : DeploymentMetrics) : MetricsComparison :=
  match getBaseline c endpoint with
  | None =>
      {| hasBaseline := false;
         successRateChange := JS.Fin 0;
         errorRateChange := JS.Fin 0;
         latencyChange := JS.Fin 0;
         throughputChange := JS.Fin 0 |}
  | Some baseline =>
      {| hasBaseline := true;
         successRateChange :=
           JS.sub (successRate currentMetrics) (successRate baseline);
         errorRateChange :=
           JS.sub (errorRate currentMetrics) (errorRate baseline);
         latencyChange :=
           JS.div (JS.sub (latency currentMetrics) (latency baseline))
                  (latency baseline);
         throughputChange :=
           JS.div (JS.sub (throughput currentMetrics) (throughput baseline))
                  (throughput baseline) |}
  end.

(** Each [if (!checks.x) issues.push(...)] of [identifyIssues]. *)
Definition pushUnless {A : Type} (ok : bool) (x : A) (xs : list A) : list A :=
  if ok then xs else xs ++ [x].

Definition identifyIssues (checks : Checks) (comparison : MetricsComparison)
    : list Issue :=
  let issues := [] in
  let issues := pushUnless (successRateOk checks)
                  (SuccessRateTooLow (successRateChange comparison)) issues in
  let issues := pushUnless (errorRateOk checks)
                  (ErrorRateTooHigh (errorRateChange comparison)) issues in
  let issues := pushUnless (latencyOk checks)
                  (LatencyIncreased (latencyChange comparison)) issues in
  let issues := pushUnless (sampleSizeOk checks) InsufficientSampleSize issues in
  issues.

Definition checkHealthThresholds (c : Collector) (endpoint : string)
    (thresholds : Thresholds) (now : Z) : HealthCheck :=
  let currentMetrics := getMetrics c endpoint defaultWindow now in
  let comparison := compareWithBaseline c endpoint currentMetrics in
  let checks :=
    {| successRateOk := JS.ge (successRate currentMetrics) (th_successRate thresholds);
       errorRateOk := JS.le (errorRate currentMetrics) (th_errorRate thresholds);
       latencyOk := negb (hasBaseline comparison)
                    || JS.le (latencyChange comparison) (th_latencyIncrease thresholds);
       sampleSizeOk := (10 <=? sampleSize currentMetrics)%nat |} in
  let healthy := successRateOk checks && errorRateOk checks
                 && latencyOk checks && sampleSizeOk checks in
  {| healthy := healthy;
     checks := checks;
     hc_metrics := currentMetrics;
     comparison := comparison;
     issues := if healthy then [] else identifyIssues checks comparison |}.

End Metrics.

(** ** Regular expressions of [validateMiddleware] *)

Module Regex.

Inductive regex : Type :=
| Void
| Eps
| Class (p : ascii -> bool)
| Cat (r1 r2 : regex)
| Alt (r1 r2 : regex)
| Star (r : regex).

Fixpoint nullable (r : regex) : bool :=
  match r with
  | Void => false
  | Eps => true
  | Class _ => false
  | Cat r1 r2 => nullable r1 && nullable r2
  | Alt r1 r2 => nullable r1 || nullable r2
  | Star _ => true
  end.

Fixpoint deriv (c : ascii) (r : regex) : regex :=
  match r with
  | Void => Void
  | Eps => Void
  | Class p => if p c then Eps else Void
  | Cat r1 r2 =>
      if nullable r1 then Alt (Cat (deriv c r1) r2) (deriv c r2)
      else Cat (deriv c r1) r2
  | Alt r1 r2 => Alt (deriv c r1) (deriv c r2)
  | Star r1 => Cat (deriv c r1) (Star r1)
  end.

(** Some prefix of [s] matches [r]. *)
Fixpoint matchesPrefix (r : regex) (s : list ascii) : bool :=
  nullable r ||
  match s with
  | [] => false
  | c :: s' => matchesPrefix (deriv c r) s'
  end.

(** [pattern.test(s)] for a pattern without anchors: some substring of
    [s] matches. *)
Fixpoint test (r : regex) (s : list ascii) : bool :=
  matchesPrefix r s ||
  match s with
  | [] => false
  | _ :: s' => test r s'
  end.

Definition char (c : ascii) : regex := Class (Ascii.eqb c).

Fixpoint lit (s : list ascii) : regex :=
  match s with
  | [] => Eps
  | c :: s' => Cat (char c) (lit s')
  end.

Definition literal (s : string) : regex := lit (String.list_ascii_of_string s).

(** [\s], on the ASCII range. *)
Definition isSpace (c : ascii) : bool :=
  let n := nat_of_ascii c in
  (n =? 32)%nat || ((9 <=? n)%nat && (n <=? 13)%nat).

Definition spaces : regex := Star (Class isSpace).

Definition dquote : ascii := ascii_of_nat 34.

Definition isQuote (c : ascii) : bool :=
  Ascii.eqb c "'"%char || Ascii.eqb c dquote.

(** The text ['dq'], the character class of both quotes. *)
Definition quotes : string := String "'"%char (String dquote EmptyString).

(** The four entries of [dangerousPatterns], with their [source]. *)
Definition dangerousPatterns : list (string * regex) :=
  [ ("eval\s*\(", Cat (literal "eval") (Cat spaces (char "("%char)));
    ("Function\s*\(", Cat (literal "Function") (Cat spaces (char "("%char)));
    ("process\.exit", literal "process.exit");
    ("require\s*\(\s*[" +:+ quotes +:+ "][^" +:+ quotes +:+ "]*["
       +:+ quotes +:+ "]\s*\)",
     Cat (literal "require")
       (Cat spaces
          (Cat (char "("%char)
             (Cat spaces
                (Cat (Class isQuote)
                   (Cat (Star (Class (fun c => negb (isQuote c))))
                      (Cat (Class isQuote)
                         (Cat spaces (char ")"%char)))))))))
  ]%string.

End Regex.

(** ** Results of fallible methods: a value, or the thrown error *)

Inductive Result (E A : Type) : Type :=
| Ok (a : A)
| Err (e : E).

Arguments Ok {E A} a.
Arguments Err {E A} e.

(** ** types.ts: middleware definitions *)

Record Conditions : Type := mkConditions {
  methods : option (list string);
  paths : option (list string);
  headers : option (list (string * string))
}.

Record MiddlewareDefinition : Type := mkMiddlewareDefinition {
  md_id : string;
  md_name : string;
  code : string;
  targetEndpoint : string;
  priority : Z;
  conditions : option Conditions
}.

Record HotDeployConfig : Type := mkHotDeployConfig {
  safeMode : bool;
  validateBeforeDeploy : bool;
  backupPrevious : bool;
  maxConcurrentDeploys : Z
}.

(** ** injector.ts: [MiddlewareInjector] *)

Module Injector.

(** An Express request, as far as the injector reads and writes it.
    [req_get] is Express's header accessor. *)
Record Request : Type := mkRequest {
  req_method : string;
  req_path : string;
  req_get : string -> option string;
  req_body : list (string * string);
  req_injectionId : option string;
  req_middlewareName : option string
}.

(** One run of a middleware function on a request: the request as the
    function leaves it, the arguments of its calls of [next] in order
    ([None] for [next()], [Some e] for [next(e)]), and the error it throws
    or rejects with, if any. *)
Record Execution : Type := mkExecution {
  ex_request : Request;
  ex_next : list (option string);
  ex_throws : option string
}.

(** A middleware [Function]: its [length], its [toString()] and what it
    does on a request. *)
Record MiddlewareFunction : Type := mkMiddlewareFunction {
  fn_length : nat;
  fn_source : string;
  fn_run : Request -> Execution
}.

(** The closure that [createWrapperMiddleware] returns: its three captured
    arguments. *)
Record Wrapper : Type := mkWrapper {
  w_injectionId : string;
  w_definition : MiddlewareDefinition;
  w_function : MiddlewareFunction
}.

(** A backup file: [backups/middleware/<id>_<timestamp>.json]. *)
Definition BackupPath : Type := (string * Z)%type.

Record InjectedMiddleware : Type := mkInjectedMiddleware {
  im_id : string;
  im_definition : MiddlewareDefinition;
  im_function : MiddlewareFunction;
  wrappedFunction : Wrapper;
  deployedAt : Z;
  backupPath : option BackupPath;
  active : bool;
  requestCount : nat;
  errorCount : nat
}.

(** Where a handler is mounted on the Express app. *)
Inductive Mount : Type :=
| MGet (endpoint : string)
| MPost (endpoint : string)
| MPut (endpoint : string)
| MDelete (endpoint : string)
| MUse (endpoint : string)
| MGlobal.

Record Injector : Type := mkInjector {
  activeMiddleware : gmap string InjectedMiddleware;
  middlewareStack : list MiddlewareDefinition;
  app : list (Mount * Wrapper);
  config : HotDeployConfig;
  backupFiles : gset BackupPath
}.

Inductive InjectorError : Type :=
| WrongArity (paramCount : nat)
| DangerousPattern (source : string)
| CapacityReached (maxConcurrentDeploys : Z)
| BackupFailed
| MiddlewareNotFound (injectionId : string).

Definition defaultConfig : HotDeployConfig :=
  {| safeMode := true; validateBeforeDeploy := true;
     backupPrevious := true; maxConcurrentDeploys := 3 |}.

(** [new MiddlewareInjector(app, config)] on an app without handlers. *)
Definition create (config : HotDeployConfig) : Injector :=
  {| activeMiddleware := ∅; middlewareStack := []; app := [];
     config := config; backupFiles := ∅ |}.

Definition setActiveMiddleware (inj : Injector)
    (m : gmap string InjectedMiddleware) : Injector :=
  {| activeMiddleware := m;
     middlewareStack := middlewareStack inj;
     app := app inj;
     config := config inj;
     backupFiles := backupFiles inj |}.

(** [validateMiddleware]: [None] when the function passes. *)
Definition validateMiddleware (middlewareFunction : MiddlewareFunction)
    : option InjectorError :=
  let functionString := String.list_ascii_of_string (fn_source middlewareFunction) in
  let paramCount := fn_length middlewareFunction in
  if negb (paramCount =? 3)%nat then Some (WrongArity paramCount)
  else
    match List.find (fun p => Regex.test (snd p) functionString)
                    Regex.dangerousPatterns with
    | Some p => Some (DangerousPattern (fst p))
    | None => None
    end.

Definition toUpper (c : ascii) : ascii :=
  let n := nat_of_ascii c in
  if ((97 <=? n) && (n <=? 122))%nat then ascii_of_nat (n - 32) else c.

Fixpoint toUpperCase (s : string) : string :=
  match s with
  | EmptyString => EmptyString
  | String c s' => String (toUpper c) (toUpperCase s')
  end.

Definition mountOf (method endpoint : string) : Mount :=
  let m := toUpperCase method in
  if String.eqb m "GET" then MGet endpoint
  else if String.eqb m "POST" then MPost endpoint
  else if String.eqb m "PUT" then MPut endpoint
  else if String.eqb m "DELETE" then MDelete endpoint
  else MUse endpoint.

(** The handlers that [injectIntoExpress] adds to the app. *)
Definition injectIntoExpress (definition : MiddlewareDefinition)
    (middleware : Wrapper) : list (Mount * Wrapper) :=
  if String.eqb (targetEndpoint definition) EmptyString then [(MGlobal, middleware)]
  else
    let methods :=
      match conditions definition with
      | Some (mkConditions (Some ms) _ _) => ms
      | _ => ["POST"%string]
      end in
    List.map (fun method => (mountOf method (targetEndpoint definition), middleware))
             methods.

Definition createWrapperMiddleware (injectionId : string)
    (definition : MiddlewareDefinition)
    (middlewareFunction : MiddlewareFunction) : Wrapper :=
  {| w_injectionId := injectionId;
     w_definition := definition;
     w_function := middlewareFunction |}.

(** [injectMiddleware]. [injectionId] is the [randomUUID()] of the call and
    [fsOk] tells whether the file operations of [createBackup] succeed. *)
Definition injectMiddleware (inj : Injector) (injectionId : string)
    (now : Z) (fsOk : bool) (definition : MiddlewareDefinition)
    (middlewareFunction : MiddlewareFunction)
    : Result InjectorError string * Injector :=
  match (if validateBeforeDeploy (config inj)
         then validateMiddleware middlewareFunction else None) with
  | Some e => (Err e, inj)
  | None =>
      if maxConcurrentDeploys (config inj) <=? Z.of_nat (size (activeMiddleware inj))
      then (Err (CapacityReached (maxConcurrentDeploys (config inj))), inj)
      else if backupPrevious (config inj) && negb fsOk
      then (Err BackupFailed, inj)
      else
        let backupPath :=
          if backupPrevious (config inj) then Some (md_id definition, now)
          else None in
        let wrappedMiddleware :=
          createWrapperMiddleware injectionId definition middlewareFunction in
        let injectedMiddleware :=
          {| im_id := injectionId;
             im_definition := definition;
             im_function := middlewareFunction;
             wrappedFunction := wrappedMiddleware;
             deployedAt := now;
             backupPath := backupPath;
             active := true;
             requestCount := 0;
             errorCount := 0 |} in
        (Ok injectionId,
         {| activeMiddleware := <[injectionId := injectedMiddleware]> (activeMiddleware inj);
            middlewareStack := middlewareStack inj ++ [definition];
            app := app inj ++ injectIntoExpress definition wrappedMiddleware;
            config := config inj;
            backupFiles :=
              match backupPath with
              | Some p => {[p]} ∪ backupFiles inj
              | None => backupFiles inj
              end |})
  end.

(** [removeMiddleware]. [fsOk] tells whether [fs.unlink] succeeds; its
    failure is caught and the removal goes on. *)
Definition removeMiddleware (inj : Injector) (injectionId : string)
    (fsOk : bool) : Result InjectorError unit * Injector :=
  match activeMiddleware inj !! injectionId with
  | None => (Err (MiddlewareNotFound injectionId), inj)
  | Some middleware =>
      (Ok tt,
       {| activeMiddleware := delete injectionId (activeMiddleware inj);
          middlewareStack :=
            List.filter
              (fun m => negb (String.eqb (md_id m) (md_id (im_definition middleware))))
              (middlewareStack inj);
          app := app inj;
          config := config inj;
          backupFiles :=
            match backupPath middleware with
            | Some p => if fsOk then backupFiles inj ∖ {[p]} else backupFiles inj
            | None => backupFiles inj
            end |})
  end.

(** [updateMiddleware]: the record gets the new function and a new
    wrapper; the handlers mounted on the app stay as they are. *)
Definition updateMiddleware (inj : Injector) (injectionId : string)
    (newMiddlewareFunction : MiddlewareFunction)
    : Result InjectorError unit * Injector :=
  match activeMiddleware inj !! injectionId with
  | None => (Err (MiddlewareNotFound injectionId), inj)
  | Some existing =>
      match (if validateBeforeDeploy (config inj)
             then validateMiddleware newMiddlewareFunction else None) with
      | Some e => (Err e, inj)
      | None =>
          let newWrapper :=
            createWrapperMiddleware injectionId (im_definition existing)
              newMiddlewareFunction in
          (Ok tt,
           setActiveMiddleware inj
             (<[injectionId :=
                  {| im_id := im_id existing;
                     im_definition := im_definition existing;
                     im_function := newMiddlewareFunction;
                     wrappedFunction := newWrapper;
                     deployedAt := deployedAt existing;
                     backupPath := backupPath existing;
                     active := active existing;
                     requestCount := requestCount existing;
                     errorCount := errorCount existing |}]>
                (activeMiddleware inj)))
      end
  end.

Definition matchesConditions (req : Request) (conditions : option Conditions)
    : bool :=
  match conditions with
  | None => true
  | Some conds =>
      let methodsOk :=
        match methods conds with
        | Some ms => existsb (String.eqb (req_method req)) ms
        | None => true
        end in
      let pathsOk :=
        match paths conds with
        | Some ps => existsb (fun path => String.prefix path (req_path req)) ps
        | None => true
        end in
      let headersOk :=
        match headers conds with
        | Some hs =>
            forallb (fun h =>
                       match req_get req (fst h) with
                       | Some v => String.eqb v (snd h)
                       | None => false
                       end) hs
        | None => true
        end in
      methodsOk && pathsOk && headersOk
  end.

Definition setActive (b : bool) (m : InjectedMiddleware) : InjectedMiddleware :=
  {| im_id := im_id m; im_definition := im_definition m;
     im_function := im_function m; wrappedFunction := wrappedFunction m;
     deployedAt := deployedAt m; backupPath := backupPath m;
     active := b;
     requestCount := requestCount m; errorCount := errorCount m |}.

Definition addCounts (requests errors : nat) (m : InjectedMiddleware)
    : InjectedMiddleware :=
  {| im_id := im_id m; im_definition := im_definition m;
     im_function := im_function m; wrappedFunction := wrappedFunction m;
     deployedAt := deployedAt m; backupPath := backupPath m;
     active := active m;
     requestCount := requestCount m + requests;
     errorCount := errorCount m + errors |}.

(** What a call of a wrapper does: the request as it leaves it and the
    arguments of the calls of the continuation [next], in order. *)
Record Invocation : Type := mkInvocation {
  inv_request : Request;
  inv_next : list (option string)
}.

Definition isError (e : option string) : bool :=
  match e with
  | Some _ => true
  | None => false
  end.

(** A call [wrapper(req, res, next)] of the function that
    [createWrapperMiddleware] returns. *)
Definition callWrapper (inj : Injector) (w : Wrapper) (req : Request)
    : Invocation * Injector :=
  let passThrough := ({| inv_request := req; inv_next := [None] |}, inj) in
  match activeMiddleware inj !! w_injectionId w with
  | None => passThrough
  | Some middleware =>
      if negb (active middleware) then passThrough
      else if negb (matchesConditions req (conditions (w_definition w)))
      then passThrough
      else
        let tagged :=
          {| req_method := req_method req;
             req_path := req_path req;
             req_get := req_get req;
             req_body := req_body req;
             req_injectionId := Some (w_injectionId w);
             req_middlewareName := Some (md_name (w_definition w)) |} in
        let ex := fn_run (w_function w) tagged in
        let thrown :=
          match ex_throws ex with
          | Some e => [Some e]
          | None => []
          end in
        let errors :=
          (length (List.filter isError (ex_next ex)) + length thrown)%nat in
        ({| inv_request := ex_request ex;
            inv_next := ex_next ex ++ thrown |},
         setActiveMiddleware inj
           (alter (addCounts 1 errors) (w_injectionId w) (activeMiddleware inj)))
  end.

Definition getInjectionStatus (inj : Injector) (injectionId : string)
    : option InjectedMiddleware :=
  activeMiddleware inj !! injectionId.

(** The values of the map; the order of a JS [Map] is not represented. *)
Definition values (inj : Injector) : list InjectedMiddleware :=
  (map_to_list (activeMiddleware inj)).*2.

Definition getAllInjections (inj : Injector) : list InjectedMiddleware :=
  List.filter active (values inj).

Record InjectionStatistics : Type := mkInjectionStatistics {
  totalActive : nat;
  totalRequests : nat;
  totalErrors : nat;
  averageErrorRate : number;
  oldestDeployment : option Z
}.

(** [m.errorCount / Math.max(m.requestCount, 1)]. *)
Definition errorRateOf (m : InjectedMiddleware) : number :=
  JS.div (JS.ofNat (errorCount m)) (JS.ofNat (Nat.max (requestCount m) 1)).

Definition getStatistics (inj : Injector) : InjectionStatistics :=
  let active := getAllInjections inj in
  {| totalActive := length active;
     totalRequests := fold_left (fun sum m => (sum + requestCount m)%nat) active 0%nat;
     totalErrors := fold_left (fun sum m => (sum + errorCount m)%nat) active 0%nat;
     averageErrorRate :=
       if (0 <? length active)%nat then
         JS.div (fold_left (fun sum m => JS.add sum (errorRateOf m)) active (JS.Fin 0))
                (JS.ofNat (length active))
       else JS.Fin 0;
     oldestDeployment :=
       match List.map deployedAt active with
       | [] => None
       | t :: ts => Some (fold_left Z.min ts t)
       end |}.

Definition emergencyStop (inj : Injector) : Injector :=
  setActiveMiddleware inj (setActive false <$> activeMiddleware inj).

End Injector.

(** ** types.ts: deployment plans and statuses *)

Record CanaryStage : Type := mkCanaryStage {
  percentage : number;
  duration : Z;
  successThreshold : number;
  maxErrorRate : number
}.

Record Monitoring : Type := mkMonitoring {
  windowSize : Z;
  sampleFrequency : Z
}.

Record DeploymentPlan : Type := mkDeploymentPlan {
  plan_id : string;
  fixId : string;
  stages : list CanaryStage;
  rollbackThresholds : Thresholds;
  monitoring : Monitoring
}.

(** [Partial<DeploymentPlan>]: [None] for a property that is not there. *)
Record PartialPlan : Type := mkPartialPlan {
  pp_id : option string;
  pp_fixId : option string;
  pp_stages : option (list CanaryStage);
  pp_rollbackThresholds : option Thresholds;
  pp_monitoring : option Monitoring
}.

Inductive Stage : Type :=
| Planning
| Deploying
| MonitoringStage
| Promoting
| Completed
| RollingBack
| Failed.

Inductive EventType : Type :=
| StageStart
| StageComplete
| MetricsCheck
| RollbackEvent
| ErrorEvent.

Inductive Trigger : Type :=
| Manual
| Automatic.

(** The message and data of a deployment event, one constructor for each
    text that canary.ts builds. *)
Inductive Message : Type :=
| Initiated (deploymentId : string)
| DeployedTo (percentage : number) (stage : Z)
| StageMonitoringCompleted (stageIndex : nat) (checks : nat)
| HealthCheckDone (checks : nat) (healthy : bool) (issues : list Metrics.Issue)
| StageFailedHealthChecks (stageIndex : nat) (issues : list Metrics.Issue)
| DeploymentCompleted
| RolledBack (trigger : Trigger).

Record DeploymentEvent : Type := mkDeploymentEvent {
  ev_timestamp : Z;
  ev_type : EventType;
  ev_message : Message
}.

Record DeploymentStatus : Type := mkDeploymentStatus {
  st_id : string;
  stage : Stage;
  currentStage : Z;
  trafficPercentage : number;
  st_startTime : Z;
  lastUpdate : Z;
  baseline : DeploymentMetrics;
  current : DeploymentMetrics;
  history : list DeploymentMetrics;
  events : list DeploymentEvent
}.

Record FeatureFlag : Type := mkFeatureFlag {
  key : string;
  enabled : bool;
  rolloutPercentage : number
}.

(** ** canary.ts: [CanaryDeployer] *)

Module Canary.

(** [rollbackFunction] is [null] in every deployment that [deployCanary]
    creates and nothing assigns it, so the record has no such field. *)
Record ActiveDeployment : Type := mkActiveDeployment {
  ad_id : string;
  middleware : MiddlewareDefinition;
  plan : DeploymentPlan;
  status : DeploymentStatus;
  stageStartTime : Z
}.

(** The deployer with the metrics collector that it holds a reference
    to. *)
Record Deployer : Type := mkDeployer {
  deployments : gmap string ActiveDeployment;
  featureFlags : gmap string FeatureFlag;
  metricsCollector : Metrics.Collector
}.

Definition create (metricsCollector : Metrics.Collector) : Deployer :=
  {| deployments := ∅; featureFlags := ∅; metricsCollector := metricsCollector |}.

Definition getEmptyMetrics (now : Z) : DeploymentMetrics :=
  {| successRate := JS.Fin 0;
     errorRate := JS.Fin 0;
     latency := JS.Fin 0;
     throughput := JS.Fin 0;
     dm_timestamp := now;
     sampleSize := 0 |}.

Definition stage3 (p : Z) (d : Z) : CanaryStage :=
  {| percentage := JS.ofZ p; duration := d;
     successThreshold := JS.Fin (19 # 20); maxErrorRate := JS.Fin (1 # 20) |}.

Definition defaultPlan (deploymentId fid : string) : DeploymentPlan :=
  {| plan_id := deploymentId;
     fixId := fid;
     stages := [stage3 10 30; stage3 50 60; stage3 100 60];
     rollbackThresholds :=
       {| th_successRate := JS.Fin (9 # 10);
          th_errorRate := JS.Fin (1 # 10);
          th_latencyIncrease := JS.Fin (1 # 2) |};
     monitoring := {| windowSize := 30; sampleFrequency := 5 |} |}.

(** [{ ...defaultPlan, ...partial }]. *)
Definition createDeploymentPlan (deploymentId fid : string)
    (partial : option PartialPlan) : DeploymentPlan :=
  let def := defaultPlan deploymentId fid in
  match partial with
  | None => def
  | Some p =>
      {| plan_id := default (plan_id def) (pp_id p);
         fixId := default (fixId def) (pp_fixId p);
         stages := default (stages def) (pp_stages p);
         rollbackThresholds := default (rollbackThresholds def) (pp_rollbackThresholds p);
         monitoring := default (monitoring def) (pp_monitoring p) |}
  end.

Definition setStatus (dep : ActiveDeployment) (s : DeploymentStatus)
    : ActiveDeployment :=
  {| ad_id := ad_id dep; middleware := middleware dep; plan := plan dep;
     status := s; stageStartTime := stageStartTime dep |}.

Definition setStageStartTime (dep : ActiveDeployment) (t : Z) : ActiveDeployment :=
  {| ad_id := ad_id dep; middleware := middleware dep; plan := plan dep;
     status := status dep; stageStartTime := t |}.

Definition setDeployments (d : Deployer) (m : gmap string ActiveDeployment)
    : Deployer :=
  {| deployments := m; featureFlags := featureFlags d;
     metricsCollector := metricsCollector d |}.

Definition setFeatureFlags (d : Deployer) (f : gmap string FeatureFlag)
    : Deployer :=
  {| deployments := deployments d; featureFlags := f;
     metricsCollector := metricsCollector d |}.

Definition setMetricsCollector (d : Deployer) (c : Metrics.Collector) : Deployer :=
  {| deployments := deployments d; featureFlags := featureFlags d;
     metricsCollector := c |}.

Definition withStage (s : DeploymentStatus) (g : Stage) : DeploymentStatus :=
  {| st_id := st_id s; stage := g; currentStage := currentStage s;
     trafficPercentage := trafficPercentage s; st_startTime := st_startTime s;
     lastUpdate := lastUpdate s; baseline := baseline s; current := current s;
     history := history s; events := events s |}.

Definition withTraffic (s : DeploymentStatus) (p : number) : DeploymentStatus :=
  {| st_id := st_id s; stage := stage s; currentStage := currentStage s;
     trafficPercentage := p; st_startTime := st_startTime s;
     lastUpdate := lastUpdate s; baseline := baseline s; current := current s;
     history := history s; events := events s |}.

Definition withCurrentStage (s : DeploymentStatus) (i : Z) : DeploymentStatus :=
  {| st_id := st_id s; stage := stage s; currentStage := i;
     trafficPercentage := trafficPercentage s; st_startTime := st_startTime s;
     lastUpdate := lastUpdate s; baseline := baseline s; current := current s;
     history := history s; events := events s |}.

Definition withLastUpdate (s : DeploymentStatus) (t : Z) : DeploymentStatus :=
  {| st_id := st_id s; stage := stage s; currentStage := currentStage s;
     trafficPercentage := trafficPercentage s; st_startTime := st_startTime s;
     lastUpdate := t; baseline := baseline s; current := current s;
     history := history s; events := events s |}.

Definition withMetrics (s : DeploymentStatus) (cur : DeploymentMetrics)
    (hist : list DeploymentMetrics) : DeploymentStatus :=
  {| st_id := st_id s; stage := stage s; currentStage := currentStage s;
     trafficPercentage := trafficPercentage s; st_startTime := st_startTime s;
     lastUpdate := lastUpdate s; baseline := baseline s; current := cur;
     history := hist; events := events s |}.

Definition withEvents (s : DeploymentStatus) (evs : list DeploymentEvent)
    : DeploymentStatus :=
  {| st_id := st_id s; stage := stage s; currentStage := currentStage s;
     trafficPercentage := trafficPercentage s; st_startTime := st_startTime s;
     lastUpdate := lastUpdate s; baseline := baseline s; current := current s;
     history := history s; events := evs |}.

(** [xs.length > n ? xs.slice(-n) : xs]. *)
Definition keepLast {A : Type} (n : nat) (xs : list A) : list A :=
  if (n <? length xs)%nat then Metrics.lastN n xs else xs.

(** [updateDeployment]: stamps [lastUpdate] and stores the deployment. *)
Definition updateDeployment (d : Deployer) (deploymentId : string)
    (deployment : ActiveDeployment) (now : Z) : Deployer :=
  setDeployments d
    (<[deploymentId := setStatus deployment (withLastUpdate (status deployment) now)]>
       (deployments d)).

Definition addEvent (d : Deployer) (deploymentId : string) (type : EventType)
    (message : Message) (now : Z) : Deployer :=
  match deployments d !! deploymentId with
  | None => d
  | Some deployment =>
      let event := {| ev_timestamp := now; ev_type := type; ev_message := message |} in
      let evs := keepLast 50 (events (status deployment) ++ [event]) in
      updateDeployment d deploymentId
        (setStatus deployment (withEvents (status deployment) evs)) now
  end.

Definition flagKey (deploymentId : string) : string :=
  ("deployment_" +:+ deploymentId)%string.

(** [stages.findIndex(s => s.percentage === percentage)]. *)
Fixpoint findIndex (sts : list CanaryStage) (p : number) (i : Z) : Z :=
  match sts with
  | [] => -1
  | s :: rest => if JS.eqb (percentage s) p then i else findIndex rest p (i + 1)
  end.

Definition deployToPercentage (d : Deployer) (deploymentId : string)
    (pct : number) (st : CanaryStage) (now : Z) : Deployer :=
  match deployments d !! deploymentId with
  | None => d
  | Some deployment =>
      let featureFlag :=
        {| key := flagKey deploymentId; enabled := true; rolloutPercentage := pct |} in
      let d := setFeatureFlags d (<[flagKey deploymentId := featureFlag]> (featureFlags d)) in
      let index := findIndex (stages (plan deployment)) pct 0 in
      let s := withStage (withTraffic (withCurrentStage (status deployment) index) pct)
                 MonitoringStage in
      let deployment := setStageStartTime (setStatus deployment s) now in
      let d := updateDeployment d deploymentId deployment now in
      addEvent d deploymentId StageStart (DeployedTo pct index) now
  end.

Definition completeDeployment (d : Deployer) (deploymentId : string) (now : Z)
    : Deployer :=
  match deployments d !! deploymentId with
  | None => d
  | Some deployment =>
      let s := withTraffic (withStage (status deployment) Completed) (JS.ofZ 100) in
      let d := updateDeployment d deploymentId (setStatus deployment s) now in
      let d := addEvent d deploymentId StageComplete DeploymentCompleted now in
      setMetricsCollector d
        (Metrics.stopCollection (metricsCollector d)
           (targetEndpoint (middleware deployment)))
  end.

Definition rollbackDeployment (d : Deployer) (deploymentId : string)
    (trigger : Trigger) (now : Z) : Deployer :=
  match deployments d !! deploymentId with
  | None => d
  | Some deployment =>
      let rollingBack := setStatus deployment (withStage (status deployment) RollingBack) in
      let d := updateDeployment d deploymentId rollingBack now in
      let d := setFeatureFlags d (delete (flagKey deploymentId) (featureFlags d)) in
      let s := withTraffic (withStage (status rollingBack) Failed) (JS.Fin 0) in
      let d := updateDeployment d deploymentId (setStatus rollingBack s) now in
      let d := addEvent d deploymentId RollbackEvent (RolledBack trigger) now in
      setMetricsCollector d
        (Metrics.stopCollection (metricsCollector d)
           (targetEndpoint (middleware deployment)))
  end.

Definition getDeploymentStatus (d : Deployer) (deploymentId : string)
    : option DeploymentStatus :=
  status <$> deployments d !! deploymentId.

(** The statuses of all deployments; the order of a JS [Map] is not
    represented. *)
Definition getActiveDeployments (d : Deployer) : list DeploymentStatus :=
  status <$> (map_to_list (deployments d)).*2.

(** [deployCanary] up to its call of [processDeployment]:
    [deploymentId] is the [randomUUID()] of the call. *)
Definition deployCanary (d : Deployer) (deploymentId : string)
    (mw : MiddlewareDefinition) (partial : option PartialPlan) (now : Z)
    : Deployer :=
  let fullPlan := createDeploymentPlan deploymentId (md_id mw) partial in
  let s :=
    {| st_id := deploymentId;
       stage := Planning;
       currentStage := -1;
       trafficPercentage := JS.Fin 0;
       st_startTime := now;
       lastUpdate := now;
       baseline := default (getEmptyMetrics now)
                     (Metrics.getBaseline (metricsCollector d) (targetEndpoint mw));
       current := getEmptyMetrics now;
       history := [];
       events := [] |} in
  let activeDeployment :=
    {| ad_id := deploymentId; middleware := mw; plan := fullPlan;
       status := s; stageStartTime := 0 |} in
  let d := setDeployments d (<[deploymentId := activeDeployment]> (deployments d)) in
  addEvent d deploymentId StageStart (Initiated deploymentId) now.

(** The local variables of one [monitorStage] call. *)
Record MonitorState : Type := mkMonitorState {
  checksCompleted : nat;
  lastCheckTime : Z
}.

Inductive Reason : Type :=
| DeploymentNotFound
| HealthCheckFailed (issues : list Metrics.Issue)
| MonitoringTimeout.

(** What one firing of the interval of [monitorStage] does to the
    promise: nothing, or [resolve]. *)
Inductive TickResult : Type :=
| Continue (ms : MonitorState)
| Resolve (success : bool) (reason : option Reason).

(** One firing of the interval callback of [monitorStage]. *)
Definition monitorTick (d : Deployer) (deploymentId : string)
    (st : CanaryStage) (stageIndex : nat) (ms : MonitorState) (now : Z)
    : Deployer * TickResult :=
  match deployments d !! deploymentId with
  | None => (d, Continue ms)
  | Some deployment =>
      let endpoint := targetEndpoint (middleware deployment) in
      let monitoringDuration := duration st * 1000 in
      let checkInterval := sampleFrequency (monitoring (plan deployment)) * 1000 in
      if monitoringDuration <=? now - stageStartTime deployment then
        (addEvent d deploymentId StageComplete
           (StageMonitoringCompleted stageIndex (checksCompleted ms)) now,
         Resolve true None)
      else if checkInterval <=? now - lastCheckTime ms then
        let ms := {| checksCompleted := S (checksCompleted ms); lastCheckTime := now |} in
        let currentMetrics :=
          Metrics.getMetrics (metricsCollector d) endpoint
            (windowSize (monitoring (plan deployment))) now in
        let hist := keepLast 20 (history (status deployment) ++ [currentMetrics]) in
        let d := updateDeployment d deploymentId
                   (setStatus deployment
                      (withMetrics (status deployment) currentMetrics hist)) now in
        let healthCheck :=
          Metrics.checkHealthThresholds (metricsCollector d) endpoint
            (rollbackThresholds (plan deployment)) now in
        let d := addEvent d deploymentId MetricsCheck
                   (HealthCheckDone (checksCompleted ms) (Metrics.healthy healthCheck)
                      (Metrics.issues healthCheck)) now in
        if Metrics.healthy healthCheck then (d, Continue ms)
        else
          (addEvent d deploymentId RollbackEvent
             (StageFailedHealthChecks stageIndex (Metrics.issues healthCheck)) now,
           Resolve false (Some (HealthCheckFailed (Metrics.issues healthCheck))))
      else (d, Continue ms)
  end.

(** What happens while a deployment is processed: the timers of
    [monitorStage] and of [startCollection] fire, and the host records
    requests. *)
Inductive Input : Type :=
| Tick (now : Z)
| SafetyTimeout (now : Z)
| Recorded (endpoint : string) (request : Metrics.RequestMetric) (now : Z)
| BaselineTimer (endpoint : string) (now : Z).

Inductive Outcome : Type :=
| Pending
| Resolved (success : bool) (reason : option Reason) (now : Z) (rest : list Input).

(** A run: the states after each step in order, the last state and how
    the run ended. *)
Record Run : Type := mkRun {
  trace : list Deployer;
  final : Deployer;
  outcome : Outcome
}.

Definition step (d : Deployer) (r : Run) : Run :=
  {| trace := d :: trace r; final := final r; outcome := outcome r |}.

(** The promise of [monitorStage], driven by the inputs, until it
    resolves. *)
Fixpoint monitorLoop (d : Deployer) (deploymentId : string) (st : CanaryStage)
    (stageIndex : nat) (ms : MonitorState) (inputs : list Input) : Run :=
  match inputs with
  | [] => {| trace := []; final := d; outcome := Pending |}
  | Tick now :: rest =>
      match monitorTick d deploymentId st stageIndex ms now with
      | (d', Continue ms') =>
          step d' (monitorLoop d' deploymentId st stageIndex ms' rest)
      | (d', Resolve success reason) =>
          {| trace := [d']; final := d'; outcome := Resolved success reason now rest |}
      end
  | SafetyTimeout now :: rest =>
      {| trace := []; final := d;
         outcome := Resolved false (Some MonitoringTimeout) now rest |}
  | Recorded endpoint request now :: rest =>
      let d' := setMetricsCollector d
                  (Metrics.recordRequest (metricsCollector d) endpoint request now) in
      step d' (monitorLoop d' deploymentId st stageIndex ms rest)
  | BaselineTimer endpoint now :: rest =>
      let d' := setMetricsCollector d
                  (Metrics.establishBaseline (metricsCollector d) endpoint now) in
      step d' (monitorLoop d' deploymentId st stageIndex ms rest)
  end.

Definition monitorStage (d : Deployer) (deploymentId : string) (st : CanaryStage)
    (stageIndex : nat) (now : Z) (inputs : list Input) : Run :=
  match deployments d !! deploymentId with
  | None =>
      {| trace := []; final := d;
         outcome := Resolved false (Some DeploymentNotFound) now inputs |}
  | Some _ =>
      monitorLoop d deploymentId st stageIndex
        {| checksCompleted := 0; lastCheckTime := 0 |} inputs
  end.

(** The [for] loop of [processDeployment] from stage [stageIndex] on, and
    what follows it: the states after each step. *)
Fixpoint processStages (sts : list CanaryStage) (stageIndex : nat)
    (d : Deployer) (deploymentId : string) (now : Z) (inputs : list Input)
    : list Deployer :=
  match sts with
  | [] => [completeDeployment d deploymentId now]
  | st :: rest =>
      let d1 := deployToPercentage d deploymentId (percentage st) st now in
      let r := monitorStage d1 deploymentId st stageIndex now inputs in
      d1 :: trace r ++
        match outcome r with
        | Pending => []
        | Resolved true _ now' inputs' =>
            processStages rest (S stageIndex) (final r) deploymentId now' inputs'
        | Resolved false _ now' _ =>
            [rollbackDeployment (final r) deploymentId Automatic now']
        end
  end.

Definition processDeployment (d : Deployer) (deploymentId : string) (now : Z)
    (inputs : list Input) : list Deployer :=
  match deployments d !! deploymentId with
  | None => []
  | Some deployment =>
      let d := updateDeployment d deploymentId
                 (setStatus deployment (withStage (status deployment) Deploying)) now in
      let d := setMetricsCollector d
                 (Metrics.startCollection (metricsCollector d)
                    (targetEndpoint (middleware deployment)) now) in
      d :: processStages (stages (plan deployment)) 0 d deploymentId now inputs
  end.

(** [shouldUseNewMiddleware]; [random] is the value of [Math.random()]. *)
Definition shouldUseNewMiddleware (d : Deployer) (deploymentId : string)
    (random : number) : bool :=
  match featureFlags d !! flagKey deploymentId with
  | None => false
  | Some flag =>
      enabled flag && JS.lt (JS.mul random (JS.ofZ 100)) (rolloutPercentage flag)
  end.

End Canary.

(** ** types.ts: rollback plans *)

Inductive Metric : Type :=
| ErrorRate
| ResponseTime
| SuccessRate.

Record RollbackTrigger : Type := mkRollbackTrigger {
  metric : Metric;
  threshold : number;
  rt_duration : Z
}.

Inductive PlanTrigger : Type :=
| PlanManual
| PlanAutomatic
| PlanTimeout.

Inductive Strategy : Type :=
| Immediate
| Gradual.

Record RollbackPlan : Type := mkRollbackPlan {
  rp_id : string;
  rp_deploymentId : string;
  rp_trigger : PlanTrigger;
  strategy : Strategy;
  preserveData : bool;
  backupLocation : option string;
  triggers : option (list RollbackTrigger)
}.

(** ** rollback.ts: [AutoRollbackManager] *)

Module Rollback.

(** A violation; its [reason] text is built from the three other
    fields. *)
Record RollbackViolation : Type := mkRollbackViolation {
  rv_timestamp : Z;
  rv_trigger : RollbackTrigger;
  currentValue : number
}.

Record RollbackMonitor : Type := mkRollbackMonitor {
  mon_id : string;
  mon_deploymentId : string;
  rollbackPlan : RollbackPlan;
  mon_startTime : Z;
  mon_active : bool;
  checks : nat;
  lastCheck : Z;
  violations : list RollbackViolation
}.

(** The reason of a rollback: the text given to [manualRollback], or the
    violations that the text of an automatic rollback lists. *)
Inductive RollbackReason : Type :=
| ManualReason (text : string)
| Triggered (violations : list RollbackViolation)
| HealthCheckError.

Record RollbackRecord : Type := mkRollbackRecord {
  rec_id : string;
  rec_deploymentId : string;
  rec_trigger : Trigger;
  rec_reason : RollbackReason;
  rec_startTime : Z;
  rec_endTime : Z;
  rec_success : bool;
  rec_strategy : Strategy
}.

(** The manager with the three components that it holds references to;
    the deployer holds the metrics collector. *)
Record Manager : Type := mkManager {
  injector : Injector.Injector;
  canaryDeployer : Canary.Deployer;
  monitors : gmap string RollbackMonitor;
  rollbackHistory : list RollbackRecord
}.

Inductive ManagerError : Type :=
| NoMonitorFound (deploymentId : string)
| DeploymentStatusNotFound.

Definition create (injector : Injector.Injector)
    (canaryDeployer : Canary.Deployer) : Manager :=
  {| injector := injector; canaryDeployer := canaryDeployer;
     monitors := ∅; rollbackHistory := [] |}.

Definition metricsCollector (m : Manager) : Metrics.Collector :=
  Canary.metricsCollector (canaryDeployer m).

Definition setMonitors (m : Manager) (ms : gmap string RollbackMonitor) : Manager :=
  {| injector := injector m; canaryDeployer := canaryDeployer m;
     monitors := ms; rollbackHistory := rollbackHistory m |}.

Definition setCanaryDeployer (m : Manager) (d : Canary.Deployer) : Manager :=
  {| injector := injector m; canaryDeployer := d;
     monitors := monitors m; rollbackHistory := rollbackHistory m |}.

Definition setInjector (m : Manager) (i : Injector.Injector) : Manager :=
  {| injector := i; canaryDeployer := canaryDeployer m;
     monitors := monitors m; rollbackHistory := rollbackHistory m |}.

Definition pushRecord (m : Manager) (r : RollbackRecord) : Manager :=
  {| injector := injector m; canaryDeployer := canaryDeployer m;
     monitors := monitors m; rollbackHistory := rollbackHistory m ++ [r] |}.

(** [startMonitoring] without its loop; one turn of the loop is
    [monitorTurn]. [monitorId] is the [randomUUID()] of the call. *)
Definition startMonitoring (m : Manager) (monitorId deploymentId : string)
    (rollbackPlan : RollbackPlan) (now : Z) : Manager :=
  setMonitors m
    (<[deploymentId :=
         {| mon_id := monitorId; mon_deploymentId := deploymentId;
            rollbackPlan := rollbackPlan; mon_startTime := now;
            mon_active := true; checks := 0; lastCheck := 0;
            violations := [] |}]> (monitors m)).

Definition stopMonitoring (m : Manager) (deploymentId : string) : Manager :=
  setMonitors m (delete deploymentId (monitors m)).

Definition metric_eqb (a b : Metric) : bool :=
  match a, b with
  | ErrorRate, ErrorRate | ResponseTime, ResponseTime
  | SuccessRate, SuccessRate => true
  | _, _ => false
  end.

(** The body of the loop of [evaluateRollbackTriggers]: the violation of
    one trigger, if it is violated. *)
Definition evaluateTrigger (currentMetrics : DeploymentMetrics) (now : Z)
    (trigger : RollbackTrigger) : option RollbackViolation :=
  let (currentValue, violated) :=
    match metric trigger with
    | ErrorRate =>
        (errorRate currentMetrics,
         JS.gt (errorRate currentMetrics) (threshold trigger))
    | SuccessRate =>
        (successRate currentMetrics,
         JS.lt (successRate currentMetrics) (threshold trigger))
    | ResponseTime =>
        (latency currentMetrics,
         JS.gt (latency currentMetrics) (threshold trigger))
    end in
  if violated then
    Some {| rv_timestamp := now; rv_trigger := trigger; currentValue := currentValue |}
  else None.

Definition evaluateRollbackTriggers (m : Manager) (deploymentId : string)
    (currentMetrics : DeploymentMetrics) (now : Z) : list RollbackViolation :=
  match monitors m !! deploymentId with
  | None => []
  | Some monitor =>
      match triggers (rollbackPlan monitor) with
      | None => []
      | Some ts => omap (evaluateTrigger currentMetrics now) ts
      end
  end.

Definition isCritical (v : RollbackViolation) : bool :=
  (metric_eqb (metric (rv_trigger v)) ErrorRate
     && JS.gt (currentValue v) (JS.Fin (1 # 2)))
  || (metric_eqb (metric (rv_trigger v)) SuccessRate
        && JS.lt (currentValue v) (JS.Fin (1 # 2))).

Definition isRecent (now : Z) (v : RollbackViolation) : bool :=
  now - rv_timestamp v <? 60000.

Definition sameMetric (v rv : RollbackViolation) : bool :=
  metric_eqb (metric (rv_trigger rv)) (metric (rv_trigger v)).

Definition shouldTriggerRollback (monitor : RollbackMonitor)
    (violations : list RollbackViolation) (now : Z) : bool :=
  let criticalViolations := List.filter isCritical violations in
  if (0 <? length criticalViolations)%nat then true
  else
    let recentViolations := List.filter (isRecent now) (Rollback.violations monitor) in
    let sustainedViolations :=
      List.filter
        (fun v =>
           let similar := List.filter (sameMetric v) recentViolations in
           (3 <=? length similar)%nat)
        violations in
    (0 <? length sustainedViolations)%nat.

Definition immediateRollback (m : Manager) (deploymentId : string) (now : Z)
    : Manager :=
  setCanaryDeployer m
    (Canary.rollbackDeployment (canaryDeployer m) deploymentId Automatic now).

(** "For now, use immediate rollback". *)
Definition gradualRollback (m : Manager) (deploymentId : string) (now : Z)
    : Manager :=
  immediateRollback m deploymentId now.

(** [executeRollback]; [rollbackId] is the [randomUUID()] of the call.
    Nothing in its [try] block throws, so the record is the one of a
    success. *)
Definition executeRollback (m : Manager) (rollbackId deploymentId : string)
    (trigger : Trigger) (reason : RollbackReason) (now : Z)
    : Result ManagerError unit * Manager :=
  match monitors m !! deploymentId with
  | None => (Err (NoMonitorFound deploymentId), m)
  | Some monitor =>
      let m :=
        match strategy (rollbackPlan monitor) with
        | Immediate => immediateRollback m deploymentId now
        | Gradual => gradualRollback m deploymentId now
        end in
      let record :=
        {| rec_id := rollbackId; rec_deploymentId := deploymentId;
           rec_trigger := trigger; rec_reason := reason;
           rec_startTime := now; rec_endTime := now;
           rec_success := true;
           rec_strategy := strategy (rollbackPlan monitor) |} in
      let m := pushRecord m record in
      (Ok tt, setMonitors m (delete deploymentId (monitors m)))
  end.

Definition manualRollback (m : Manager) (rollbackId deploymentId : string)
    (reason : string) (now : Z) : Result ManagerError unit * Manager :=
  match monitors m !! deploymentId with
  | None => (Err (NoMonitorFound deploymentId), m)
  | Some _ => executeRollback m rollbackId deploymentId Manual (ManualReason reason) now
  end.

(** "Default for our demo". *)
Definition extractEndpointFromDeployment (deployment : DeploymentStatus) : string :=
  "/api/signup".

Definition checked (now : Z) (mon : RollbackMonitor) : RollbackMonitor :=
  {| mon_id := mon_id mon; mon_deploymentId := mon_deploymentId mon;
     rollbackPlan := rollbackPlan mon; mon_startTime := mon_startTime mon;
     mon_active := mon_active mon; checks := S (checks mon); lastCheck := now;
     violations := violations mon |}.

Definition pushViolations (vs : list RollbackViolation) (mon : RollbackMonitor)
    : RollbackMonitor :=
  {| mon_id := mon_id mon; mon_deploymentId := mon_deploymentId mon;
     rollbackPlan := rollbackPlan mon; mon_startTime := mon_startTime mon;
     mon_active := mon_active mon; checks := checks mon; lastCheck := lastCheck mon;
     violations := violations mon ++ vs |}.

Definition isDone (g : Stage) : bool :=
  match g with
  | Completed | Failed => true
  | _ => false
  end.

Definition performHealthCheck (m : Manager) (rollbackId deploymentId : string)
    (now : Z) : Result ManagerError unit * Manager :=
  match monitors m !! deploymentId with
  | None => (Ok tt, m)
  | Some monitor =>
      let monitor := checked now monitor in
      let m := setMonitors m (<[deploymentId := monitor]> (monitors m)) in
      match Canary.getDeploymentStatus (canaryDeployer m) deploymentId with
      | None => (Err DeploymentStatusNotFound, m)
      | Some deployment =>
          if isDone (stage deployment) then (Ok tt, stopMonitoring m deploymentId)
          else
            let endpoint := extractEndpointFromDeployment deployment in
            let currentMetrics :=
              Metrics.getMetrics (metricsCollector m) endpoint 30 now in
            let vs := evaluateRollbackTriggers m deploymentId currentMetrics now in
            if (0 <? length vs)%nat then
              let monitor := pushViolations vs monitor in
              let m := setMonitors m (<[deploymentId := monitor]> (monitors m)) in
              if shouldTriggerRollback monitor vs now then
                executeRollback m rollbackId deploymentId Automatic (Triggered vs) now
              else (Ok tt, m)
            else (Ok tt, m)
      end
  end.

(** One turn of the loop of [monitorDeployment]: a failed health check
    triggers a rollback. *)
Definition monitorTurn (m : Manager) (rollbackId deploymentId : string) (now : Z)
    : Manager :=
  match monitors m !! deploymentId with
  | None => m
  | Some currentMonitor =>
      if negb (mon_active currentMonitor) then m
      else
        match performHealthCheck m rollbackId deploymentId now with
        | (Ok _, m') => m'
        | (Err _, m') =>
            snd (executeRollback m' rollbackId deploymentId Automatic
                   HealthCheckError now)
        end
  end.

Definition getActiveMonitors (m : Manager) : list RollbackMonitor :=
  List.filter mon_active (map_to_list (monitors m)).*2.

(** [toRollback.map(deployment => rollbackDeployment(deployment.id,
    'automatic'))]: no call yields before it ends, so the rollbacks run one
    after the other. *)
Definition rollbackEach (now : Z) (d : Canary.Deployer)
    (toRollback : list DeploymentStatus) : Canary.Deployer :=
  fold_left (fun d deployment =>
               Canary.rollbackDeployment d (st_id deployment) Automatic now)
            toRollback d.

(** [emergencyRollbackAll]: the deployments to roll back are chosen
    first, then rolled back, then the injector is stopped. *)
Definition emergencyRollbackAll (m : Manager) (now : Z) : Manager :=
  let activeDeployments := Canary.getActiveDeployments (canaryDeployer m) in
  let toRollback :=
    List.filter (fun d => negb (isDone (stage d))) activeDeployments in
  let deployer := rollbackEach now (canaryDeployer m) toRollback in
  setInjector (setCanaryDeployer m deployer)
              (Injector.emergencyStop (injector m)).

(** One firing of the interval of [enableCircuitBreaker]. *)
Definition circuitBreakerCheck (m : Manager) (endpoint : string)
    (maxErrorRate : number) (window : Z) (now : Z) : Manager :=
  let metrics := Metrics.getMetrics (metricsCollector m) endpoint window now in
  if JS.gt (errorRate metrics) maxErrorRate && (10 <? sampleSize metrics)%nat
  then emergencyRollbackAll m now
  else m.

End Rollback.

(** ** Sequences of injector operations *)

Module InjectorOps.
Import Injector.

(** The calls that the injector can receive: its methods, and a request
    that reaches a mounted wrapper. *)
Inductive Op : Type :=
| Inject (injectionId : string) (now : Z) (fsOk : bool)
    (definition : MiddlewareDefinition) (fn : MiddlewareFunction)
| Remove (injectionId : string) (fsOk : bool)
| Update (injectionId : string) (fn : MiddlewareFunction)
| EmergencyStop
| Call (w : Wrapper) (req : Request).

Definition apply (inj : Injector) (op : Op) : Injector :=
  match op with
  | Inject injectionId now fsOk definition fn =>
      snd (injectMiddleware inj injectionId now fsOk definition fn)
  | Remove injectionId fsOk => snd (removeMiddleware inj injectionId fsOk)
  | Update injectionId fn => snd (updateMiddleware inj injectionId fn)
  | EmergencyStop => emergencyStop inj
  | Call w req => snd (callWrapper inj w req)
  end.

Definition run (inj : Injector) (ops : list Op) : Injector :=
  fold_left apply ops inj.

(** [randomUUID()] does not return [injectionId] again. *)
Definition fresh (injectionId : string) (op : Op) : Prop :=
  match op with
  | Inject i _ _ _ _ => i <> injectionId
  | _ => True
  end.

End InjectorOps.

(** ** Concrete states for the examples *)

Module Scenario.

Definition signup : string := "/api/signup".

(** A time of day, in milliseconds since the epoch. *)
Definition t0 : Z := 1700000000000.

(** A request answered with [status] at time [t], after 12 ms. *)
Definition request (status t : Z) : Metrics.RequestMetric :=
  {| Metrics.rm_timestamp := t; Metrics.statusCode := status;
     Metrics.responseTime := 12; Metrics.rm_path := signup |}.

Definition record (status : Z) (c : Metrics.Collector) (t : Z) : Metrics.Collector :=
  Metrics.recordRequest c signup (request status t) t.

(** Collection on [/api/signup] started at [t0] and nothing recorded. *)
Definition idle : Metrics.Collector :=
  Metrics.startCollection Metrics.create signup t0.

(** Then five requests, all answered with 200, one a second. *)
Definition lowTraffic : Metrics.Collector :=
  fold_left (record 200)
    [t0 + 1000; t0 + 2000; t0 + 3000; t0 + 4000; t0 + 5000] idle.

(** The [rollbackThresholds] of the default deployment plan. *)
Definition thresholds : Thresholds :=
  rollbackThresholds (Canary.defaultPlan "d1" "fix1").

Definition stageOf (p seconds : Z) : CanaryStage :=
  {| percentage := JS.ofZ p; duration := seconds;
     successThreshold := JS.Fin (19 # 20); maxErrorRate := JS.Fin (1 # 20) |}.

(** A plan of two one-second stages, the first at 50% and the second at
    10%; the rest is the default plan. *)
Definition descending : PartialPlan :=
  {| pp_id := None; pp_fixId := None;
     pp_stages := Some [stageOf 50 1; stageOf 10 1];
     pp_rollbackThresholds := None; pp_monitoring := None |}.

(** A middleware that passes validation and calls [next()]. *)
Definition passing : Injector.MiddlewareFunction :=
  {| Injector.fn_length := 3;
     Injector.fn_source := "function adapt(req, res, next) { next(); }";
     Injector.fn_run := fun req =>
       {| Injector.ex_request := req;
          Injector.ex_next := [None];
          Injector.ex_throws := None |} |}.

(** A middleware with four parameters. *)
Definition fourParameters : Injector.MiddlewareFunction :=
  {| Injector.fn_length := 4;
     Injector.fn_source := "function adapt(err, req, res, next) { next(err); }";
     Injector.fn_run := Injector.fn_run passing |}.

Definition fix1 : MiddlewareDefinition :=
  {| md_id := "fix1"; md_name := "phone-adapter"; code := EmptyString;
     targetEndpoint := signup; priority := 1;
     conditions := Some {| methods := Some ["POST"%string];
                           paths := Some [signup];
                           headers := None |} |}.

(** The injection settings of [DeploymentConfigurations.production]. *)
Definition production : HotDeployConfig :=
  {| safeMode := true; validateBeforeDeploy := true;
     backupPrevious := true; maxConcurrentDeploys := 1 |}.

(** An injector at its cap of one patch. *)
Definition full : Injector.Injector :=
  snd (Injector.injectMiddleware (Injector.create production)
         "inj-1" t0 true fix1 passing).

Definition post : Injector.Request :=
  {| Injector.req_method := "POST"; Injector.req_path := signup;
     Injector.req_get := fun _ => None;
     Injector.req_body := [("phone", "555")]%string;
     Injector.req_injectionId := None;
     Injector.req_middlewareName := None |}.

(** A deployment of [fix1] with the default plan, on a system that has
    seen no traffic. *)
Definition started : Canary.Deployer :=
  Canary.deployCanary (Canary.create Metrics.create) "d1" fix1 None t0.

(** Its run up to the first health check, one second later: with no
    sample in the window the check fails and the deployment is rolled
    back. *)
Definition firstRun : list Canary.Deployer :=
  started :: Canary.processDeployment started "d1" t0 [Canary.Tick (t0 + 1000)].

Definition afterFirstRun : Canary.Deployer := List.last firstRun started.

(** Then a second deployment for the same endpoint starts; it is in its
    first stage. *)
Definition secondStarted : Canary.Deployer :=
  Canary.deployCanary afterFirstRun "d2" fix1 None (t0 + 5000).

Definition secondMonitoring : Canary.Deployer :=
  List.last (Canary.processDeployment secondStarted "d2" (t0 + 5000) [])
    secondStarted.

(** Two deployments in their first stage, and an injector with one
    active patch. *)
Definition bothMonitoring : Canary.Deployer :=
  let d := List.last (Canary.processDeployment started "d1" t0 []) started in
  let d := Canary.deployCanary d "d2" fix1 None (t0 + 2000) in
  List.last (Canary.processDeployment d "d2" (t0 + 2000) []) d.

Definition midStage : Rollback.Manager :=
  Rollback.create full bothMonitoring.

(** Ten requests in the first second, of which the first [errors] fail
    with status 500. *)
Definition traffic (errors : nat) : list Canary.Input :=
  List.map (fun k => Canary.Recorded signup
                       (request (if (k <=? errors)%nat then 500 else 200)
                                (t0 + 100 * Z.of_nat k))
                       (t0 + 100 * Z.of_nat k))
           (seq 1 10).

(** The first deployment in its first stage, after the host has recorded
    them. *)
Definition monitoredWith (errors : nat) : Canary.Deployer :=
  List.last (Canary.processDeployment started "d1" t0 (traffic errors)) started.

(** [count] requests answered with [status], a tenth of a second apart,
    from time [from] on. *)
Definition burst (status from : Z) (count : nat) : list Canary.Input :=
  List.map (fun k => Canary.Recorded signup
                       (request status (from + 100 * Z.of_nat k))
                       (from + 100 * Z.of_nat k))
           (seq 1 count).

(** The first second of the first stage sees ten successful requests and
    the health check of the deployer passes; then fifteen requests fail in
    a row. The next health check of the deployer is due at [t0 + 6000]. *)
Definition surge : list Canary.Input :=
  burst 200 t0 10 ++ [Canary.Tick (t0 + 1000)]
  ++ burst 500 (t0 + 1000) 15
  ++ [Canary.Tick (t0 + 2000); Canary.Tick (t0 + 3000); Canary.Tick (t0 + 4000)].

Definition afterSurge : Canary.Deployer :=
  List.last (Canary.processDeployment started "d1" t0 surge) started.

Definition planWith (ts : list RollbackTrigger) : RollbackPlan :=
  {| rp_id := "rollback_d1"; rp_deploymentId := "d1";
     rp_trigger := PlanAutomatic; strategy := Immediate;
     preserveData := true; backupLocation := None;
     triggers := Some ts |}.

(** [RollbackTriggers.aggressive]. *)
Definition aggressive : list RollbackTrigger :=
  [ {| metric := ErrorRate; threshold := JS.Fin (1 # 4); rt_duration := 10 |};
    {| metric := SuccessRate; threshold := JS.Fin (3 # 4); rt_duration := 10 |};
    {| metric := ResponseTime; threshold := JS.ofZ 10000; rt_duration := 30 |} ].

(** A plan that watches the response time only. *)
Definition latencyOnly : list RollbackTrigger :=
  [ {| metric := ResponseTime; threshold := JS.ofZ 2000; rt_duration := 30 |} ].

(** A plan with one trigger, on an error rate above 5%. *)
Definition fivePercent : list RollbackTrigger :=
  [ {| metric := ErrorRate; threshold := JS.Fin (1 # 20); rt_duration := 60 |} ].

(** The manager that monitors the first deployment with the triggers
    [ts], [errors] of the ten recorded requests having failed. *)
Definition monitoring (errors : nat) (ts : list RollbackTrigger) : Rollback.Manager :=
  Rollback.startMonitoring (Rollback.create full (monitoredWith errors))
    "mon-1" "d1" (planWith ts) t0.

(** The manager that monitors the first deployment, after the surge of
    failures, with the triggers [ts]. *)
Definition monitoringSurge (ts : list RollbackTrigger) : Rollback.Manager :=
  Rollback.startMonitoring (Rollback.create full afterSurge)
    "mon-1" "d1" (planWith ts) t0.

(** Three failures in ten requests, and the first two polls of the
    monitor, five seconds apart. *)
Definition afterTwoPolls : Rollback.Manager :=
  let m := monitoring 3 fivePercent in
  let m := snd (Rollback.performHealthCheck m "rb-1" "d1" (t0 + 5000)) in
  snd (Rollback.performHealthCheck m "rb-2" "d1" (t0 + 10000)).

End Scenario.

(** ** Runs of a deployment *)

Module Traces.
Import Canary.

Definition rolledBack (g : Stage) : bool :=
  match g with
  | RollingBack | Failed => true
  | _ => false
  end.

(** The stage and the traffic percentage of a deployment in a state of
    the deployer. *)
Definition viewOf (deploymentId : string) (d : Deployer)
    : option (Stage * number) :=
  (fun s => (stage s, trafficPercentage s)) <$> getDeploymentStatus d deploymentId.

(** [lo <= p1 <= ... <= pn <= 100] for the percentages of the stages. *)
Fixpoint ascendingFrom (lo : number) (sts : list CanaryStage) : bool :=
  match sts with
  | [] => JS.le lo (JS.ofZ 100)
  | st :: rest => JS.le lo (percentage st) && ascendingFrom (percentage st) rest
  end.

Definition ascending (sts : list CanaryStage) : bool :=
  ascendingFrom (JS.Fin 0) sts.

(** Along the states [tr] the traffic percentage of the deployment starts
    at [lo] or above and does not decrease, except that the last state may
    be the one of a rollback: failed, with no traffic. *)
Fixpoint climbs (deploymentId : string) (lo : number) (tr : list Deployer)
    : Prop :=
  match tr with
  | [] => True
  | d :: rest =>
      exists g p,
        viewOf deploymentId d = Some (g, p)
        /\ ((g = Failed /\ p = JS.Fin 0 /\ rest = [])
            \/ (rolledBack g = false /\ JS.le lo p = true
                /\ climbs deploymentId p rest))
  end.

(** The deployments are stored under their own id: the key of the map is
    the [id] of the status. [deployCanary] stores them so and no method
    changes either. *)
Definition wellFormed (d : Deployer) : Prop :=
  forall key dep, deployments d !! key = Some dep -> st_id (status dep) = key.

(** The [id] of the status stored under a key. *)
Definition idOf (key : string) (d : Deployer) : option string :=
  (fun dep => st_id (status dep)) <$> deployments d !! key.

End Traces.

(** ** Decisions of the rollback monitor *)

Module Decisions.
Import Rollback.

(** The violations that a poll with the metrics [currentMetrics] finds
    for the triggers of a monitor. *)
Definition found (monitor : RollbackMonitor) (currentMetrics : DeploymentMetrics)
    (now : Z) : list RollbackViolation :=
  omap (evaluateTrigger currentMetrics now)
       (default [] (triggers (rollbackPlan monitor))).

(** What the rollback of a deployment by the manager leaves behind: the
    deployment failed and without traffic, its monitor gone, and one more
    record in the history. *)
Definition rolledBackBy (before after : Manager) (deploymentId : string)
    (vs : list RollbackViolation) : Prop :=
  (exists s,
      Canary.getDeploymentStatus (canaryDeployer after) deploymentId = Some s
      /\ stage s = Failed /\ trafficPercentage s = JS.Fin 0)
  /\ monitors after !! deploymentId = None
  /\ exists record,
       rollbackHistory after = rollbackHistory before ++ [record]
       /\ rec_deploymentId record = deploymentId
       /\ rec_trigger record = Automatic
       /\ rec_reason record = Triggered vs
       /\ rec_success record = true.

(** The observation of a poll is critical for a trigger: the trigger is
    on the error rate, which is above its threshold and above 0.5, or on
    the success rate, which is below its threshold and below 0.5. *)
Definition criticalFor (currentMetrics : DeploymentMetrics)
    (trigger : RollbackTrigger) : bool :=
  match metric trigger with
  | ErrorRate =>
      JS.gt (errorRate currentMetrics) (threshold trigger)
      && JS.gt (errorRate currentMetrics) (JS.Fin (1 # 2))
  | SuccessRate =>
      JS.lt (successRate currentMetrics) (threshold trigger)
      && JS.lt (successRate currentMetrics) (JS.Fin (1 # 2))
  | ResponseTime => false
  end.

(** The earlier violations of a metric that a poll at [now] still counts:
    those of the last minute. *)
Definition recentOf (now : Z) (m : Metric) (vs : list RollbackViolation)
    : list RollbackViolation :=
  List.filter (fun rv => isRecent now rv && metric_eqb (metric (rv_trigger rv)) m) vs.

End Decisions.

(** ** metrics.ts and rollback.ts: the reports *)

Module Reporting.

Definition withTimestamp (m : DeploymentMetrics) (t : Z) : DeploymentMetrics :=
  {| successRate := successRate m; errorRate := errorRate m;
     latency := latency m; throughput := throughput m;
     dm_timestamp := t; sampleSize := sampleSize m |}.

(** The values of [i] in [for (let i = n; i > 0; i--)], for an integer
    [n]. *)
Definition countdown (n : Z) : list Z :=
  List.map Z.of_nat (rev (seq 1 (Z.to_nat n))).

(** [getMetricsHistory], for a whole number of minutes: every turn of the
    loop computes the metrics of the last 60 seconds and stamps them with
    the time [i] minutes ago. *)
Definition getMetricsHistory (c : Metrics.Collector) (endpoint : string)
    (minutes : Z) (now : Z) : list DeploymentMetrics :=
  let intervals := Z.min minutes 10 in
  omap (fun i =>
          let windowStart := i * 60 in
          match Metrics.calculateMetrics c endpoint 60 now with
          | Some metrics => Some (withTimestamp metrics (now - windowStart * 1000))
          | None => None
          end)
       (countdown intervals).

(** [xs.slice(start)] for an integer [start]: a negative [start] counts
    from the end. *)
Definition slice {A : Type} (start : Z) (xs : list A) : list A :=
  let len := Z.of_nat (length xs) in
  let from := if start <? 0 then Z.max (len + start) 0 else Z.min start len in
  drop (Z.to_nat from) xs.

(** [getRollbackHistory(limit)]: [slice(-limit).reverse()]. *)
Definition getRollbackHistory (m : Rollback.Manager) (limit : Z)
    : list Rollback.RollbackRecord :=
  rev (slice (- limit) (Rollback.rollbackHistory m)).

End Reporting.

(** ** canary.ts: the middleware that routes by feature flag *)

Module Routing.

(** A call of the function that [createCanaryMiddleware] returns, on a
    request for which [Math.random()] gives [random]: the new middleware
    runs, or [next()] is called. *)
Definition createCanaryMiddleware (d : Canary.Deployer) (deploymentId : string)
    (newMiddleware : Injector.MiddlewareFunction) (random : number)
    (req : Injector.Request) : Injector.Execution :=
  if Canary.shouldUseNewMiddleware d deploymentId random
  then Injector.fn_run newMiddleware req
  else {| Injector.ex_request := req;
          Injector.ex_next := [None];
          Injector.ex_throws := None |}.

(** A draw of [Math.random()]: a number in [0, 1). *)
Definition isDraw (random : number) : Prop :=
  exists q, random = JS.Fin q /\ (0 <= q)%Q /\ (q < 1)%Q.

End Routing.

(** ** The index of the package: [SelfHealingDeployer] and the shipped
    trigger sets *)

Module Orchestrator.

(** [RollbackTriggers]. *)
Definition trigger (m : Metric) (t : number) (seconds : Z) : RollbackTrigger :=
  {| metric := m; threshold := t; rt_duration := seconds |}.

Definition conservative : list RollbackTrigger :=
  [ trigger ErrorRate (JS.Fin (1 # 20)) 60;
    trigger SuccessRate (JS.Fin (19 # 20)) 60;
    trigger ResponseTime (JS.ofZ 2000) 30 ].

Definition moderate : list RollbackTrigger :=
  [ trigger ErrorRate (JS.Fin (1 # 10)) 30;
    trigger SuccessRate (JS.Fin (9 # 10)) 30;
    trigger ResponseTime (JS.ofZ 5000) 60 ].

Definition aggressive : list RollbackTrigger :=
  [ trigger ErrorRate (JS.Fin (1 # 4)) 10;
    trigger SuccessRate (JS.Fin (3 # 4)) 10;
    trigger ResponseTime (JS.ofZ 10000) 30 ].

Definition shipped : list (list RollbackTrigger) :=
  [conservative; moderate; aggressive].

(** The decimal text of an integer, as a template literal renders it. *)
Definition decimal (z : Z) : string := NilZero.string_of_int (Z.to_int z).

(** The middleware definition that [deployFix] builds. *)
Definition definitionOf (middlewareCode middlewareName endpoint : string)
    (now : Z) : MiddlewareDefinition :=
  {| md_id := "middleware_" +:+ decimal now;
     md_name := middlewareName;
     code := middlewareCode;
     targetEndpoint := endpoint;
     priority := 1;
     conditions := Some {| methods := Some ["POST"%string];
                           paths := Some [endpoint];
                           headers := None |} |}.

(** The rollback plan that [deployFix] monitors its deployment with. *)
Definition planOf (deploymentId : string) : RollbackPlan :=
  {| rp_id := "rollback_" +:+ deploymentId;
     rp_deploymentId := deploymentId;
     rp_trigger := PlanAutomatic;
     strategy := Immediate;
     preserveData := true;
     backupLocation := None;
     triggers := Some aggressive |}.

(** The part of [processDeployment] that runs before [deployCanary]
    returns: up to the first [await], which follows the deployment of the
    first stage. *)
Definition begun (d : Canary.Deployer) (deploymentId : string) (now : Z)
    : Canary.Deployer :=
  List.last (Canary.processDeployment d deploymentId now []) d.

(** [deployFix] after [compileMiddleware] has returned
    [middlewareFunction]; the dashboard is not represented. The three ids
    are the [randomUUID()] of [injectMiddleware], [deployCanary] and
    [startMonitoring]. *)
Definition deployFix (m : Rollback.Manager)
    (injectionId deploymentId monitorId : string) (fsOk : bool) (now : Z)
    (middlewareFunction : Injector.MiddlewareFunction)
    (middlewareCode middlewareName endpoint : string)
    : Result Injector.InjectorError string * Rollback.Manager :=
  let definition := definitionOf middlewareCode middlewareName endpoint now in
  match Injector.injectMiddleware (Rollback.injector m) injectionId now fsOk
          definition middlewareFunction with
  | (Err e, inj) => (Err e, Rollback.setInjector m inj)
  | (Ok _, inj) =>
      let m := Rollback.setInjector m inj in
      let d := Canary.deployCanary (Rollback.canaryDeployer m) deploymentId
                 definition None now in
      let m := Rollback.setCanaryDeployer m (begun d deploymentId now) in
      (Ok deploymentId,
       Rollback.startMonitoring m monitorId deploymentId (planOf deploymentId) now)
  end.

(** [SelfHealingDeployer.emergencyStop]: the injector is stopped, then
    [emergencyRollbackAll] runs. *)
Definition emergencyStop (m : Rollback.Manager) (now : Z) : Rollback.Manager :=
  Rollback.emergencyRollbackAll
    (Rollback.setInjector m (Injector.emergencyStop (Rollback.injector m))) now.

End Orchestrator.

(** ** What the regular expressions match *)

Module RegexSemantics.
Import Regex.

(** [Matches r s]: the whole of [s] matches [r]. *)
Inductive Matches : regex -> list ascii -> Prop :=
| MEps : Matches Eps []
| MClass (p : ascii -> bool) (c : ascii) : p c = true -> Matches (Class p) [c]
| MCat (r1 r2 : regex) (s1 s2 : list ascii) :
    Matches r1 s1 -> Matches r2 s2 -> Matches (Cat r1 r2) (s1 ++ s2)
| MAltL (r1 r2 : regex) (s : list ascii) : Matches r1 s -> Matches (Alt r1 r2) s
| MAltR (r1 r2 : regex) (s : list ascii) : Matches r2 s -> Matches (Alt r1 r2) s
| MStarNil (r : regex) : Matches (Star r) []
| MStarCons (r : regex) (s1 s2 : list ascii) :
    Matches r s1 -> Matches (Star r) s2 -> Matches (Star r) (s1 ++ s2).

(** Some substring of [s] matches [r]. *)
Definition Contains (r : regex) (s : list ascii) : Prop :=
  exists before found after,
    s = before ++ found ++ after /\ Matches r found.

End RegexSemantics.

(** ** Invariants of the deployer *)

Module Invariants.
Import Canary.

(** The event log and the metrics history of a status are within their
    capacities. *)
Definition bounded (s : DeploymentStatus) : Prop :=
  (length (events s) <= 50)%nat /\ (length (history s) <= 20)%nat.

(** Every deployment of the deployer has a status with the property. *)
Definition allStatus (P : DeploymentStatus -> Prop) (d : Deployer) : Prop :=
  forall key dep, deployments d !! key = Some dep -> P (status dep).

(** Every endpoint that the collector is collecting for has its buffer
    of requests. *)
Definition buffered (c : Metrics.Collector) : Prop :=
  forall endpoint,
    endpoint ∈ Metrics.activeCollectors c ->
    is_Some (Metrics.endpointMetrics c !! endpoint).

End Invariants.

(** * Properties *)

(** ** Metrics collector *)

Section MetricsProperties.
Import Metrics.

Lemma getMetrics_no_recent (c : Collector) (endpoint : string)
    (windowSeconds now : Z) :
  (forall m, endpointMetrics c !! endpoint = Some m ->
             List.filter (recent (now - windowSeconds * 1000)) (requests m) = []) ->
  getMetrics c endpoint windowSeconds now = getEmptyMetrics now.
Proof.
  intros Hempty. unfold getMetrics, calculateMetrics.
  destruct (endpointMetrics c !! endpoint) as [m|] eqn:Hm; [|reflexivity].
  rewrite (Hempty m eq_refl). reflexivity.
Qed.

(** C8. [getMetrics] over zero samples in the window (no entry for the
    endpoint, no recorded request, or none recent enough) returns the
    empty snapshot: both rates, the latency and the throughput are the
    finite number 0 and the sample size is 0. *)
Theorem getMetrics_zero_samples (c : Collector) (endpoint : string)
    (windowSeconds now : Z) :
  (forall m, endpointMetrics c !! endpoint = Some m ->
             List.filter (recent (now - windowSeconds * 1000)) (requests m) = []) ->
  let snapshot := getMetrics c endpoint windowSeconds now in
  snapshot = getEmptyMetrics now
  /\ successRate snapshot = JS.Fin 0
  /\ errorRate snapshot = JS.Fin 0
  /\ latency snapshot = JS.Fin 0
  /\ throughput snapshot = JS.Fin 0
  /\ sampleSize snapshot = 0%nat.
Proof.
  intros Hempty snapshot. subst snapshot.
  rewrite (getMetrics_no_recent _ _ _ _ Hempty). repeat split.
Qed.

(** A collector that has started on an endpoint and has recorded
    nothing. *)
Lemma getMetrics_zero_samples_witness :
  let snapshot :=
    getMetrics Scenario.idle Scenario.signup 60 (Scenario.t0 + 1000) in
  snapshot = getEmptyMetrics (Scenario.t0 + 1000)
  /\ successRate snapshot = JS.Fin 0
  /\ errorRate snapshot = JS.Fin 0
  /\ latency snapshot = JS.Fin 0
  /\ throughput snapshot = JS.Fin 0
  /\ sampleSize snapshot = 0%nat.
Proof.
  apply (getMetrics_zero_samples Scenario.idle Scenario.signup 60
           (Scenario.t0 + 1000)).
  intros m Hm. vm_compute in Hm. injection Hm as <-. reflexivity.
Defined.

(** Requests that are all older than the window count as no sample. *)
Example getMetrics_stale_samples :
  getMetrics Scenario.lowTraffic Scenario.signup 60 (Scenario.t0 + 100000)
  = getEmptyMetrics (Scenario.t0 + 100000).
Proof. vm_compute. reflexivity. Qed.

(** The sample-size check is one of the four conjuncts of [healthy]. *)
Lemma healthy_checks (c : Collector) (endpoint : string)
    (thresholds : Thresholds) (now : Z) :
  let hc := checkHealthThresholds c endpoint thresholds now in
  healthy hc = successRateOk (checks hc) && errorRateOk (checks hc)
               && latencyOk (checks hc) && sampleSizeOk (checks hc).
Proof. reflexivity. Qed.

Lemma identifyIssues_sample_size (ch : Checks) (cmp : MetricsComparison) :
  sampleSizeOk ch = false -> In InsufficientSampleSize (identifyIssues ch cmp).
Proof.
  intros H. unfold identifyIssues. rewrite H. cbn [pushUnless].
  apply in_or_app. right. left. reflexivity.
Qed.

(** C2, as the code has it. When the 60-second window of an endpoint
    holds fewer than 10 samples, [checkHealthThresholds] reports the
    endpoint unhealthy whatever its rates are, and "Insufficient sample
    size" is among the issues. *)
Theorem checkHealthThresholds_low_sample_unhealthy (c : Collector)
    (endpoint : string) (thresholds : Thresholds) (now : Z) :
  (sampleSize (getMetrics c endpoint defaultWindow now) < 10)%nat ->
  let hc := checkHealthThresholds c endpoint thresholds now in
  healthy hc = false
  /\ sampleSizeOk (checks hc) = false
  /\ In InsufficientSampleSize (issues hc).
Proof.
  intros Hlow hc.
  assert (Hgate : sampleSizeOk (checks hc) = false).
  { subst hc. unfold checkHealthThresholds. cbn [checks sampleSizeOk].
    apply Nat.leb_gt. exact Hlow. }
  assert (Hunhealthy : healthy hc = false).
  { subst hc. rewrite healthy_checks. rewrite Hgate. apply andb_false_r. }
  repeat split; [exact Hunhealthy | exact Hgate |].
  subst hc. unfold checkHealthThresholds in *. cbn [healthy checks issues] in *.
  rewrite Hunhealthy. apply identifyIssues_sample_size. exact Hgate.
Qed.

Lemma checkHealthThresholds_low_sample_unhealthy_witness :
  let hc := checkHealthThresholds Scenario.lowTraffic Scenario.signup
              Scenario.thresholds (Scenario.t0 + 6000) in
  healthy hc = false
  /\ sampleSizeOk (checks hc) = false
  /\ In InsufficientSampleSize (issues hc).
Proof.
  apply (checkHealthThresholds_low_sample_unhealthy Scenario.lowTraffic
           Scenario.signup Scenario.thresholds (Scenario.t0 + 6000)).
  vm_compute. lia.
Defined.

(** C2 fails as stated: five requests, all successful, no baseline. The
    three rate checks pass and the health check fails on the sample size
    alone. *)
Lemma checkHealthThresholds_fails_on_sample_size_alone :
  let hc := checkHealthThresholds Scenario.lowTraffic Scenario.signup
              Scenario.thresholds (Scenario.t0 + 6000) in
  sampleSize (hc_metrics hc) = 5%nat
  /\ successRateOk (checks hc) = true
  /\ errorRateOk (checks hc) = true
  /\ latencyOk (checks hc) = true
  /\ healthy hc = false
  /\ issues hc = [InsufficientSampleSize].
Proof. vm_compute. repeat split. Qed.

End MetricsProperties.

(** ** Middleware injector *)

Section InjectorProperties.
Import Injector.

Lemma active_count_le_size (inj : Injector) :
  (length (getAllInjections inj) <= size (activeMiddleware inj))%nat.
Proof.
  unfold getAllInjections, values.
  etransitivity; [apply filter_length_le|].
  rewrite length_fmap, length_map_to_list. reflexivity.
Qed.

(** C6, as the code has it. When the number of active patches has
    reached [maxConcurrentDeploys], [injectMiddleware] throws and leaves
    the injector as it was: nothing is queued, registered or mounted. The
    error is the capacity error when the function gets through the
    validation, which comes first, or when validation is off; otherwise
    it is the error of the validation. *)
Theorem injectMiddleware_at_capacity (inj : Injector) (injectionId : string)
    (now : Z) (fsOk : bool) (definition : MiddlewareDefinition)
    (middlewareFunction : MiddlewareFunction) :
  maxConcurrentDeploys (config inj) <= Z.of_nat (length (getAllInjections inj)) ->
  (exists e, injectMiddleware inj injectionId now fsOk definition middlewareFunction
             = (Err e, inj))
  /\ ((if validateBeforeDeploy (config inj)
       then validateMiddleware middlewareFunction else None) = None ->
      injectMiddleware inj injectionId now fsOk definition middlewareFunction
      = (Err (CapacityReached (maxConcurrentDeploys (config inj))), inj)).
Proof.
  intros Hcap.
  assert (Hfull : (maxConcurrentDeploys (config inj)
                   <=? Z.of_nat (size (activeMiddleware inj))) = true).
  { apply Z.leb_le. pose proof (active_count_le_size inj). lia. }
  unfold injectMiddleware.
  destruct (if validateBeforeDeploy (config inj)
            then validateMiddleware middlewareFunction else None) as [e|].
  - split; [exists e; reflexivity | discriminate].
  - rewrite Hfull. split; [eexists; reflexivity | reflexivity].
Qed.

Lemma injectMiddleware_at_capacity_witness :
  (exists e, injectMiddleware Scenario.full "inj-2" (Scenario.t0 + 2000) true Scenario.fix1
               Scenario.passing = (Err e, Scenario.full))
  /\ injectMiddleware Scenario.full "inj-2" (Scenario.t0 + 2000) true Scenario.fix1 Scenario.passing
     = (Err (CapacityReached 1), Scenario.full).
Proof.
  destruct (injectMiddleware_at_capacity Scenario.full "inj-2" (Scenario.t0 + 2000) true
              Scenario.fix1 Scenario.passing) as [Hfails Hcapacity].
  - vm_compute. discriminate.
  - split; [exact Hfails | apply Hcapacity; vm_compute; reflexivity].
Defined.

(** C6 fails as stated: the injector is at its cap of one patch and
    validation is on. A call with a function of four parameters throws the
    error of the validation, not the capacity error; the injector is left
    as it was. *)
Lemma injectMiddleware_at_capacity_validation_error :
  Z.of_nat (length (getAllInjections Scenario.full))
  = maxConcurrentDeploys (config Scenario.full)
  /\ injectMiddleware Scenario.full "inj-2" (Scenario.t0 + 2000) true Scenario.fix1
       Scenario.fourParameters
     = (Err (WrongArity 4), Scenario.full).
Proof. vm_compute. split; reflexivity. Qed.

(** The operations that keep an absent injection absent. *)
Lemma apply_keeps_absent (inj : Injector) (injectionId : string)
    (op : InjectorOps.Op) :
  InjectorOps.fresh injectionId op ->
  activeMiddleware inj !! injectionId = None ->
  activeMiddleware (InjectorOps.apply inj op) !! injectionId = None.
Proof.
  intros Hfresh Habsent. destruct op as [i t ok def fn | i ok | i fn | | w req]; cbn.
  - unfold injectMiddleware.
    destruct (if validateBeforeDeploy (config inj) then validateMiddleware fn else None);
      [exact Habsent|].
    destruct (maxConcurrentDeploys (config inj) <=? _); [exact Habsent|].
    destruct (backupPrevious (config inj) && negb ok); [exact Habsent|].
    cbn. rewrite lookup_insert_ne; [exact Habsent | exact Hfresh].
  - unfold removeMiddleware.
    destruct (activeMiddleware inj !! i); [|exact Habsent].
    cbn. rewrite lookup_delete. case_decide; [reflexivity | exact Habsent].
  - unfold updateMiddleware.
    destruct (activeMiddleware inj !! i) eqn:Hi; [|exact Habsent].
    destruct (if validateBeforeDeploy (config inj) then validateMiddleware fn else None);
      [exact Habsent|].
    cbn. rewrite lookup_insert_ne; [exact Habsent | congruence].
  - rewrite lookup_fmap, Habsent. reflexivity.
  - unfold callWrapper.
    destruct (activeMiddleware inj !! w_injectionId w); [|exact Habsent].
    destruct (negb (active i)); [exact Habsent|].
    destruct (negb (matchesConditions req (conditions (w_definition w))));
      [exact Habsent|].
    cbn. rewrite lookup_alter. case_decide; [|exact Habsent].
    subst. rewrite Habsent. reflexivity.
Qed.

Lemma run_keeps_absent (ops : list InjectorOps.Op) (inj : Injector)
    (injectionId : string) :
  Forall (InjectorOps.fresh injectionId) ops ->
  activeMiddleware inj !! injectionId = None ->
  activeMiddleware (InjectorOps.run inj ops) !! injectionId = None.
Proof.
  revert inj. induction ops as [|op ops IH]; intros inj Hfresh Habsent.
  - exact Habsent.
  - inversion Hfresh as [|? ? Hop Hops]; subst. cbn.
    apply IH; [exact Hops|]. apply apply_keeps_absent; assumption.
Qed.

Lemma removeMiddleware_absent (inj : Injector) (injectionId : string)
    (fsOk : bool) :
  activeMiddleware (snd (removeMiddleware inj injectionId fsOk)) !! injectionId
  = None.
Proof.
  unfold removeMiddleware.
  destruct (activeMiddleware inj !! injectionId) eqn:Hi; cbn.
  - apply lookup_delete_eq.
  - exact Hi.
Qed.

(** C7. After [removeMiddleware] on an injection id, and whatever the
    injector is asked to do afterwards (no later [randomUUID()] being that
    id again), a request that reaches a wrapper of that injection passes
    through: the continuation is called once, without an error, the
    request is the one that came in, and the injector, with all its
    request and error counts, is as it was before the call. *)
Theorem removed_wrapper_passes_through (inj : Injector) (injectionId : string)
    (fsOk : bool) (ops : list InjectorOps.Op) (w : Wrapper) (req : Request) :
  w_injectionId w = injectionId ->
  Forall (InjectorOps.fresh injectionId) ops ->
  let later := InjectorOps.run (snd (removeMiddleware inj injectionId fsOk)) ops in
  callWrapper later w req = ({| inv_request := req; inv_next := [None] |}, later).
Proof.
  intros Hw Hfresh later.
  assert (Habsent : activeMiddleware later !! injectionId = None).
  { apply run_keeps_absent; [exact Hfresh | apply removeMiddleware_absent]. }
  unfold callWrapper. rewrite Hw, Habsent. reflexivity.
Qed.

Lemma removed_wrapper_passes_through_witness :
  let w := createWrapperMiddleware "inj-1" Scenario.fix1 Scenario.passing in
  let later :=
    InjectorOps.run (snd (removeMiddleware Scenario.full "inj-1" true))
      [InjectorOps.Call w Scenario.post;
       InjectorOps.Inject "inj-2" (Scenario.t0 + 3000) true Scenario.fix1 Scenario.passing] in
  callWrapper later w Scenario.post
  = ({| inv_request := Scenario.post; inv_next := [None] |}, later).
Proof.
  apply (removed_wrapper_passes_through Scenario.full "inj-1" true).
  - reflexivity.
  - repeat constructor. discriminate.
Defined.

(** For contrast: while the injection is active the wrapper runs the
    patch, tags the request and counts it. *)
Example active_wrapper_runs_patch :
  let w := createWrapperMiddleware "inj-1" Scenario.fix1 Scenario.passing in
  let r := callWrapper Scenario.full w Scenario.post in
  req_injectionId (inv_request (fst r)) = Some "inj-1"
  /\ requestCount <$> activeMiddleware (snd r) !! "inj-1" = Some 1%nat.
Proof. vm_compute. split; reflexivity. Qed.

Lemma ofNat_nonzero (n : nat) :
  (0 < n)%nat -> Qeq_bool (inject_Z (Z.of_nat n)) 0 = false.
Proof.
  intros Hn. unfold Qeq_bool, inject_Z. cbn [Qnum Qden].
  apply Z.eqb_neq. lia.
Qed.

Lemma div_ofNat_finite (a : Q) (n : nat) :
  (0 < n)%nat ->
  JS.div (JS.Fin a) (JS.ofNat n) = JS.Fin (Qred (a / inject_Z (Z.of_nat n))).
Proof.
  intros Hn. unfold JS.div, JS.ofNat, JS.ofZ.
  rewrite (ofNat_nonzero n Hn). reflexivity.
Qed.

Lemma errorRateOf_finite (m : InjectedMiddleware) :
  errorRateOf m
  = JS.Fin (Qred (inject_Z (Z.of_nat (errorCount m))
                  / inject_Z (Z.of_nat (Nat.max (requestCount m) 1)))).
Proof. unfold errorRateOf. apply div_ofNat_finite. lia. Qed.

Lemma sum_errorRates_finite (ms : list InjectedMiddleware) (q : Q) :
  exists q', fold_left (fun sum m => JS.add sum (errorRateOf m)) ms (JS.Fin q)
             = JS.Fin q'.
Proof.
  revert q. induction ms as [|m ms IH]; intros q; cbn [fold_left].
  - exists q. reflexivity.
  - rewrite errorRateOf_finite. cbn [JS.add]. apply IH.
Qed.

(** C10. [getStatistics] never yields NaN or an infinity for
    [averageErrorRate]: it is a finite number for every injector, it is 0
    when no patch is active, and the error rate of each patch is the finite
    quotient of its error count by [max(requestCount, 1)], the error count
    itself when the patch has recorded no request. *)
Theorem getStatistics_division_safe (inj : Injector) :
  (exists q, averageErrorRate (getStatistics inj) = JS.Fin q)
  /\ (getAllInjections inj = [] ->
      averageErrorRate (getStatistics inj) = JS.Fin 0)
  /\ (forall m,
         errorRateOf m
         = JS.Fin (Qred (inject_Z (Z.of_nat (errorCount m))
                         / inject_Z (Z.of_nat (Nat.max (requestCount m) 1)))))
  /\ (forall m, requestCount m = 0%nat ->
                errorRateOf m = JS.Fin (Qred (inject_Z (Z.of_nat (errorCount m))))).
Proof.
  split; [|split; [|split]].
  - unfold getStatistics. cbn [averageErrorRate].
    destruct (getAllInjections inj) as [|m ms] eqn:Hactive.
    + exists 0%Q. reflexivity.
    + destruct (sum_errorRates_finite (m :: ms) 0) as [q Hq].
      rewrite Hq. cbn [length Nat.ltb Nat.leb].
      rewrite div_ofNat_finite by (cbn; lia). eexists. reflexivity.
  - intros Hnone. unfold getStatistics. cbn [averageErrorRate].
    rewrite Hnone. reflexivity.
  - apply errorRateOf_finite.
  - intros m Hzero. rewrite errorRateOf_finite, Hzero. cbn [Nat.max].
    f_equal. apply Qred_complete. change (inject_Z (Z.of_nat 1)) with 1%Q.
    field.
Qed.

(** An injector whose only patch was stopped before any request. *)
Lemma getStatistics_division_safe_witness :
  let inj := emergencyStop Scenario.full in
  (exists q, averageErrorRate (getStatistics inj) = JS.Fin q)
  /\ averageErrorRate (getStatistics inj) = JS.Fin 0
  /\ (forall m,
         errorRateOf m
         = JS.Fin (Qred (inject_Z (Z.of_nat (errorCount m))
                         / inject_Z (Z.of_nat (Nat.max (requestCount m) 1)))))
  /\ (forall m, requestCount m = 0%nat ->
                errorRateOf m = JS.Fin (Qred (inject_Z (Z.of_nat (errorCount m))))).
Proof.
  destruct (getStatistics_division_safe (emergencyStop Scenario.full))
    as (Hfinite & Hzero & Heach & Hnone).
  split; [exact Hfinite|].
  split; [apply Hzero; vm_compute; reflexivity|].
  split; [exact Heach | exact Hnone].
Defined.

(** An active patch that has recorded no request: its rate and the
    average are 0. *)
Example getStatistics_no_requests :
  totalActive (getStatistics Scenario.full) = 1%nat
  /\ totalRequests (getStatistics Scenario.full) = 0%nat
  /\ averageErrorRate (getStatistics Scenario.full) = JS.Fin 0.
Proof. vm_compute. repeat split. Qed.

End InjectorProperties.

(** ** JavaScript comparisons *)

Section NumberProperties.

Lemma le_refl_of_le (x y : number) : JS.le x y = true -> JS.le y y = true.
Proof.
  destruct x, y; cbn; intros H; try reflexivity; try discriminate H;
    apply Qle_bool_iff; apply Qle_refl.
Qed.

Lemma le_trans (x y z : number) :
  JS.le x y = true -> JS.le y z = true -> JS.le x z = true.
Proof.
  destruct x as [a| | |], y as [b| | |], z as [c| | |]; cbn;
    intros Hxy Hyz; try reflexivity; try discriminate.
  apply Qle_bool_iff. apply Qle_bool_iff in Hxy, Hyz.
  eapply Qle_trans; eassumption.
Qed.

End NumberProperties.

(** ** Canary deployer *)

Section CanaryProperties.
Import Canary Traces.

Lemma lookup_updateDeployment (d : Deployer) (deploymentId other : string)
    (dep : ActiveDeployment) (now : Z) :
  deployments (updateDeployment d deploymentId dep now) !! other
  = if decide (deploymentId = other)
    then Some (setStatus dep (withLastUpdate (status dep) now))
    else deployments d !! other.
Proof. unfold updateDeployment. cbn. apply lookup_insert. Qed.

Lemma lookup_addEvent (d : Deployer) (deploymentId other : string)
    (type : EventType) (message : Message) (now : Z) :
  deployments (addEvent d deploymentId type message now) !! other
  = if decide (deploymentId = other)
    then (fun dep =>
            setStatus dep
              (withLastUpdate
                 (withEvents (status dep)
                    (keepLast 50
                       (events (status dep)
                        ++ [{| ev_timestamp := now; ev_type := type;
                               ev_message := message |}])))
                 now))
         <$> deployments d !! deploymentId
    else deployments d !! other.
Proof.
  unfold addEvent.
  destruct (deployments d !! deploymentId) as [dep|] eqn:Hdep.
  - rewrite lookup_updateDeployment. case_decide; reflexivity.
  - case_decide; [subst; rewrite Hdep|]; reflexivity.
Qed.

Lemma addEvent_rest (d : Deployer) (deploymentId : string)
    (type : EventType) (message : Message) (now : Z) :
  featureFlags (addEvent d deploymentId type message now) = featureFlags d
  /\ metricsCollector (addEvent d deploymentId type message now)
     = metricsCollector d.
Proof.
  unfold addEvent. destruct (deployments d !! deploymentId); split; reflexivity.
Qed.

(** [rollbackDeployment] on a deployment that there is, in full. *)
Lemma rollbackDeployment_found (d : Deployer) (deploymentId : string)
    (trigger : Trigger) (now : Z) (dep : ActiveDeployment) :
  deployments d !! deploymentId = Some dep ->
  rollbackDeployment d deploymentId trigger now
  = {| deployments :=
         <[deploymentId :=
             setStatus dep
               {| st_id := st_id (status dep);
                  stage := Failed;
                  currentStage := currentStage (status dep);
                  trafficPercentage := JS.Fin 0;
                  st_startTime := st_startTime (status dep);
                  lastUpdate := now;
                  baseline := baseline (status dep);
                  current := current (status dep);
                  history := history (status dep);
                  events :=
                    keepLast 50
                      (events (status dep)
                       ++ [{| ev_timestamp := now; ev_type := RollbackEvent;
                              ev_message := RolledBack trigger |}]) |}]>
           (deployments d);
       featureFlags := delete (flagKey deploymentId) (featureFlags d);
       metricsCollector :=
         Metrics.stopCollection (metricsCollector d)
           (targetEndpoint (middleware dep)) |}.
Proof.
  intros Hdep. unfold rollbackDeployment. rewrite Hdep.
  unfold addEvent, updateDeployment. cbn.
  rewrite lookup_insert_eq. cbn.
  unfold setMetricsCollector, setDeployments. cbn.
  rewrite !insert_insert_eq. reflexivity.
Qed.

Lemma viewOf_lookup (deploymentId : string) (d : Deployer) :
  viewOf deploymentId d
  = (fun dep => (stage (status dep), trafficPercentage (status dep)))
    <$> deployments d !! deploymentId.
Proof.
  unfold viewOf, getDeploymentStatus.
  destruct (deployments d !! deploymentId); reflexivity.
Qed.

Lemma viewOf_addEvent (deploymentId other : string) (d : Deployer)
    (type : EventType) (message : Message) (now : Z) :
  viewOf deploymentId (addEvent d other type message now) = viewOf deploymentId d.
Proof.
  rewrite !viewOf_lookup, lookup_addEvent.
  case_decide; [subst|reflexivity].
  destruct (deployments d !! deploymentId); reflexivity.
Qed.

Lemma viewOf_setMetricsCollector (deploymentId : string) (d : Deployer)
    (c : Metrics.Collector) :
  viewOf deploymentId (setMetricsCollector d c) = viewOf deploymentId d.
Proof. reflexivity. Qed.

Lemma viewOf_monitorTick (deploymentId other : string) (d : Deployer)
    (st : CanaryStage) (stageIndex : nat) (ms : MonitorState) (now : Z) :
  viewOf deploymentId (fst (monitorTick d other st stageIndex ms now))
  = viewOf deploymentId d.
Proof.
  unfold monitorTick.
  destruct (deployments d !! other) as [dep|] eqn:Hdep; [|reflexivity].
  destruct (duration st * 1000 <=? now - stageStartTime dep).
  { cbn [fst]. apply viewOf_addEvent. }
  destruct (sampleFrequency (monitoring (plan dep)) * 1000 <=? now - lastCheckTime ms);
    [|reflexivity].
  assert (Hupdate : forall cur hist,
             viewOf deploymentId
               (updateDeployment d other
                  (setStatus dep (withMetrics (status dep) cur hist)) now)
             = viewOf deploymentId d).
  { intros cur hist. rewrite !viewOf_lookup, lookup_updateDeployment.
    case_decide; [subst; rewrite Hdep|]; reflexivity. }
  match goal with
  | |- context [if ?b then _ else _] => destruct b
  end; cbn [fst]; rewrite ?viewOf_addEvent; apply Hupdate.
Qed.

Lemma viewOf_deployToPercentage (deploymentId : string) (d : Deployer)
    (pct : number) (st : CanaryStage) (now : Z) :
  is_Some (viewOf deploymentId d) ->
  viewOf deploymentId (deployToPercentage d deploymentId pct st now)
  = Some (MonitoringStage, pct).
Proof.
  rewrite viewOf_lookup. intros [v Hv]. unfold deployToPercentage.
  destruct (deployments d !! deploymentId) as [dep|]; [|discriminate Hv].
  rewrite viewOf_addEvent, viewOf_lookup, lookup_updateDeployment.
  case_decide; [reflexivity | congruence].
Qed.

Lemma viewOf_completeDeployment (deploymentId : string) (d : Deployer) (now : Z) :
  is_Some (viewOf deploymentId d) ->
  viewOf deploymentId (completeDeployment d deploymentId now)
  = Some (Completed, JS.ofZ 100).
Proof.
  rewrite viewOf_lookup. intros [v Hv]. unfold completeDeployment.
  destruct (deployments d !! deploymentId) as [dep|]; [|discriminate Hv].
  rewrite viewOf_setMetricsCollector, viewOf_addEvent, viewOf_lookup,
    lookup_updateDeployment.
  case_decide; [reflexivity | congruence].
Qed.

Lemma viewOf_rollbackDeployment (deploymentId : string) (d : Deployer)
    (trigger : Trigger) (now : Z) :
  is_Some (viewOf deploymentId d) ->
  viewOf deploymentId (rollbackDeployment d deploymentId trigger now)
  = Some (Failed, JS.Fin 0).
Proof.
  rewrite viewOf_lookup. intros [v Hv].
  destruct (deployments d !! deploymentId) as [dep|] eqn:Hdep; [|discriminate Hv].
  rewrite (rollbackDeployment_found _ _ _ _ _ Hdep), viewOf_lookup. cbn.
  rewrite lookup_insert_eq. reflexivity.
Qed.

(** While a stage is monitored the stage name and the traffic
    percentage stay as [deployToPercentage] set them. *)
Lemma monitorLoop_views (deploymentId : string) (st : CanaryStage)
    (stageIndex : nat) (inputs : list Input) :
  forall (d : Deployer) (ms : MonitorState),
    let r := monitorLoop d deploymentId st stageIndex ms inputs in
    Forall (fun d' => viewOf deploymentId d' = viewOf deploymentId d) (trace r)
    /\ viewOf deploymentId (final r) = viewOf deploymentId d.
Proof.
  induction inputs as [|input rest IH]; intros d ms; cbn.
  - split; [constructor | reflexivity].
  - destruct input as [now | now | endpoint request now | endpoint now].
    + pose proof (viewOf_monitorTick deploymentId deploymentId d st stageIndex ms now)
        as Htick.
      destruct (monitorTick d deploymentId st stageIndex ms now) as [d' [ms'|ok reason]];
        cbn [fst] in Htick; cbn.
      * destruct (IH d' ms') as [Htrace Hfinal]. split.
        -- constructor; [exact Htick|].
           eapply Forall_impl; [exact Htrace|]. cbn. intros ? ->. exact Htick.
        -- rewrite Hfinal. exact Htick.
      * split; [repeat constructor|]; exact Htick.
    + cbn. split; [constructor | reflexivity].
    + cbn.
      destruct (IH (setMetricsCollector d
                      (Metrics.recordRequest (metricsCollector d) endpoint request now))
                   ms) as [Htrace Hfinal].
      split; [constructor; [reflexivity | exact Htrace] | exact Hfinal].
    + cbn.
      destruct (IH (setMetricsCollector d
                      (Metrics.establishBaseline (metricsCollector d) endpoint now))
                   ms) as [Htrace Hfinal].
      split; [constructor; [reflexivity | exact Htrace] | exact Hfinal].
Qed.

Lemma climbs_after_same (deploymentId : string) (g : Stage) (p : number)
    (same rest : list Deployer) :
  Forall (fun d => viewOf deploymentId d = Some (g, p)) same ->
  rolledBack g = false -> JS.le p p = true ->
  climbs deploymentId p rest ->
  climbs deploymentId p (same ++ rest).
Proof.
  intros Hsame Hg Hp Hrest. induction Hsame as [|d same Hd _ IH]; cbn.
  - exact Hrest.
  - exists g, p. split; [exact Hd|]. right. auto.
Qed.

Lemma processStages_climbs (deploymentId : string) (sts : list CanaryStage) :
  forall (stageIndex : nat) (d : Deployer) (now : Z) (inputs : list Input)
         (lo : number),
    is_Some (viewOf deploymentId d) ->
    ascendingFrom lo sts = true ->
    climbs deploymentId lo (processStages sts stageIndex d deploymentId now inputs).
Proof.
  induction sts as [|st rest IH]; intros stageIndex d now inputs lo Hd Hasc.
  - cbn. exists Completed, (JS.ofZ 100).
    split; [apply viewOf_completeDeployment; exact Hd|].
    right. repeat split. exact Hasc.
  - cbn [ascendingFrom] in Hasc. apply andb_true_iff in Hasc as [Hlo Hrest].
    cbn [processStages].
    set (d1 := deployToPercentage d deploymentId (percentage st) st now).
    assert (Hd1 : viewOf deploymentId d1 = Some (MonitoringStage, percentage st))
      by (apply viewOf_deployToPercentage; exact Hd).
    exists MonitoringStage, (percentage st). split; [exact Hd1|].
    right. split; [reflexivity|]. split; [exact Hlo|].
    assert (Hrun : Forall (fun d' => viewOf deploymentId d'
                                     = Some (MonitoringStage, percentage st))
                     (trace (monitorStage d1 deploymentId st stageIndex now inputs))
                   /\ viewOf deploymentId
                        (final (monitorStage d1 deploymentId st stageIndex now inputs))
                      = Some (MonitoringStage, percentage st)).
    { unfold monitorStage.
      destruct (deployments d1 !! deploymentId).
      - rewrite <- Hd1. apply monitorLoop_views.
      - cbn. split; [constructor | exact Hd1]. }
    destruct Hrun as [Htrace Hfinal].
    apply (climbs_after_same deploymentId MonitoringStage);
      [exact Htrace | reflexivity | exact (le_refl_of_le _ _ Hlo) |].
    destruct (outcome (monitorStage d1 deploymentId st stageIndex now inputs))
      as [|[|] reason now' inputs'].
    + exact I.
    + apply IH; [rewrite Hfinal; eexists; reflexivity | exact Hrest].
    + cbn. exists Failed, (JS.Fin 0).
      split; [apply viewOf_rollbackDeployment; rewrite Hfinal; eexists; reflexivity|].
      left. repeat split.
Qed.

Lemma deployCanary_lookup (d : Deployer) (deploymentId : string)
    (mw : MiddlewareDefinition) (partial : option PartialPlan) (now : Z) :
  exists dep,
    deployments (deployCanary d deploymentId mw partial now) !! deploymentId
    = Some dep
    /\ plan dep = createDeploymentPlan deploymentId (md_id mw) partial
    /\ st_id (status dep) = deploymentId
    /\ stage (status dep) = Planning
    /\ trafficPercentage (status dep) = JS.Fin 0.
Proof.
  unfold deployCanary. rewrite lookup_addEvent.
  case_decide; [|congruence]. cbn. rewrite lookup_insert_eq. cbn.
  eexists. split; [reflexivity|]. repeat split.
Qed.

Lemma run_climbs (d : Deployer) (deploymentId : string)
    (mw : MiddlewareDefinition) (partial : option PartialPlan) (now : Z)
    (inputs : list Input) :
  ascending (stages (createDeploymentPlan deploymentId (md_id mw) partial)) = true ->
  let d0 := deployCanary d deploymentId mw partial now in
  climbs deploymentId (JS.Fin 0) (d0 :: processDeployment d0 deploymentId now inputs).
Proof.
  intros Hasc d0.
  destruct (deployCanary_lookup d deploymentId mw partial now)
    as (dep & Hdep & Hplan & _ & Hstage & Htraffic).
  fold d0 in Hdep.
  cbn [climbs]. exists Planning, (JS.Fin 0). split.
  { rewrite viewOf_lookup, Hdep. cbn. rewrite Hstage, Htraffic. reflexivity. }
  right. split; [reflexivity|]. split; [reflexivity|].
  unfold processDeployment. rewrite Hdep, Hplan. cbn [climbs].
  match goal with
  | |- context [processStages _ _ ?dd _ _ _] => set (deploying := dd)
  end.
  assert (Hview : viewOf deploymentId deploying = Some (Deploying, JS.Fin 0)).
  { subst deploying. rewrite viewOf_setMetricsCollector, viewOf_lookup,
      lookup_updateDeployment.
    case_decide; [|congruence]. cbn. rewrite Htraffic. reflexivity. }
  exists Deploying, (JS.Fin 0). split; [exact Hview|].
  right. split; [reflexivity|]. split; [reflexivity|].
  apply processStages_climbs; [rewrite Hview; eexists; reflexivity | exact Hasc].
Qed.

Lemma climbs_each (deploymentId : string) (tr : list Deployer) :
  forall (lo : number) (j : nat) (dj : Deployer),
    climbs deploymentId lo tr -> tr !! j = Some dj ->
    exists g p,
      viewOf deploymentId dj = Some (g, p)
      /\ ((g = Failed /\ p = JS.Fin 0)
          \/ (rolledBack g = false /\ JS.le lo p = true)).
Proof.
  induction tr as [|d rest IH]; intros lo j dj Hclimbs Hj; [discriminate Hj|].
  destruct Hclimbs as (g & p & Hview & Hcase).
  destruct j as [|j]; cbn in Hj.
  - injection Hj as <-. exists g, p. split; [exact Hview|].
    destruct Hcase as [(Hg & Hp & _) | (Hg & Hlo & _)]; [left | right]; auto.
  - destruct Hcase as [(_ & _ & ->) | (_ & Hlo & Hrest)]; [discriminate Hj|].
    destruct (IH p j dj Hrest Hj) as (g' & p' & Hview' & Hcase').
    exists g', p'. split; [exact Hview'|].
    destruct Hcase' as [? | [Hg' Hp']]; [left; assumption | right].
    split; [exact Hg' | exact (le_trans _ _ _ Hlo Hp')].
Qed.

Lemma climbs_pairs (deploymentId : string) (tr : list Deployer) :
  forall (lo : number) (i j : nat) (di dj : Deployer),
    climbs deploymentId lo tr -> (i <= j)%nat ->
    tr !! i = Some di -> tr !! j = Some dj ->
    exists gi pi gj pj,
      viewOf deploymentId di = Some (gi, pi)
      /\ viewOf deploymentId dj = Some (gj, pj)
      /\ ((gj = Failed /\ pj = JS.Fin 0)
          \/ (rolledBack gj = false /\ JS.le pi pj = true)).
Proof.
  induction tr as [|d rest IH]; intros lo i j di dj Hclimbs Hij Hi Hj;
    [discriminate Hi|].
  destruct Hclimbs as (g & p & Hview & Hcase).
  destruct i as [|i]; cbn in Hi.
  - injection Hi as <-. destruct j as [|j]; cbn in Hj.
    + injection Hj as <-. exists g, p, g, p. repeat split; try exact Hview.
      destruct Hcase as [(Hg & Hp & _) | (Hg & Hlo & _)]; [left; auto | right].
      split; [exact Hg | exact (le_refl_of_le _ _ Hlo)].
    + destruct Hcase as [(_ & _ & ->) | (_ & _ & Hrest)]; [discriminate Hj|].
      destruct (climbs_each deploymentId rest p j dj Hrest Hj)
        as (gj & pj & Hviewj & Hcasej).
      exists g, p, gj, pj. auto.
  - destruct j as [|j]; [lia|]. cbn in Hj.
    destruct Hcase as [(_ & _ & ->) | (_ & _ & Hrest)]; [discriminate Hj|].
    apply (IH p i j di dj Hrest); [lia | exact Hi | exact Hj].
Qed.

Lemma viewOf_status (deploymentId : string) (d : Deployer) (g : Stage)
    (p : number) :
  viewOf deploymentId d = Some (g, p) ->
  exists s, getDeploymentStatus d deploymentId = Some s
            /\ stage s = g /\ trafficPercentage s = p.
Proof.
  unfold viewOf. destruct (getDeploymentStatus d deploymentId) as [s|]; cbn;
    [|discriminate].
  intros [= <- <-]. exists s. auto.
Qed.

(** C1, as the code has it. For a deployment whose plan lists its stage
    percentages in non-decreasing order between 0 and 100, over the states
    that [deployCanary] and [processDeployment] go through,
    [trafficPercentage] never decreases from an earlier state to a later
    one, except into the state that [rollbackDeployment] leaves, where the
    stage is Failed and [trafficPercentage] is 0; and [rollbackDeployment]
    on any deployment leaves it Failed with [trafficPercentage] 0. *)
Theorem trafficPercentage_monotone_until_rollback (d : Deployer)
    (deploymentId : string) (mw : MiddlewareDefinition)
    (partial : option PartialPlan) (now : Z) (inputs : list Input) :
  ascending (stages (createDeploymentPlan deploymentId (md_id mw) partial)) = true ->
  let d0 := deployCanary d deploymentId mw partial now in
  let states := d0 :: processDeployment d0 deploymentId now inputs in
  (forall (i j : nat) (di dj : Deployer),
      (i <= j)%nat -> states !! i = Some di -> states !! j = Some dj ->
      exists si sj,
        getDeploymentStatus di deploymentId = Some si
        /\ getDeploymentStatus dj deploymentId = Some sj
        /\ ((stage sj = Failed /\ trafficPercentage sj = JS.Fin 0)
            \/ (rolledBack (stage sj) = false
                /\ JS.le (trafficPercentage si) (trafficPercentage sj) = true)))
  /\ (forall (d' : Deployer) (trigger : Trigger) (t : Z),
         is_Some (deployments d' !! deploymentId) ->
         exists s,
           getDeploymentStatus (rollbackDeployment d' deploymentId trigger t)
             deploymentId = Some s
           /\ stage s = Failed /\ trafficPercentage s = JS.Fin 0).
Proof.
  intros Hasc d0 states. split.
  - intros i j di dj Hij Hi Hj.
    destruct (climbs_pairs deploymentId states (JS.Fin 0) i j di dj
                (run_climbs d deploymentId mw partial now inputs Hasc) Hij Hi Hj)
      as (gi & pi & gj & pj & Hvi & Hvj & Hcase).
    destruct (viewOf_status _ _ _ _ Hvi) as (si & Hsi & _ & Hpi).
    destruct (viewOf_status _ _ _ _ Hvj) as (sj & Hsj & Hgj & Hpj).
    exists si, sj. rewrite Hgj, Hpi, Hpj. auto.
  - intros d' trigger t [dep Hdep].
    apply viewOf_status, viewOf_rollbackDeployment.
    rewrite viewOf_lookup, Hdep. eexists. reflexivity.
Qed.

Lemma trafficPercentage_monotone_until_rollback_witness :
  let states := Scenario.firstRun in
  (forall (i j : nat) (di dj : Deployer),
      (i <= j)%nat -> states !! i = Some di -> states !! j = Some dj ->
      exists si sj,
        getDeploymentStatus di "d1" = Some si
        /\ getDeploymentStatus dj "d1" = Some sj
        /\ ((stage sj = Failed /\ trafficPercentage sj = JS.Fin 0)
            \/ (rolledBack (stage sj) = false
                /\ JS.le (trafficPercentage si) (trafficPercentage sj) = true)))
  /\ (forall (d' : Deployer) (trigger : Trigger) (t : Z),
         is_Some (deployments d' !! "d1") ->
         exists s,
           getDeploymentStatus (rollbackDeployment d' "d1" trigger t) "d1" = Some s
           /\ stage s = Failed /\ trafficPercentage s = JS.Fin 0).
Proof.
  apply (trafficPercentage_monotone_until_rollback (create Metrics.create) "d1"
           Scenario.fix1 None Scenario.t0 [Tick (Scenario.t0 + 1000)]).
  vm_compute. reflexivity.
Defined.

(** The run of the witness: planned, deploying, 10% of the traffic, the
    failed health check, rolled back. *)
Example firstRun_views :
  viewOf "d1" <$> Scenario.firstRun
  = [Some (Planning, JS.Fin 0); Some (Deploying, JS.Fin 0);
     Some (MonitoringStage, JS.ofZ 10); Some (MonitoringStage, JS.ofZ 10);
     Some (Failed, JS.Fin 0)].
Proof. vm_compute. reflexivity. Qed.

(** C1 fails as stated: the plan [Scenario.descending] has a stage at 50%
    followed by a stage at 10%. Both stages run their second and pass, and
    the traffic percentage goes from 50 down to 10 while the deployment is
    in its monitoring state. *)
Lemma trafficPercentage_decreases_while_monitoring :
  let d0 := deployCanary (create Metrics.create) "d1" Scenario.fix1
              (Some Scenario.descending) Scenario.t0 in
  let states :=
    d0 :: processDeployment d0 "d1" Scenario.t0
            [Tick (Scenario.t0 + 1000); Tick (Scenario.t0 + 2000)] in
  viewOf "d1" <$> states
  = [Some (Planning, JS.Fin 0); Some (Deploying, JS.Fin 0);
     Some (MonitoringStage, JS.ofZ 50); Some (MonitoringStage, JS.ofZ 50);
     Some (MonitoringStage, JS.ofZ 10); Some (MonitoringStage, JS.ofZ 10);
     Some (Completed, JS.ofZ 100)]
  /\ JS.le (JS.ofZ 50) (JS.ofZ 10) = false.
Proof. vm_compute. split; reflexivity. Qed.

(** C5, as the code has it. [rollbackDeployment] on a deployment that is
    already rolling back or failed does not throw and leaves it failed
    with no traffic, but it is not a no-op: it stamps [lastUpdate], appends
    one more rollback event to the log (of which the last 50 are kept),
    deletes the feature flag and stops the collection of metrics for the
    endpoint. The other deployments, the recorded requests and the
    baselines are left as they are. *)
Theorem rollbackDeployment_again (d : Deployer) (deploymentId : string)
    (trigger : Trigger) (now : Z) (dep : ActiveDeployment) :
  deployments d !! deploymentId = Some dep ->
  rolledBack (stage (status dep)) = true ->
  let d' := rollbackDeployment d deploymentId trigger now in
  (exists s,
      getDeploymentStatus d' deploymentId = Some s
      /\ stage s = Failed
      /\ trafficPercentage s = JS.Fin 0
      /\ lastUpdate s = now
      /\ events s
         = keepLast 50
             (events (status dep)
              ++ [{| ev_timestamp := now; ev_type := RollbackEvent;
                     ev_message := RolledBack trigger |}]))
  /\ (forall other, other <> deploymentId ->
                    deployments d' !! other = deployments d !! other)
  /\ featureFlags d' = delete (flagKey deploymentId) (featureFlags d)
  /\ Metrics.activeCollectors (metricsCollector d')
     = Metrics.activeCollectors (metricsCollector d)
         ∖ {[targetEndpoint (middleware dep)]}
  /\ Metrics.endpointMetrics (metricsCollector d')
     = Metrics.endpointMetrics (metricsCollector d)
  /\ Metrics.baselines (metricsCollector d') = Metrics.baselines (metricsCollector d).
Proof.
  intros Hdep _ d'. subst d'.
  rewrite (rollbackDeployment_found _ _ _ _ _ Hdep).
  unfold getDeploymentStatus. cbn. rewrite lookup_insert_eq. cbn.
  split; [eexists; split; [reflexivity|]; repeat split|].
  split; [intros other Hother; apply lookup_insert_ne; congruence|].
  repeat split.
Qed.

Lemma rollbackDeployment_again_witness :
  let d := Scenario.secondMonitoring in
  let d' := rollbackDeployment d "d1" Manual (Scenario.t0 + 9000) in
  (exists s,
      getDeploymentStatus d' "d1" = Some s
      /\ stage s = Failed
      /\ trafficPercentage s = JS.Fin 0
      /\ lastUpdate s = Scenario.t0 + 9000
      /\ events s
         = keepLast 50
             (default [] (events <$> getDeploymentStatus d "d1")
              ++ [{| ev_timestamp := Scenario.t0 + 9000; ev_type := RollbackEvent;
                     ev_message := RolledBack Manual |}]))
  /\ (forall other, other <> "d1" ->
                    deployments d' !! other = deployments d !! other)
  /\ featureFlags d' = delete (flagKey "d1") (featureFlags d)
  /\ Metrics.activeCollectors (metricsCollector d')
     = Metrics.activeCollectors (metricsCollector d) ∖ {[Scenario.signup]}
  /\ Metrics.endpointMetrics (metricsCollector d')
     = Metrics.endpointMetrics (metricsCollector d)
  /\ Metrics.baselines (metricsCollector d') = Metrics.baselines (metricsCollector d).
Proof.
  destruct (deployments Scenario.secondMonitoring !! "d1") as [dep|] eqn:Hdep;
    [|vm_compute in Hdep; discriminate Hdep].
  pose proof (rollbackDeployment_again Scenario.secondMonitoring "d1" Manual
                (Scenario.t0 + 9000) dep Hdep) as Hagain.
  vm_compute in Hdep. injection Hdep as <-.
  apply Hagain. reflexivity.
Defined.

(** C5 fails as stated: the first deployment has failed, a second one for
    the same endpoint is being monitored, and [rollbackDeployment] is
    called on the first one again. Its event log grows from 5 to 6
    entries, its [lastUpdate] moves, and the collection of metrics for
    the endpoint, which the second deployment had started, is stopped. *)
Lemma rollbackDeployment_twice_not_noop :
  let d := Scenario.secondMonitoring in
  let d' := rollbackDeployment d "d1" Manual (Scenario.t0 + 9000) in
  stage <$> getDeploymentStatus d "d1" = Some Failed
  /\ stage <$> getDeploymentStatus d' "d1" = Some Failed
  /\ length <$> (events <$> getDeploymentStatus d "d1") = Some 5%nat
  /\ length <$> (events <$> getDeploymentStatus d' "d1") = Some 6%nat
  /\ lastUpdate <$> getDeploymentStatus d "d1" = Some (Scenario.t0 + 1000)
  /\ lastUpdate <$> getDeploymentStatus d' "d1" = Some (Scenario.t0 + 9000)
  /\ stage <$> getDeploymentStatus d "d2" = Some MonitoringStage
  /\ bool_decide (Scenario.signup ∈ Metrics.activeCollectors (metricsCollector d))
     = true
  /\ bool_decide (Scenario.signup ∈ Metrics.activeCollectors (metricsCollector d'))
     = false.
Proof. vm_compute. repeat split. Qed.

(** *** The deployments stay stored under their own id *)

Lemma wellFormed_idOf (d : Deployer) :
  wellFormed d <-> forall key i, idOf key d = Some i -> i = key.
Proof.
  unfold wellFormed, idOf. split.
  - intros Hwf key i. destruct (deployments d !! key) as [dep|] eqn:Hdep;
      cbn; [|discriminate].
    intros [= <-]. apply (Hwf key dep Hdep).
  - intros Hid key dep Hdep. apply Hid. rewrite Hdep. reflexivity.
Qed.

Lemma idOf_addEvent (key other : string) (d : Deployer)
    (type : EventType) (message : Message) (now : Z) :
  idOf key (addEvent d other type message now) = idOf key d.
Proof.
  unfold idOf. rewrite lookup_addEvent.
  case_decide; [subst|reflexivity].
  destruct (deployments d !! key); reflexivity.
Qed.

Lemma idOf_updateDeployment (key other : string) (d : Deployer)
    (dep dep' : ActiveDeployment) (now : Z) :
  deployments d !! other = Some dep ->
  st_id (status dep') = st_id (status dep) ->
  idOf key (updateDeployment d other dep' now) = idOf key d.
Proof.
  intros Hdep Hid. unfold idOf. rewrite lookup_updateDeployment.
  case_decide; [subst; rewrite Hdep; cbn; rewrite Hid|]; reflexivity.
Qed.

Lemma idOf_monitorTick (key other : string) (d : Deployer)
    (st : CanaryStage) (stageIndex : nat) (ms : MonitorState) (now : Z) :
  idOf key (fst (monitorTick d other st stageIndex ms now)) = idOf key d.
Proof.
  unfold monitorTick.
  destruct (deployments d !! other) as [dep|] eqn:Hdep; [|reflexivity].
  destruct (duration st * 1000 <=? now - stageStartTime dep).
  { cbn [fst]. apply idOf_addEvent. }
  destruct (sampleFrequency (monitoring (plan dep)) * 1000 <=? now - lastCheckTime ms);
    [|reflexivity].
  match goal with
  | |- context [if ?b then _ else _] => destruct b
  end; cbn [fst]; rewrite ?idOf_addEvent;
    apply (idOf_updateDeployment _ _ _ dep); auto.
Qed.

Lemma idOf_deployToPercentage (key other : string) (d : Deployer)
    (pct : number) (st : CanaryStage) (now : Z) :
  idOf key (deployToPercentage d other pct st now) = idOf key d.
Proof.
  unfold deployToPercentage.
  destruct (deployments d !! other) as [dep|] eqn:Hdep; [|reflexivity].
  rewrite idOf_addEvent.
  etransitivity; [apply (idOf_updateDeployment _ _ _ dep); auto | reflexivity].
Qed.

Lemma idOf_completeDeployment (key other : string) (d : Deployer) (now : Z) :
  idOf key (completeDeployment d other now) = idOf key d.
Proof.
  unfold completeDeployment.
  destruct (deployments d !! other) as [dep|] eqn:Hdep; [|reflexivity].
  change (idOf key (setMetricsCollector ?x ?c)) with (idOf key x).
  rewrite idOf_addEvent. apply (idOf_updateDeployment _ _ _ dep); auto.
Qed.

Lemma idOf_rollbackDeployment (key other : string) (d : Deployer)
    (trigger : Trigger) (now : Z) :
  idOf key (rollbackDeployment d other trigger now) = idOf key d.
Proof.
  destruct (deployments d !! other) as [dep|] eqn:Hdep.
  - rewrite (rollbackDeployment_found _ _ _ _ _ Hdep). unfold idOf. cbn.
    rewrite lookup_insert. case_decide; [subst; rewrite Hdep|]; reflexivity.
  - unfold rollbackDeployment. rewrite Hdep. reflexivity.
Qed.

Lemma wellFormed_same_ids (d d' : Deployer) :
  (forall key, idOf key d' = idOf key d) -> wellFormed d -> wellFormed d'.
Proof.
  intros Hsame Hwf. apply wellFormed_idOf. intros key i. rewrite Hsame.
  apply wellFormed_idOf. exact Hwf.
Qed.

Lemma wellFormed_create (c : Metrics.Collector) : wellFormed (create c).
Proof. intros key dep Hdep. cbn in Hdep. rewrite lookup_empty in Hdep. discriminate. Qed.

Lemma wellFormed_deployCanary (d : Deployer) (deploymentId : string)
    (mw : MiddlewareDefinition) (partial : option PartialPlan) (now : Z) :
  wellFormed d -> wellFormed (deployCanary d deploymentId mw partial now).
Proof.
  intros Hwf. apply wellFormed_idOf. intros key i.
  unfold deployCanary. rewrite idOf_addEvent. unfold idOf. cbn.
  rewrite lookup_insert. case_decide; [subst; cbn; congruence|].
  destruct (deployments d !! key) as [dep|] eqn:Hdep; cbn; [|discriminate].
  intros [= <-]. apply (Hwf key dep Hdep).
Qed.

Lemma wellFormed_rollbackDeployment (d : Deployer) (deploymentId : string)
    (trigger : Trigger) (now : Z) :
  wellFormed d -> wellFormed (rollbackDeployment d deploymentId trigger now).
Proof. apply wellFormed_same_ids. intros key. apply idOf_rollbackDeployment. Qed.

Lemma monitorLoop_ids (key deploymentId : string) (st : CanaryStage)
    (stageIndex : nat) (inputs : list Input) :
  forall (d : Deployer) (ms : MonitorState),
    let r := monitorLoop d deploymentId st stageIndex ms inputs in
    Forall (fun d' => idOf key d' = idOf key d) (trace r)
    /\ idOf key (final r) = idOf key d.
Proof.
  induction inputs as [|input rest IH]; intros d ms; cbn.
  - split; [constructor | reflexivity].
  - destruct input as [now | now | endpoint request now | endpoint now].
    + pose proof (idOf_monitorTick key deploymentId d st stageIndex ms now) as Htick.
      destruct (monitorTick d deploymentId st stageIndex ms now) as [d' [ms'|ok reason]];
        cbn [fst] in Htick; cbn.
      * destruct (IH d' ms') as [Htrace Hfinal]. split.
        -- constructor; [exact Htick|].
           eapply Forall_impl; [exact Htrace|]. cbn. intros ? ->. exact Htick.
        -- rewrite Hfinal. exact Htick.
      * split; [repeat constructor|]; exact Htick.
    + cbn. split; [constructor | reflexivity].
    + cbn.
      destruct (IH (setMetricsCollector d
                      (Metrics.recordRequest (metricsCollector d) endpoint request now))
                   ms) as [Htrace Hfinal].
      split; [constructor; [reflexivity | exact Htrace] | exact Hfinal].
    + cbn.
      destruct (IH (setMetricsCollector d
                      (Metrics.establishBaseline (metricsCollector d) endpoint now))
                   ms) as [Htrace Hfinal].
      split; [constructor; [reflexivity | exact Htrace] | exact Hfinal].
Qed.

Lemma processStages_ids (key deploymentId : string) (sts : list CanaryStage) :
  forall (stageIndex : nat) (d : Deployer) (now : Z) (inputs : list Input),
    Forall (fun d' => idOf key d' = idOf key d)
      (processStages sts stageIndex d deploymentId now inputs).
Proof.
  induction sts as [|st rest IH]; intros stageIndex d now inputs.
  - cbn. repeat constructor. apply idOf_completeDeployment.
  - cbn [processStages].
    set (d1 := deployToPercentage d deploymentId (percentage st) st now).
    assert (Hd1 : idOf key d1 = idOf key d) by apply idOf_deployToPercentage.
    assert (Hrun : Forall (fun d' => idOf key d' = idOf key d)
                     (trace (monitorStage d1 deploymentId st stageIndex now inputs))
                   /\ idOf key (final (monitorStage d1 deploymentId st stageIndex
                                         now inputs))
                      = idOf key d).
    { rewrite <- Hd1. unfold monitorStage.
      destruct (deployments d1 !! deploymentId).
      - apply monitorLoop_ids.
      - cbn. split; [constructor | reflexivity]. }
    destruct Hrun as [Htrace Hfinal].
    constructor; [exact Hd1|]. apply Forall_app. split; [exact Htrace|].
    destruct (outcome (monitorStage d1 deploymentId st stageIndex now inputs))
      as [|[|] reason now' inputs'].
    + constructor.
    + rewrite <- Hfinal. apply IH.
    + repeat constructor. rewrite idOf_rollbackDeployment. exact Hfinal.
Qed.

(** Every state of a run of [processDeployment] stores the deployments
    under their own id, if the first one does. *)
Lemma wellFormed_processDeployment (d : Deployer) (deploymentId : string)
    (now : Z) (inputs : list Input) :
  wellFormed d ->
  Forall wellFormed (processDeployment d deploymentId now inputs).
Proof.
  intros Hwf. unfold processDeployment.
  destruct (deployments d !! deploymentId) as [dep|] eqn:Hdep; [|constructor].
  match goal with
  | |- Forall _ (?dd :: _) => set (deploying := dd)
  end.
  assert (Hsame : forall key, idOf key deploying = idOf key d).
  { intros key. subst deploying.
    change (idOf key (setMetricsCollector ?x ?c)) with (idOf key x).
    apply (idOf_updateDeployment _ _ _ dep); auto. }
  constructor; [exact (wellFormed_same_ids _ _ Hsame Hwf)|].
  pose proof (processStages_ids) as Hstages.
  apply Forall_forall. intros d' Hd'.
  apply (wellFormed_same_ids d); [|exact Hwf].
  intros key. rewrite <- Hsame.
  pose proof (Hstages key deploymentId (stages (plan dep)) 0%nat deploying now inputs)
    as Hall.
  rewrite Forall_forall in Hall. apply Hall. exact Hd'.
Qed.

End CanaryProperties.

(** ** Rollback manager *)

Section RollbackProperties.
Import Rollback Traces.

Lemma viewOf_rollbackDeployment_other (key other : string)
    (d : Canary.Deployer) (trigger : Trigger) (now : Z) :
  other <> key ->
  viewOf key (Canary.rollbackDeployment d other trigger now) = viewOf key d.
Proof.
  intros Hne.
  destruct (Canary.deployments d !! other) as [dep|] eqn:Hdep.
  - rewrite (rollbackDeployment_found _ _ _ _ _ Hdep), !viewOf_lookup. cbn.
    rewrite lookup_insert_ne; [reflexivity | exact Hne].
  - unfold Canary.rollbackDeployment. rewrite Hdep. reflexivity.
Qed.

Lemma rollbackDeployment_keeps_failed (key other : string)
    (d : Canary.Deployer) (trigger : Trigger) (now : Z) :
  viewOf key d = Some (Failed, JS.Fin 0) ->
  viewOf key (Canary.rollbackDeployment d other trigger now)
  = Some (Failed, JS.Fin 0).
Proof.
  intros Hfailed. destruct (decide (other = key)) as [->|Hne].
  - apply viewOf_rollbackDeployment. rewrite Hfailed. eexists. reflexivity.
  - rewrite viewOf_rollbackDeployment_other; [exact Hfailed | exact Hne].
Qed.

Lemma rollbackEach_keeps_failed (key : string) (now : Z)
    (toRollback : list DeploymentStatus) :
  forall d, viewOf key d = Some (Failed, JS.Fin 0) ->
            viewOf key (rollbackEach now d toRollback) = Some (Failed, JS.Fin 0).
Proof.
  induction toRollback as [|s rest IH]; intros d Hfailed; [exact Hfailed|].
  cbn. apply IH. apply rollbackDeployment_keeps_failed. exact Hfailed.
Qed.

Lemma rollbackEach_fails_listed (key : string) (now : Z)
    (toRollback : list DeploymentStatus) :
  forall d, is_Some (viewOf key d) ->
            (exists s, In s toRollback /\ st_id s = key) ->
            viewOf key (rollbackEach now d toRollback) = Some (Failed, JS.Fin 0).
Proof.
  induction toRollback as [|s rest IH]; intros d Hsome (s' & Hin & Hid);
    [destruct Hin|].
  cbn. destruct (decide (st_id s = key)) as [Heq|Hne].
  - apply rollbackEach_keeps_failed. rewrite Heq.
    apply viewOf_rollbackDeployment. exact Hsome.
  - apply IH.
    + rewrite viewOf_rollbackDeployment_other; [exact Hsome | exact Hne].
    + destruct Hin as [->|Hin]; [contradiction|]. exists s'. auto.
Qed.

Lemma emergencyStop_inactive (inj : Injector.Injector) (injectionId : string)
    (im : Injector.InjectedMiddleware) :
  Injector.activeMiddleware (Injector.emergencyStop inj) !! injectionId = Some im ->
  Injector.active im = false.
Proof.
  unfold Injector.emergencyStop. cbn. rewrite lookup_fmap.
  destruct (Injector.activeMiddleware inj !! injectionId); cbn; [|discriminate].
  intros [= <-]. reflexivity.
Qed.

Lemma emergencyStop_none_active (inj : Injector.Injector) :
  Injector.getAllInjections (Injector.emergencyStop inj) = [].
Proof.
  unfold Injector.getAllInjections, Injector.values, Injector.emergencyStop. cbn.
  rewrite map_to_list_fmap.
  induction (map_to_list (Injector.activeMiddleware inj)) as [|[k v] l IH];
    [reflexivity | exact IH].
Qed.

(** C9. After [emergencyRollbackAll], every deployment that was not
    completed or failed before the call is failed and has no traffic,
    however many there were, and the injector has no active patch: every
    injection record has [active = false], [getAllInjections] is empty and
    [getStatistics] counts zero active patches. *)
Theorem emergencyRollbackAll_stops_everything (m : Manager) (now : Z) :
  let after := emergencyRollbackAll m now in
  (forall key dep,
      Canary.deployments (canaryDeployer m) !! key = Some dep ->
      st_id (Canary.status dep) = key ->
      isDone (stage (Canary.status dep)) = false ->
      exists s,
        Canary.getDeploymentStatus (canaryDeployer after) key = Some s
        /\ stage s = Failed /\ trafficPercentage s = JS.Fin 0)
  /\ (forall injectionId im,
         Injector.activeMiddleware (injector after) !! injectionId = Some im ->
         Injector.active im = false)
  /\ Injector.getAllInjections (injector after) = []
  /\ Injector.totalActive (Injector.getStatistics (injector after)) = 0%nat.
Proof.
  intros after. subst after. unfold emergencyRollbackAll. cbn.
  split; [|split; [|split]].
  - intros key dep Hdep Hid Hnotdone.
    apply viewOf_status. apply rollbackEach_fails_listed.
    + rewrite viewOf_lookup, Hdep. eexists. reflexivity.
    + exists (Canary.status dep). split; [|exact Hid].
      apply filter_In. split; [|rewrite Hnotdone; reflexivity].
      apply list_elem_of_In. unfold Canary.getActiveDeployments.
      apply list_elem_of_fmap_2. apply list_elem_of_fmap.
      exists (key, dep). split; [reflexivity|].
      apply elem_of_map_to_list. exact Hdep.
  - apply emergencyStop_inactive.
  - apply emergencyStop_none_active.
  - unfold Injector.getStatistics. cbn. rewrite emergencyStop_none_active.
    reflexivity.
Qed.

Lemma emergencyRollbackAll_stops_everything_witness :
  let after := emergencyRollbackAll Scenario.midStage (Scenario.t0 + 4000) in
  (exists s,
      Canary.getDeploymentStatus (canaryDeployer after) "d1" = Some s
      /\ stage s = Failed /\ trafficPercentage s = JS.Fin 0)
  /\ (exists s,
         Canary.getDeploymentStatus (canaryDeployer after) "d2" = Some s
         /\ stage s = Failed /\ trafficPercentage s = JS.Fin 0)
  /\ Injector.getAllInjections (injector after) = []
  /\ Injector.totalActive (Injector.getStatistics (injector after)) = 0%nat.
Proof.
  destruct (emergencyRollbackAll_stops_everything Scenario.midStage
              (Scenario.t0 + 4000)) as (Hfailed & _ & Hnone & Hzero).
  assert (Hkey : forall key,
             stage <$> Canary.getDeploymentStatus
                         (canaryDeployer Scenario.midStage) key
             = Some MonitoringStage ->
             st_id <$> Canary.getDeploymentStatus
                         (canaryDeployer Scenario.midStage) key
             = Some key ->
             exists s,
               Canary.getDeploymentStatus
                 (canaryDeployer
                    (emergencyRollbackAll Scenario.midStage (Scenario.t0 + 4000)))
                 key = Some s
               /\ stage s = Failed /\ trafficPercentage s = JS.Fin 0).
  { intros key Hstage Hid. unfold Canary.getDeploymentStatus in Hstage, Hid.
    destruct (Canary.deployments (canaryDeployer Scenario.midStage) !! key)
      as [dep|] eqn:Hdep; [|discriminate Hstage].
    cbn in Hstage, Hid. injection Hstage as Hstage. injection Hid as Hid.
    apply (Hfailed key dep Hdep Hid). rewrite Hstage. reflexivity. }
  split; [apply Hkey; vm_compute; reflexivity|].
  split; [apply Hkey; vm_compute; reflexivity|].
  split; [exact Hnone | exact Hzero].
Defined.

(** Before the call of the witness both deployments are monitored at 10%
    and the patch is active. *)
Example midStage_before :
  viewOf "d1" (canaryDeployer Scenario.midStage) = Some (MonitoringStage, JS.ofZ 10)
  /\ viewOf "d2" (canaryDeployer Scenario.midStage) = Some (MonitoringStage, JS.ofZ 10)
  /\ length (Injector.getAllInjections (injector Scenario.midStage)) = 1%nat.
Proof. vm_compute. repeat split. Qed.

Lemma evaluateRollbackTriggers_found (m : Manager) (deploymentId : string)
    (monitor : RollbackMonitor) (currentMetrics : DeploymentMetrics) (now : Z) :
  monitors m !! deploymentId = Some monitor ->
  evaluateRollbackTriggers m deploymentId currentMetrics now
  = Decisions.found monitor currentMetrics now.
Proof.
  intros Hmon. unfold evaluateRollbackTriggers, Decisions.found. rewrite Hmon.
  destruct (triggers (rollbackPlan monitor)); reflexivity.
Qed.

Lemma executeRollback_found (m : Manager) (rollbackId deploymentId : string)
    (trigger : Trigger) (reason : RollbackReason) (now : Z)
    (monitor : RollbackMonitor) :
  monitors m !! deploymentId = Some monitor ->
  executeRollback m rollbackId deploymentId trigger reason now
  = (Ok tt,
     {| injector := injector m;
        canaryDeployer :=
          Canary.rollbackDeployment (canaryDeployer m) deploymentId Automatic now;
        monitors := delete deploymentId (monitors m);
        rollbackHistory :=
          rollbackHistory m
          ++ [{| rec_id := rollbackId; rec_deploymentId := deploymentId;
                 rec_trigger := trigger; rec_reason := reason;
                 rec_startTime := now; rec_endTime := now;
                 rec_success := true;
                 rec_strategy := strategy (rollbackPlan monitor) |}] |}).
Proof.
  intros Hmon. unfold executeRollback. rewrite Hmon.
  destruct (strategy (rollbackPlan monitor)); reflexivity.
Qed.

(** A poll of a deployment that is under way: the violations found are
    pushed and [shouldTriggerRollback] decides. *)
Lemma performHealthCheck_under_way (m : Manager) (rollbackId deploymentId : string)
    (now : Z) (monitor : RollbackMonitor) (s : DeploymentStatus) :
  monitors m !! deploymentId = Some monitor ->
  Canary.getDeploymentStatus (canaryDeployer m) deploymentId = Some s ->
  isDone (stage s) = false ->
  let currentMetrics :=
    Metrics.getMetrics (metricsCollector m) "/api/signup" 30 now in
  let vs := Decisions.found monitor currentMetrics now in
  let pushed := pushViolations vs (checked now monitor) in
  (0 < length vs)%nat ->
  shouldTriggerRollback pushed vs now = true ->
  Decisions.rolledBackBy m (snd (performHealthCheck m rollbackId deploymentId now))
    deploymentId vs.
Proof.
  intros Hmon Hstatus Hnotdone currentMetrics vs pushed Hsome Hdecide.
  unfold performHealthCheck, extractEndpointFromDeployment. rewrite Hmon.
  unfold metricsCollector in *. cbn [canaryDeployer setMonitors monitors].
  rewrite Hstatus, Hnotdone.
  rewrite (evaluateRollbackTriggers_found _ _ (checked now monitor))
    by apply lookup_insert_eq.
  change (Decisions.found (checked now monitor)) with (Decisions.found monitor).
  fold currentMetrics. fold vs.
  apply Nat.ltb_lt in Hsome. rewrite Hsome. fold pushed. rewrite Hdecide.
  rewrite (executeRollback_found _ _ _ _ _ _ pushed) by apply lookup_insert_eq.
  unfold Decisions.rolledBackBy.
  cbn [snd canaryDeployer setMonitors monitors rollbackHistory].
  split; [|split].
  - apply viewOf_status. apply viewOf_rollbackDeployment.
    unfold viewOf. rewrite Hstatus. eexists. reflexivity.
  - apply lookup_delete_eq.
  - eexists. split; [reflexivity|]. repeat split.
Qed.

Lemma found_of_violated (monitor : RollbackMonitor)
    (currentMetrics : DeploymentMetrics) (now : Z) (ts : list RollbackTrigger)
    (trigger : RollbackTrigger) (v : RollbackViolation) :
  triggers (rollbackPlan monitor) = Some ts ->
  In trigger ts ->
  evaluateTrigger currentMetrics now trigger = Some v ->
  In v (Decisions.found monitor currentMetrics now).
Proof.
  intros Hts Hin Hv. unfold Decisions.found. rewrite Hts. cbn.
  apply list_elem_of_In. apply list_elem_of_omap.
  exists trigger. split; [apply list_elem_of_In; exact Hin | exact Hv].
Qed.

Lemma filter_nonempty {A : Type} (f : A -> bool) (l : list A) (x : A) :
  In x l -> f x = true -> (0 < length (List.filter f l))%nat.
Proof.
  intros Hin Hf.
  assert (Hx : In x (List.filter f l)) by (apply filter_In; auto).
  destruct (List.filter f l); [destruct Hx | cbn; lia].
Qed.

Lemma In_nonempty {A : Type} (l : list A) (x : A) : In x l -> (0 < length l)%nat.
Proof. destruct l; [intros [] | cbn; lia]. Qed.

Lemma critical_violation (currentMetrics : DeploymentMetrics) (now : Z)
    (trigger : RollbackTrigger) :
  Decisions.criticalFor currentMetrics trigger = true ->
  exists v, evaluateTrigger currentMetrics now trigger = Some v
            /\ isCritical v = true.
Proof.
  unfold Decisions.criticalFor, evaluateTrigger, isCritical.
  destruct (metric trigger) eqn:Hmetric; [| discriminate |];
    intros [Hviolated Hhalf]%andb_true_iff; rewrite Hviolated;
    eexists; (split; [reflexivity|]); cbn [rv_trigger currentValue];
    rewrite Hmetric, Hhalf; reflexivity.
Qed.

(** C3, as the code has it. Whatever the violations recorded so far, if
    a poll of a deployment that is under way observes an error rate above
    0.5 or a success rate below 0.5, and the rollback plan has a trigger on
    that metric whose threshold the observation violates, the deployment
    is rolled back on that poll. *)
Theorem critical_observation_rolls_back (m : Manager)
    (rollbackId deploymentId : string) (now : Z) (monitor : RollbackMonitor)
    (s : DeploymentStatus) (ts : list RollbackTrigger) (trigger : RollbackTrigger) :
  monitors m !! deploymentId = Some monitor ->
  Canary.getDeploymentStatus (canaryDeployer m) deploymentId = Some s ->
  isDone (stage s) = false ->
  triggers (rollbackPlan monitor) = Some ts ->
  In trigger ts ->
  let currentMetrics :=
    Metrics.getMetrics (metricsCollector m) "/api/signup" 30 now in
  Decisions.criticalFor currentMetrics trigger = true ->
  Decisions.rolledBackBy m (snd (performHealthCheck m rollbackId deploymentId now))
    deploymentId (Decisions.found monitor currentMetrics now).
Proof.
  intros Hmon Hstatus Hnotdone Hts Hin currentMetrics Hcritical.
  destruct (critical_violation currentMetrics now trigger Hcritical)
    as (v & Hv & Hvcritical).
  pose proof (found_of_violated monitor currentMetrics now ts trigger v Hts Hin Hv)
    as Hfound.
  apply (performHealthCheck_under_way m rollbackId deploymentId now monitor s
           Hmon Hstatus Hnotdone).
  - exact (In_nonempty _ _ Hfound).
  - unfold shouldTriggerRollback.
    pose proof (filter_nonempty isCritical _ v Hfound Hvcritical) as Hlen.
    apply Nat.ltb_lt in Hlen. fold currentMetrics. rewrite Hlen. reflexivity.
Qed.

(** The surge of failures under the aggressive triggers: the observed
    error rate of 0.6 is above their 0.25 and above 0.5. *)
Lemma critical_observation_rolls_back_witness :
  let m := Scenario.monitoringSurge Scenario.aggressive in
  let now := Scenario.t0 + 5000 in
  exists vs,
    Decisions.rolledBackBy m (snd (performHealthCheck m "rb-1" "d1" now)) "d1" vs.
Proof.
  destruct (Canary.getDeploymentStatus
              (canaryDeployer (Scenario.monitoringSurge Scenario.aggressive)) "d1")
    as [s|] eqn:Hs; [|vm_compute in Hs; discriminate Hs].
  destruct (monitors (Scenario.monitoringSurge Scenario.aggressive) !! "d1")
    as [monitor|] eqn:Hmon; [|vm_compute in Hmon; discriminate Hmon].
  eexists.
  apply (critical_observation_rolls_back (Scenario.monitoringSurge Scenario.aggressive)
           "rb-1" "d1" (Scenario.t0 + 5000) monitor s Scenario.aggressive
           {| metric := ErrorRate; threshold := JS.Fin (1 # 4); rt_duration := 10 |}
           Hmon Hs).
  - vm_compute in Hs. injection Hs as <-. reflexivity.
  - vm_compute in Hmon. injection Hmon as <-. reflexivity.
  - left. reflexivity.
  - vm_compute. reflexivity.
Defined.

(** C3 fails as stated: fifteen of the twenty-five requests of the last
    30 seconds have failed, so the poll observes an error rate of 0.6 and a
    success rate of 0.4, but the rollback plan watches the response time
    only. The poll finds no violation and the deployment stays as it is, at
    10% of the traffic. *)
Lemma critical_rates_without_trigger_no_rollback :
  let m := Scenario.monitoringSurge Scenario.latencyOnly in
  let now := Scenario.t0 + 5000 in
  let observed := Metrics.getMetrics (metricsCollector m) "/api/signup" 30 now in
  let after := snd (performHealthCheck m "rb-1" "d1" now) in
  sampleSize observed = 25%nat
  /\ errorRate observed = JS.Fin (3 # 5)
  /\ successRate observed = JS.Fin (2 # 5)
  /\ viewOf "d1" (canaryDeployer m) = Some (MonitoringStage, JS.ofZ 10)
  /\ viewOf "d1" (canaryDeployer after) = Some (MonitoringStage, JS.ofZ 10)
  /\ rollbackHistory after = []
  /\ mon_active <$> monitors after !! "d1" = Some true
  /\ violations <$> monitors after !! "d1" = Some [].
Proof. vm_compute. repeat split. Qed.

Lemma evaluateTrigger_violation (currentMetrics : DeploymentMetrics) (now : Z)
    (trigger : RollbackTrigger) (v : RollbackViolation) :
  evaluateTrigger currentMetrics now trigger = Some v ->
  rv_timestamp v = now /\ rv_trigger v = trigger.
Proof.
  unfold evaluateTrigger.
  destruct (metric trigger);
    match goal with
    | |- context [if ?b then _ else _] => destruct b
    end; intros [= <-]; split; reflexivity.
Qed.

Lemma filter_filter {A : Type} (f g : A -> bool) (l : list A) :
  List.filter f (List.filter g l) = List.filter (fun x => g x && f x) l.
Proof.
  induction l as [|x l IH]; [reflexivity|]. cbn.
  destruct (g x); cbn; [destruct (f x)|]; rewrite IH; reflexivity.
Qed.

Lemma metric_eqb_refl (a : Metric) : metric_eqb a a = true.
Proof. destruct a; reflexivity. Qed.

(** C4. If the poll of a deployment that is under way finds a configured
    threshold violated, and the monitor has recorded at least two earlier
    violations of the same metric within the last 60 seconds, so that the
    current one is at least the third, the deployment is rolled back on
    this poll, whether or not any observation was critical. *)
Theorem sustained_violation_rolls_back (m : Manager)
    (rollbackId deploymentId : string) (now : Z) (monitor : RollbackMonitor)
    (s : DeploymentStatus) (ts : list RollbackTrigger) (trigger : RollbackTrigger)
    (v : RollbackViolation) :
  monitors m !! deploymentId = Some monitor ->
  Canary.getDeploymentStatus (canaryDeployer m) deploymentId = Some s ->
  isDone (stage s) = false ->
  triggers (rollbackPlan monitor) = Some ts ->
  In trigger ts ->
  let currentMetrics :=
    Metrics.getMetrics (metricsCollector m) "/api/signup" 30 now in
  evaluateTrigger currentMetrics now trigger = Some v ->
  (2 <= length (Decisions.recentOf now (metric trigger) (violations monitor)))%nat ->
  Decisions.rolledBackBy m (snd (performHealthCheck m rollbackId deploymentId now))
    deploymentId (Decisions.found monitor currentMetrics now).
Proof.
  intros Hmon Hstatus Hnotdone Hts Hin currentMetrics Hv Hearlier.
  pose proof (found_of_violated monitor currentMetrics now ts trigger v Hts Hin Hv)
    as Hfound.
  destruct (evaluateTrigger_violation _ _ _ _ Hv) as [Htime Htrigger].
  apply (performHealthCheck_under_way m rollbackId deploymentId now monitor s
           Hmon Hstatus Hnotdone); [exact (In_nonempty _ _ Hfound)|].
  fold currentMetrics. set (vs := Decisions.found monitor currentMetrics now) in *.
  unfold shouldTriggerRollback.
  destruct (0 <? length (List.filter isCritical vs))%nat; [reflexivity|].
  apply Nat.ltb_lt. apply (filter_nonempty _ vs v Hfound).
  apply Nat.leb_le. cbn [violations pushViolations checked].
  rewrite !List.filter_app, length_app, filter_filter.
  assert (Hold : List.filter (fun rv => isRecent now rv && sameMetric v rv)
                   (violations monitor)
                 = Decisions.recentOf now (metric trigger) (violations monitor)).
  { unfold Decisions.recentOf, sameMetric. rewrite Htrigger. reflexivity. }
  rewrite Hold.
  assert (Hnew : (0 < length (List.filter (sameMetric v)
                                (List.filter (isRecent now) vs)))%nat).
  { apply (filter_nonempty _ _ v).
    - apply filter_In. split; [exact Hfound|].
      unfold isRecent. rewrite Htime. apply Z.ltb_lt. lia.
    - apply metric_eqb_refl. }
  lia.
Qed.

(** The example of the specification: three failures in ten requests, an
    error rate of 0.3 against a threshold of 0.05, at the third poll in
    ten seconds. No observation is critical. *)
Lemma sustained_violation_rolls_back_witness :
  let m := Scenario.afterTwoPolls in
  let now := Scenario.t0 + 15000 in
  exists vs,
    Decisions.rolledBackBy m (snd (performHealthCheck m "rb-3" "d1" now)) "d1" vs.
Proof.
  destruct (Canary.getDeploymentStatus (canaryDeployer Scenario.afterTwoPolls) "d1")
    as [s|] eqn:Hs; [|vm_compute in Hs; discriminate Hs].
  destruct (monitors Scenario.afterTwoPolls !! "d1")
    as [monitor|] eqn:Hmon; [|vm_compute in Hmon; discriminate Hmon].
  eexists.
  apply (sustained_violation_rolls_back Scenario.afterTwoPolls
           "rb-3" "d1" (Scenario.t0 + 15000) monitor s Scenario.fivePercent
           {| metric := ErrorRate; threshold := JS.Fin (1 # 20); rt_duration := 60 |}
           {| rv_timestamp := Scenario.t0 + 15000;
              rv_trigger := {| metric := ErrorRate; threshold := JS.Fin (1 # 20);
                               rt_duration := 60 |};
              currentValue := JS.Fin (3 # 10) |}
           Hmon Hs).
  - vm_compute in Hs. injection Hs as <-. reflexivity.
  - vm_compute in Hmon. injection Hmon as <-. reflexivity.
  - left. reflexivity.
  - vm_compute. reflexivity.
  - vm_compute in Hmon. injection Hmon as <-. vm_compute. lia.
Defined.

(** The two polls before: each records its violation and leaves the
    deployment as it is; the third one rolls it back. *)
Example sustained_violation_polls :
  let m1 := snd (performHealthCheck (Scenario.monitoring 3 Scenario.fivePercent)
                   "rb-1" "d1" (Scenario.t0 + 5000)) in
  let m3 := snd (performHealthCheck Scenario.afterTwoPolls
                   "rb-3" "d1" (Scenario.t0 + 15000)) in
  viewOf "d1" (canaryDeployer m1) = Some (MonitoringStage, JS.ofZ 10)
  /\ length <$> (violations <$> monitors m1 !! "d1") = Some 1%nat
  /\ viewOf "d1" (canaryDeployer Scenario.afterTwoPolls)
     = Some (MonitoringStage, JS.ofZ 10)
  /\ length <$> (violations <$> monitors Scenario.afterTwoPolls !! "d1") = Some 2%nat
  /\ viewOf "d1" (canaryDeployer m3) = Some (Failed, JS.Fin 0)
  /\ length (rollbackHistory m3) = 1%nat.
Proof. vm_compute. repeat split. Qed.

End RollbackProperties.

(** * Further properties of the code *)

(** ** Metrics collector: collection, cleanup and snapshots *)

Section MetricsCollection.
Import Metrics.

(** After [stopCollection] the requests of the endpoint are dropped, and
    the snapshots of every endpoint are what they were: stopping keeps the
    recorded requests. *)
Theorem stopCollection_freezes (c : Collector) (endpoint other : string)
    (request : RequestMetric) (windowSeconds now later : Z) :
  recordRequest (stopCollection c endpoint) endpoint request now
  = stopCollection c endpoint
  /\ getMetrics (stopCollection c endpoint) other windowSeconds later
     = getMetrics c other windowSeconds later.
Proof.
  split; [|reflexivity].
  unfold recordRequest.
  destruct (decide (endpoint ∈ activeCollectors (stopCollection c endpoint)))
    as [Hactive|]; [|reflexivity].
  cbn [activeCollectors stopCollection] in Hactive.
  apply elem_of_difference in Hactive as [_ Hnot].
  exfalso. apply Hnot, elem_of_singleton. reflexivity.
Qed.

(** [startCollection] changes nothing for an endpoint that is being
    collected; for any other endpoint it starts from an empty buffer, also
    when requests had been recorded before a [stopCollection], so that the
    next snapshot is the empty one. The baselines stay. *)
Theorem startCollection_restarts_empty (c : Collector) (endpoint : string)
    (now : Z) :
  (endpoint ∈ activeCollectors c -> startCollection c endpoint now = c)
  /\ (endpoint ∉ activeCollectors c ->
      forall windowSeconds later,
        getMetrics (startCollection c endpoint now) endpoint windowSeconds later
        = getEmptyMetrics later)
  /\ baselines (startCollection c endpoint now) = baselines c.
Proof.
  unfold startCollection. split; [|split].
  - intros Hactive. case_decide; [reflexivity | contradiction].
  - intros Hstopped windowSeconds later. case_decide; [contradiction|].
    unfold getMetrics, calculateMetrics. cbn. rewrite lookup_insert_eq. reflexivity.
  - case_decide; reflexivity.
Qed.

Lemma startCollection_restarts_empty_witness :
  let stopped := stopCollection Scenario.lowTraffic Scenario.signup in
  sampleSize (getMetrics stopped Scenario.signup 60 (Scenario.t0 + 6000)) = 5%nat
  /\ startCollection Scenario.lowTraffic Scenario.signup (Scenario.t0 + 6000)
     = Scenario.lowTraffic
  /\ getMetrics (startCollection stopped Scenario.signup (Scenario.t0 + 6000))
       Scenario.signup 60 (Scenario.t0 + 6000)
     = getEmptyMetrics (Scenario.t0 + 6000).
Proof.
  split; [vm_compute; reflexivity|]. split.
  - apply (startCollection_restarts_empty Scenario.lowTraffic Scenario.signup
             (Scenario.t0 + 6000)).
    apply (bool_decide_unpack _). vm_compute. exact I.
  - apply (startCollection_restarts_empty
             (stopCollection Scenario.lowTraffic Scenario.signup)
             Scenario.signup (Scenario.t0 + 6000)).
    cbn [activeCollectors stopCollection].
    intros [_ Hnot]%elem_of_difference. apply Hnot, elem_of_singleton. reflexivity.
Defined.

Lemma length_lastN {A : Type} (n : nat) (xs : list A) :
  (n <= length xs)%nat -> length (lastN n xs) = n.
Proof. intros Hn. unfold lastN. rewrite length_drop. lia. Qed.



(** The five requests of [Scenario.lowTraffic] were recorded from
    [t0 + 1000] to [t0 + 5000]: a cleanup at [t0 + 303500] keeps the two
    that are less than five minutes old. *)
Example cleanupOldRequests_example :
  (fun m => List.map rm_timestamp (requests m))
  <$> endpointMetrics (cleanupOldRequests Scenario.lowTraffic Scenario.signup
                         (Scenario.t0 + 303500)) !! Scenario.signup
  = Some [Scenario.t0 + 4000; Scenario.t0 + 5000].
Proof. vm_compute. reflexivity. Qed.

End MetricsCollection.

(** ** Metrics collector: the numbers of a snapshot *)

Section SnapshotNumbers.
Import Metrics.

Lemma scale_nonzero (z : Z) : 0 < z -> Qeq_bool (inject_Z z) 0 = false.
Proof.
  intros Hz. unfold Qeq_bool, inject_Z. cbn [Qnum Qden].
  apply Z.eqb_neq. lia.
Qed.

Lemma roundTo_finite (scale : Z) (x : Q) :
  0 < scale ->
  roundTo scale (JS.Fin x)
  = JS.Fin (Qred (inject_Z (Qfloor (Qred (x * inject_Z scale) + (1 # 2)))
                  / inject_Z scale)).
Proof.
  intros Hscale. unfold roundTo, JS.ofZ. cbn [JS.mul JS.round JS.div].
  rewrite (scale_nonzero scale Hscale). reflexivity.
Qed.

Lemma roundTo_unit (x : Q) :
  (0 <= x)%Q -> (x <= 1)%Q ->
  exists q, roundTo 1000 (JS.Fin x) = JS.Fin q /\ (0 <= q)%Q /\ (q <= 1)%Q.
Proof.
  intros Hlo Hhi. rewrite roundTo_finite by lia. eexists. split; [reflexivity|].
  rewrite !Qred_correct.
  set (z := Qfloor (x * inject_Z 1000 + (1 # 2))).
  assert (Hz0 : 0 <= z).
  { change 0 with (Qfloor (inject_Z 0)). apply Qfloor_resp_le.
    change (inject_Z 0) with 0%Q.
    apply Qle_trans with (x * inject_Z 1000)%Q.
    - apply Qmult_le_0_compat; [exact Hlo | discriminate].
    - rewrite <- (Qplus_0_r (x * inject_Z 1000)) at 1.
      apply Qplus_le_r. discriminate. }
  assert (Hz1 : z <= 1000).
  { change 1000 with (Qfloor (inject_Z 1000 + (1 # 2))). apply Qfloor_resp_le.
    apply Qplus_le_l.
    rewrite <- (Qmult_1_l (inject_Z 1000)) at 2.
    apply Qmult_le_compat_r; [exact Hhi | discriminate]. }
  split.
  - apply Qle_shift_div_l; [reflexivity|].
    rewrite Qmult_0_l. change 0%Q with (inject_Z 0). rewrite <- Zle_Qle. exact Hz0.
  - apply Qle_shift_div_r; [reflexivity|].
    rewrite Qmult_1_l. rewrite <- Zle_Qle. exact Hz1.
Qed.

Lemma ratio_unit (k n : nat) :
  (k <= n)%nat -> (0 < n)%nat ->
  exists x, JS.div (JS.ofNat k) (JS.ofNat n) = JS.Fin x /\ (0 <= x)%Q /\ (x <= 1)%Q.
Proof.
  intros Hk Hn. unfold JS.ofNat at 1. unfold JS.ofZ.
  rewrite div_ofNat_finite by exact Hn. eexists. split; [reflexivity|].
  rewrite Qred_correct.
  assert (Hpos : (0 < inject_Z (Z.of_nat n))%Q).
  { change 0%Q with (inject_Z 0). rewrite <- Zlt_Qlt. lia. }
  split.
  - apply Qle_shift_div_l; [exact Hpos|]. rewrite Qmult_0_l.
    change 0%Q with (inject_Z 0). rewrite <- Zle_Qle. lia.
  - apply Qle_shift_div_r; [exact Hpos|]. rewrite Qmult_1_l.
    rewrite <- Zle_Qle. lia.
Qed.

Lemma sum_latencies_finite (latencies : list Z) (q : Q) :
  exists q', fold_left (fun sum lat => JS.add sum (JS.ofZ lat)) latencies (JS.Fin q)
             = JS.Fin q'.
Proof.
  revert q. induction latencies as [|lat rest IH]; intros q; cbn [fold_left].
  - exists q. reflexivity.
  - unfold JS.ofZ at 2. cbn [JS.add]. apply IH.
Qed.

(** The numbers of a computed snapshot: both rates are finite numbers
    between 0 and 1, the latency is a finite number and the sample size is
    at least 1. None of them is NaN or an infinity. *)
Theorem calculateMetrics_rates_finite (c : Collector) (endpoint : string)
    (windowSeconds now : Z) (m : DeploymentMetrics) :
  calculateMetrics c endpoint windowSeconds now = Some m ->
  (exists q, successRate m = JS.Fin q /\ (0 <= q)%Q /\ (q <= 1)%Q)
  /\ (exists q, errorRate m = JS.Fin q /\ (0 <= q)%Q /\ (q <= 1)%Q)
  /\ (exists q, latency m = JS.Fin q)
  /\ (1 <= sampleSize m)%nat.
Proof.
  unfold calculateMetrics.
  destruct (endpointMetrics c !! endpoint) as [em|]; [|discriminate].
  destruct (List.filter (recent (now - windowSeconds * 1000)) (requests em))
    as [|r rs] eqn:Hrecent; [discriminate|].
  intros Hm. apply (inj Some) in Hm. subst m.
  cbn [successRate errorRate latency sampleSize].
  set (recentRequests := r :: rs).
  assert (Hn : (0 < length recentRequests)%nat) by (cbn; lia).
  split; [|split; [|split]].
  - destruct (ratio_unit (length (List.filter isSuccess recentRequests))
                (length recentRequests) (filter_length_le _ _) Hn)
      as (x & -> & Hlo & Hhi).
    apply roundTo_unit; assumption.
  - destruct (ratio_unit (length (List.filter isError recentRequests))
                (length recentRequests) (filter_length_le _ _) Hn)
      as (x & -> & Hlo & Hhi).
    apply roundTo_unit; assumption.
  - destruct (sum_latencies_finite (List.map responseTime recentRequests) 0)
      as [q Hq].
    rewrite Hq. rewrite div_ofNat_finite by (rewrite length_map; exact Hn).
    rewrite roundTo_finite by lia. eexists. reflexivity.
  - exact Hn.
Qed.

Lemma calculateMetrics_rates_finite_witness :
  exists m,
    calculateMetrics Scenario.lowTraffic Scenario.signup 60 (Scenario.t0 + 6000)
    = Some m
    /\ (exists q, successRate m = JS.Fin q /\ (0 <= q)%Q /\ (q <= 1)%Q)
    /\ (exists q, errorRate m = JS.Fin q /\ (0 <= q)%Q /\ (q <= 1)%Q)
    /\ (exists q, latency m = JS.Fin q)
    /\ (1 <= sampleSize m)%nat.
Proof.
  destruct (calculateMetrics Scenario.lowTraffic Scenario.signup 60
              (Scenario.t0 + 6000)) as [m|] eqn:Hm;
    [|vm_compute in Hm; discriminate Hm].
  exists m. split; [reflexivity|].
  exact (calculateMetrics_rates_finite Scenario.lowTraffic Scenario.signup 60
           (Scenario.t0 + 6000) m Hm).
Defined.




End SnapshotNumbers.

(** ** Metrics collector: baselines, history and recording *)

Section MetricsBaselines.
Import Metrics Reporting Invariants.





Lemma omap_none {A B : Type} (l : list A) :
  omap (fun _ : A => @None B) l = [].
Proof. induction l as [|x l IH]; [reflexivity | exact IH]. Qed.

Lemma omap_some {A B : Type} (f : A -> B) (l : list A) :
  omap (fun x => Some (f x)) l = List.map f l.
Proof. induction l as [|x l IH]; [reflexivity|]. cbn. rewrite IH. reflexivity. Qed.

Lemma length_countdown (n : Z) : length (countdown n) = Z.to_nat n.
Proof.
  unfold countdown. rewrite length_map, length_rev, length_seq. reflexivity.
Qed.

(** [getMetricsHistory] returns at most 10 points, and every point
    carries the metrics of the last 60 seconds before the call: the points
    differ in their timestamps only. Without a request in these 60 seconds
    the history is empty. *)
Theorem getMetricsHistory_repeats_current (c : Collector) (endpoint : string)
    (minutes now : Z) :
  (length (getMetricsHistory c endpoint minutes now) <= 10)%nat
  /\ getMetricsHistory c endpoint minutes now
     = match calculateMetrics c endpoint 60 now with
       | None => []
       | Some current =>
           List.map (fun i => withTimestamp current (now - i * 60 * 1000))
                    (countdown (Z.min minutes 10))
       end.
Proof.
  assert (Heq : getMetricsHistory c endpoint minutes now
                = match calculateMetrics c endpoint 60 now with
                  | None => []
                  | Some current =>
                      List.map (fun i => withTimestamp current (now - i * 60 * 1000))
                               (countdown (Z.min minutes 10))
                  end).
  { unfold getMetricsHistory.
    destruct (calculateMetrics c endpoint 60 now) as [current|].
    - apply (omap_some (fun i => withTimestamp current (now - i * 60 * 1000))).
    - apply omap_none. }
  split; [|exact Heq]. rewrite Heq.
  destruct (calculateMetrics c endpoint 60 now); [|cbn; lia].
  rewrite length_map, length_countdown. lia.
Qed.

(** Five requests in the five seconds before the call, and a history of
    three minutes: three points with the same five samples. *)
Example getMetricsHistory_example :
  List.map (fun h => (sampleSize h, dm_timestamp h - Scenario.t0))
    (getMetricsHistory Scenario.lowTraffic Scenario.signup 3 (Scenario.t0 + 6000))
  = [(5%nat, -174000); (5%nat, -114000); (5%nat, -54000)].
Proof. vm_compute. reflexivity. Qed.

Lemma last_lastN_snoc {A : Type} (n : nat) (l : list A) (x : A) :
  (0 < n)%nat -> last (lastN n (l ++ [x])) = Some x.
Proof.
  intros Hn. unfold lastN. rewrite length_app. cbn [length].
  rewrite drop_app_le by lia. apply last_snoc.
Qed.

(** On an endpoint that is being collected, [recordRequest] stores a
    request that is less than five minutes old as the last of the buffer,
    whether or not the call also cleans the buffer up, and the buffer grows
    by one request at most. *)
Theorem recordRequest_stores_last (c : Collector) (endpoint : string)
    (request : RequestMetric) (now : Z) (m : EndpointMetrics) :
  endpoint ∈ activeCollectors c ->
  endpointMetrics c !! endpoint = Some m ->
  now - 300000 <= rm_timestamp request ->
  exists m',
    endpointMetrics (recordRequest c endpoint request now) !! endpoint = Some m'
    /\ last (requests m') = Some request
    /\ (length (requests m') <= S (length (requests m)))%nat.
Proof.
  intros Hactive Hm Hfresh. unfold recordRequest.
  destruct (decide (endpoint ∈ activeCollectors c)); [|contradiction].
  rewrite Hm. destruct (30000 <? now - lastCleanup m).
  - unfold setLastCleanup, cleanupOldRequests. cbn [endpointMetrics].
    rewrite lookup_insert_eq. cbn [endpointMetrics requests].
    rewrite lookup_alter. destruct (decide (endpoint = endpoint)); [|contradiction].
    rewrite lookup_insert_eq. cbn [fmap option_fmap option_map requests].
    eexists. split; [reflexivity|]. cbn [requests].
    rewrite List.filter_app. cbn [List.filter].
    assert (Hrecent : recent (now - 5 * 60 * 1000) request = true)
      by (unfold recent; apply Z.leb_le; lia).
    rewrite Hrecent.
    set (old := List.filter (recent (now - 5 * 60 * 1000)) (requests m)).
    assert (Hold : (length old <= length (requests m))%nat)
      by apply filter_length_le.
    destruct (1000 <? length (old ++ [request]))%nat eqn:Hmany.
    + apply Nat.ltb_lt in Hmany.
      split; [apply last_lastN_snoc; lia|].
      rewrite length_lastN by lia.
      rewrite length_app in Hmany. cbn [length] in Hmany. lia.
    + split; [apply last_snoc|]. rewrite length_app. cbn [length]. lia.
  - cbn [endpointMetrics]. rewrite lookup_insert_eq.
    eexists. split; [reflexivity|]. cbn [requests].
    split; [apply last_snoc|]. rewrite length_app. cbn [length]. lia.
Qed.

Lemma recordRequest_stores_last_witness :
  exists m',
    endpointMetrics (recordRequest Scenario.lowTraffic Scenario.signup
                       (Scenario.request 500 (Scenario.t0 + 40000))
                       (Scenario.t0 + 40000)) !! Scenario.signup = Some m'
    /\ last (requests m') = Some (Scenario.request 500 (Scenario.t0 + 40000))
    /\ (length (requests m') <= 6)%nat.
Proof.
  destruct (endpointMetrics Scenario.lowTraffic !! Scenario.signup) as [m|] eqn:Hm;
    [|vm_compute in Hm; discriminate Hm].
  destruct (recordRequest_stores_last Scenario.lowTraffic Scenario.signup
              (Scenario.request 500 (Scenario.t0 + 40000)) (Scenario.t0 + 40000) m)
    as (m' & Hm' & Hlast & Hlen).
  - apply (bool_decide_unpack _). vm_compute. exact I.
  - exact Hm.
  - vm_compute. discriminate.
  - exists m'. split; [exact Hm'|]. split; [exact Hlast|].
    vm_compute in Hm. injection Hm as <-. exact Hlen.
Defined.

Lemma buffered_create : buffered create.
Proof.
  intros endpoint Hactive. cbn in Hactive.
  exfalso. exact (not_elem_of_empty _ Hactive).
Qed.

Lemma buffered_same (c c' : Collector) :
  activeCollectors c' ⊆ activeCollectors c ->
  (forall endpoint, is_Some (endpointMetrics c !! endpoint) ->
                    is_Some (endpointMetrics c' !! endpoint)) ->
  buffered c -> buffered c'.
Proof. intros Hactive Hbuffers Hc endpoint Hin. apply Hbuffers, Hc, Hactive, Hin. Qed.

(** Every endpoint that is being collected has its buffer of requests:
    this holds for a new collector and every method of the collector keeps
    it, so that [recordRequest] never finds an active endpoint without a
    buffer. *)
Theorem buffered_invariant (c : Collector) :
  buffered c ->
  (forall endpoint now, buffered (startCollection c endpoint now))
  /\ (forall endpoint, buffered (stopCollection c endpoint))
  /\ (forall endpoint request now, buffered (recordRequest c endpoint request now))
  /\ (forall endpoint metrics, buffered (setBaseline c endpoint metrics))
  /\ (forall endpoint now, buffered (establishBaseline c endpoint now))
  /\ (forall endpoint now, buffered (cleanupOldRequests c endpoint now)).
Proof.
  intros Hc.
  assert (Hcleanup : forall c0 endpoint now,
             buffered c0 -> buffered (cleanupOldRequests c0 endpoint now)).
  { intros c0 endpoint now Hc0. unfold cleanupOldRequests.
    destruct (endpointMetrics c0 !! endpoint) as [m|] eqn:Hm; [|exact Hc0].
    apply (buffered_same c0); [reflexivity | | exact Hc0].
    intros other Hother. cbn [endpointMetrics]. rewrite lookup_insert.
    case_decide; [eexists; reflexivity | exact Hother]. }
  split; [|split; [|split; [|split; [|split]]]].
  - intros endpoint now. unfold startCollection. case_decide; [exact Hc|].
    intros other Hother. cbn [endpointMetrics activeCollectors] in *.
    rewrite lookup_insert. case_decide; [eexists; reflexivity|].
    apply Hc. apply elem_of_union in Hother as [Hsame%elem_of_singleton | Hin];
      [congruence | exact Hin].
  - intros endpoint. apply (buffered_same c); [|auto | exact Hc].
    cbn [activeCollectors stopCollection].
    intros x [Hx _]%elem_of_difference. exact Hx.
  - intros endpoint request now. unfold recordRequest.
    case_decide; [|exact Hc].
    destruct (endpointMetrics c !! endpoint) as [m|] eqn:Hm; [|exact Hc].
    assert (Hpushed : buffered
              {| endpointMetrics :=
                   <[endpoint := {| requests := requests m ++ [request];
                                    em_startTime := em_startTime m;
                                    lastCleanup := lastCleanup m |}]>
                     (endpointMetrics c);
                 baselines := baselines c;
                 activeCollectors := activeCollectors c |}).
    { apply (buffered_same c); [reflexivity | | exact Hc].
      intros other Hother. cbn [endpointMetrics]. rewrite lookup_insert.
      case_decide; [eexists; reflexivity | exact Hother]. }
    destruct (30000 <? now - lastCleanup m); [|exact Hpushed].
    eapply buffered_same; [| |apply Hcleanup; exact Hpushed];
      [intros x Hx; exact Hx|].
    intros other Hother. unfold setLastCleanup. cbn [endpointMetrics].
    rewrite lookup_alter. case_decide; [subst|exact Hother].
    destruct Hother as [x ->]. eexists. reflexivity.
  - intros endpoint metrics. apply (buffered_same c); [reflexivity | auto | exact Hc].
  - intros endpoint now. unfold establishBaseline.
    destruct (calculateMetrics c endpoint 30 now); [|exact Hc].
    apply (buffered_same c); [reflexivity | auto | exact Hc].
  - intros endpoint now. apply Hcleanup. exact Hc.
Qed.

Lemma buffered_invariant_witness :
  buffered (startCollection create Scenario.signup Scenario.t0)
  /\ buffered (recordRequest create Scenario.signup
                 (Scenario.request 200 Scenario.t0) Scenario.t0).
Proof.
  destruct (buffered_invariant create buffered_create) as (Hstart & _ & Hrecord & _).
  split; [apply Hstart | apply Hrecord].
Defined.

End MetricsBaselines.

(** ** Middleware injector: the registry *)

Section InjectorRegistry.
Import Injector.

(** An injection that passes the validation, finds room under the cap
    and can write its backup succeeds: it returns its id, and the registry
    has the new record under this id, active, with no request and no error
    counted, beside the records that were there; the definition is the last
    of the stack and the handlers are mounted after those of the app. *)
Theorem injectMiddleware_registers (inj : Injector) (injectionId : string)
    (now : Z) (fsOk : bool) (definition : MiddlewareDefinition)
    (middlewareFunction : MiddlewareFunction) :
  (if validateBeforeDeploy (config inj)
   then validateMiddleware middlewareFunction else None) = None ->
  Z.of_nat (size (activeMiddleware inj)) < maxConcurrentDeploys (config inj) ->
  (backupPrevious (config inj) = true -> fsOk = true) ->
  activeMiddleware inj !! injectionId = None ->
  exists inj' record,
    injectMiddleware inj injectionId now fsOk definition middlewareFunction
    = (Ok injectionId, inj')
    /\ getInjectionStatus inj' injectionId = Some record
    /\ active record = true
    /\ requestCount record = 0%nat /\ errorCount record = 0%nat
    /\ im_function record = middlewareFunction
    /\ size (activeMiddleware inj') = S (size (activeMiddleware inj))
    /\ (forall other, other <> injectionId ->
                      activeMiddleware inj' !! other = activeMiddleware inj !! other)
    /\ middlewareStack inj' = middlewareStack inj ++ [definition]
    /\ app inj'
       = app inj
         ++ injectIntoExpress definition
              (createWrapperMiddleware injectionId definition middlewareFunction).
Proof.
  intros Hvalid Hroom Hbackup Hfresh. unfold injectMiddleware. rewrite Hvalid.
  destruct (maxConcurrentDeploys (config inj) <=? Z.of_nat (size (activeMiddleware inj)))
    eqn:Hcap; [apply Z.leb_le in Hcap; lia|].
  destruct (backupPrevious (config inj) && negb fsOk) eqn:Hfs.
  { apply andb_true_iff in Hfs as [Hon Hfail]. rewrite (Hbackup Hon) in Hfail.
    discriminate Hfail. }
  eexists. eexists. split; [reflexivity|].
  unfold getInjectionStatus. cbn [activeMiddleware middlewareStack app].
  split; [apply lookup_insert_eq|]. cbn [active requestCount errorCount im_function].
  repeat split.
  - apply map_size_insert_None. exact Hfresh.
  - intros other Hother. apply lookup_insert_ne. congruence.
Qed.

Lemma injectMiddleware_registers_witness :
  exists inj' record,
    injectMiddleware (create Scenario.production) "inj-1" Scenario.t0 true
      Scenario.fix1 Scenario.passing = (Ok "inj-1"%string, inj')
    /\ getInjectionStatus inj' "inj-1" = Some record
    /\ active record = true
    /\ requestCount record = 0%nat /\ errorCount record = 0%nat
    /\ size (activeMiddleware inj') = 1%nat.
Proof.
  destruct (injectMiddleware_registers (create Scenario.production) "inj-1"
              Scenario.t0 true Scenario.fix1 Scenario.passing)
    as (inj' & record & Hok & Hstatus & Hactive & Hrequests & Herrors & _ & Hsize & _).
  - vm_compute. reflexivity.
  - vm_compute. reflexivity.
  - reflexivity.
  - reflexivity.
  - exists inj', record. auto 10.
Defined.

(** An injection followed by the removal of the same id gives the
    registry back as it was, but not the app: the handlers that the
    injection mounted stay mounted (they pass requests through from then
    on), and the stack loses every definition with the id of the removed
    one, not only the one that the injection pushed. *)
Theorem inject_then_remove (inj : Injector) (injectionId : string)
    (now : Z) (fsOk unlinked : bool) (definition : MiddlewareDefinition)
    (middlewareFunction : MiddlewareFunction) :
  (if validateBeforeDeploy (config inj)
   then validateMiddleware middlewareFunction else None) = None ->
  Z.of_nat (size (activeMiddleware inj)) < maxConcurrentDeploys (config inj) ->
  (backupPrevious (config inj) = true -> fsOk = true) ->
  activeMiddleware inj !! injectionId = None ->
  let injected :=
    snd (injectMiddleware inj injectionId now fsOk definition middlewareFunction) in
  exists removed,
    removeMiddleware injected injectionId unlinked = (Ok tt, removed)
    /\ activeMiddleware removed = activeMiddleware inj
    /\ app removed
       = app inj
         ++ injectIntoExpress definition
              (createWrapperMiddleware injectionId definition middlewareFunction)
    /\ middlewareStack removed
       = List.filter (fun m => negb (String.eqb (md_id m) (md_id definition)))
           (middlewareStack inj).
Proof.
  intros Hvalid Hroom Hbackup Hfresh injected. subst injected.
  unfold injectMiddleware. rewrite Hvalid.
  destruct (maxConcurrentDeploys (config inj) <=? Z.of_nat (size (activeMiddleware inj)))
    eqn:Hcap; [apply Z.leb_le in Hcap; lia|].
  destruct (backupPrevious (config inj) && negb fsOk) eqn:Hfs.
  { apply andb_true_iff in Hfs as [Hon Hfail]. rewrite (Hbackup Hon) in Hfail.
    discriminate Hfail. }
  cbn [snd]. unfold removeMiddleware. cbn [activeMiddleware].
  rewrite lookup_insert_eq. eexists. split; [reflexivity|].
  cbn [activeMiddleware app middlewareStack im_definition].
  split; [apply delete_insert_id; exact Hfresh|]. split; [reflexivity|].
  rewrite List.filter_app. cbn [List.filter]. rewrite String.eqb_refl.
  cbn [negb]. apply app_nil_r.
Qed.

Lemma inject_then_remove_witness :
  exists removed,
    removeMiddleware Scenario.full "inj-1" true = (Ok tt, removed)
    /\ activeMiddleware removed = activeMiddleware (create Scenario.production)
    /\ length (app removed) = 1%nat
    /\ middlewareStack removed = [].
Proof.
  destruct (inject_then_remove (create Scenario.production) "inj-1" Scenario.t0
              true true Scenario.fix1 Scenario.passing)
    as (removed & Hremoved & Hregistry & Happ & Hstack).
  - vm_compute. reflexivity.
  - vm_compute. reflexivity.
  - reflexivity.
  - reflexivity.
  - exists removed. split; [exact Hremoved|]. split; [exact Hregistry|].
    split; [rewrite Happ; reflexivity | rewrite Hstack; reflexivity].
Defined.

(** [emergencyStop] neutralizes every wrapper: whatever the request, the
    call passes it through to [next()] and counts nothing. *)
Theorem emergencyStop_passes_through (inj : Injector) (w : Wrapper)
    (req : Request) :
  callWrapper (emergencyStop inj) w req
  = ({| inv_request := req; inv_next := [None] |}, emergencyStop inj).
Proof.
  unfold callWrapper, emergencyStop. cbn [activeMiddleware setActiveMiddleware].
  rewrite lookup_fmap.
  destruct (activeMiddleware inj !! w_injectionId w); reflexivity.
Qed.

(** [emergencyStop] frees no room: the stopped records stay in the
    registry and count against [maxConcurrentDeploys], so an injector that
    was at its cap still refuses every injection although it reports no
    active patch. *)
Theorem emergencyStop_keeps_capacity (inj : Injector) (injectionId : string)
    (now : Z) (fsOk : bool) (definition : MiddlewareDefinition)
    (middlewareFunction : MiddlewareFunction) :
  maxConcurrentDeploys (config inj) <= Z.of_nat (size (activeMiddleware inj)) ->
  getAllInjections (emergencyStop inj) = []
  /\ size (activeMiddleware (emergencyStop inj)) = size (activeMiddleware inj)
  /\ exists e,
       injectMiddleware (emergencyStop inj) injectionId now fsOk definition
         middlewareFunction = (Err e, emergencyStop inj).
Proof.
  intros Hcap.
  assert (Hsize : size (activeMiddleware (emergencyStop inj))
                  = size (activeMiddleware inj)).
  { unfold emergencyStop. cbn [activeMiddleware setActiveMiddleware].
    apply map_size_fmap. }
  split; [apply emergencyStop_none_active|]. split; [exact Hsize|].
  unfold injectMiddleware.
  destruct (if validateBeforeDeploy (config (emergencyStop inj))
            then validateMiddleware middlewareFunction else None) as [e|].
  - exists e. reflexivity.
  - rewrite Hsize. change (config (emergencyStop inj)) with (config inj).
    apply Z.leb_le in Hcap. rewrite Hcap. eexists. reflexivity.
Qed.

Lemma emergencyStop_keeps_capacity_witness :
  getAllInjections (emergencyStop Scenario.full) = []
  /\ exists e,
       injectMiddleware (emergencyStop Scenario.full) "inj-2" (Scenario.t0 + 2000)
         true Scenario.fix1 Scenario.passing
       = (Err e, emergencyStop Scenario.full).
Proof.
  destruct (emergencyStop_keeps_capacity Scenario.full "inj-2" (Scenario.t0 + 2000)
              true Scenario.fix1 Scenario.passing) as (Hnone & _ & Hrefused).
  - vm_compute. discriminate.
  - split; [exact Hnone | exact Hrefused].
Defined.

End InjectorRegistry.

(** ** Middleware injector: the wrapper *)

Section InjectorWrapper.
Import Injector.

(** A request that an active wrapper matches runs the patch once on the
    request tagged with the injection, and is counted once. Every error
    that the patch passes to its continuation is counted and forwarded, and
    an exception that the patch throws is counted too and forwarded to the
    continuation as its last call. The other records are left alone. *)
Theorem callWrapper_counts (inj : Injector) (w : Wrapper) (req : Request)
    (m : InjectedMiddleware) :
  activeMiddleware inj !! w_injectionId w = Some m ->
  active m = true ->
  matchesConditions req (conditions (w_definition w)) = true ->
  let tagged :=
    {| req_method := req_method req; req_path := req_path req;
       req_get := req_get req; req_body := req_body req;
       req_injectionId := Some (w_injectionId w);
       req_middlewareName := Some (md_name (w_definition w)) |} in
  let ex := fn_run (w_function w) tagged in
  let thrown := match ex_throws ex with Some e => [Some e] | None => [] end in
  let r := callWrapper inj w req in
  inv_request (fst r) = ex_request ex
  /\ inv_next (fst r) = ex_next ex ++ thrown
  /\ (exists m',
         activeMiddleware (snd r) !! w_injectionId w = Some m'
         /\ requestCount m' = S (requestCount m)
         /\ errorCount m'
            = (errorCount m + length (List.filter isError (ex_next ex))
               + length thrown)%nat
         /\ active m' = true)
  /\ (forall other, other <> w_injectionId w ->
                    activeMiddleware (snd r) !! other = activeMiddleware inj !! other).
Proof.
  intros Hm Hactive Hmatch tagged ex thrown r. subst r.
  unfold callWrapper. rewrite Hm, Hactive, Hmatch. cbn [negb fst snd].
  fold tagged. fold ex. fold thrown.
  cbn [inv_request inv_next activeMiddleware setActiveMiddleware].
  split; [reflexivity|]. split; [reflexivity|]. split.
  - rewrite lookup_alter. destruct (decide (w_injectionId w = w_injectionId w));
      [|contradiction].
    rewrite Hm. eexists. split; [reflexivity|].
    cbn [requestCount errorCount active addCounts].
    split; [lia|]. split; [lia | exact Hactive].
  - intros other Hother. rewrite lookup_alter.
    destruct (decide (w_injectionId w = other)); [congruence | reflexivity].
Qed.

(** A patch that throws on the request of [Scenario.post]. *)
Lemma callWrapper_counts_witness :
  let throwing :=
    {| fn_length := 3; fn_source := "function adapt(req, res, next) { throw e; }";
       fn_run := fun req => {| ex_request := req; ex_next := [];
                               ex_throws := Some "boom"%string |} |} in
  let w := createWrapperMiddleware "inj-1" Scenario.fix1 throwing in
  let r := callWrapper Scenario.full w Scenario.post in
  inv_next (fst r) = [Some "boom"%string]
  /\ (requestCount <$> activeMiddleware (snd r) !! "inj-1") = Some 1%nat
  /\ (errorCount <$> activeMiddleware (snd r) !! "inj-1") = Some 1%nat.
Proof.
  intros throwing w r.
  destruct (activeMiddleware Scenario.full !! w_injectionId w) as [m|] eqn:Hm;
    [|vm_compute in Hm; discriminate Hm].
  destruct (callWrapper_counts Scenario.full w Scenario.post m Hm)
    as (_ & Hnext & (m' & Hm' & Hrequests & Herrors & _) & _).
  - vm_compute in Hm. injection Hm as <-. reflexivity.
  - vm_compute. reflexivity.
  - split; [exact Hnext|]. fold r in Hm'. change (w_injectionId w) with "inj-1"%string in Hm'.
    rewrite Hm'. cbn [fmap option_fmap option_map]. rewrite Hrequests, Herrors.
    vm_compute in Hm. injection Hm as <-. split; reflexivity.
Defined.

Lemma existsb_not_In (x : string) (l : list string) :
  ~ In x l -> existsb (String.eqb x) l = false.
Proof.
  intros Hnot. apply not_true_is_false. intros Hex.
  apply existsb_exists in Hex as (y & Hy & Heq).
  apply String.eqb_eq in Heq. subst. contradiction.
Qed.

(** A request whose method is not among the methods of the conditions,
    or whose path starts with none of their paths, is passed through to
    [next()] unchanged and is not counted, whatever the state of the
    injection. *)
Theorem callWrapper_skips_unmatched (inj : Injector) (w : Wrapper)
    (req : Request) (conds : Conditions) :
  conditions (w_definition w) = Some conds ->
  (exists ms, methods conds = Some ms /\ ~ In (req_method req) ms)
  \/ (exists ps, paths conds = Some ps
                 /\ Forall (fun p => String.prefix p (req_path req) = false) ps) ->
  callWrapper inj w req = ({| inv_request := req; inv_next := [None] |}, inj).
Proof.
  intros Hconds Hcase.
  assert (Hmatch : matchesConditions req (conditions (w_definition w)) = false).
  { rewrite Hconds. unfold matchesConditions.
    destruct Hcase as [(ms & -> & Hnot) | (ps & Hps & Hnone)].
    - rewrite (existsb_not_In _ _ Hnot). reflexivity.
    - rewrite Hps.
      assert (Hex : existsb (fun p => String.prefix p (req_path req)) ps = false).
      { apply not_true_is_false. intros Hex.
        apply existsb_exists in Hex as (p & Hp & Hprefix).
        rewrite Forall_forall in Hnone.
        rewrite (Hnone p) in Hprefix; [discriminate | apply list_elem_of_In; exact Hp]. }
      rewrite Hex. rewrite andb_false_r. reflexivity. }
  unfold callWrapper.
  destruct (activeMiddleware inj !! w_injectionId w) as [m|]; [|reflexivity].
  destruct (negb (active m)); [reflexivity|].
  rewrite Hmatch. reflexivity.
Qed.

(** A GET request to an injection for POST requests. *)
Lemma callWrapper_skips_unmatched_witness :
  let w := createWrapperMiddleware "inj-1" Scenario.fix1 Scenario.passing in
  let get :=
    {| req_method := "GET"; req_path := Scenario.signup; req_get := fun _ => None;
       req_body := []; req_injectionId := None; req_middlewareName := None |} in
  callWrapper Scenario.full w get
  = ({| inv_request := get; inv_next := [None] |}, Scenario.full).
Proof.
  intros w get.
  apply (callWrapper_skips_unmatched Scenario.full w get
           {| methods := Some ["POST"%string]; paths := Some [Scenario.signup];
              headers := None |}).
  - reflexivity.
  - left. exists ["POST"%string]. split; [reflexivity|].
    intros [Heq | []]. discriminate Heq.
Defined.

End InjectorWrapper.

(** ** The patterns of the validation *)

Section RegexCorrectness.
Import Regex RegexSemantics.

Lemma matches_cat (r1 r2 : regex) (s : list ascii) :
  Matches (Cat r1 r2) s ->
  exists s1 s2, s = s1 ++ s2 /\ Matches r1 s1 /\ Matches r2 s2.
Proof.
  intros H. inversion H; subst. eexists _, _. split; [reflexivity|]. split; assumption.
Qed.

Lemma nullable_spec (r : regex) : nullable r = true <-> Matches r [].
Proof.
  induction r as [| |p|r1 IH1 r2 IH2|r1 IH1 r2 IH2|r IH]; cbn [nullable].
  - split; [discriminate | intros H; inversion H].
  - split; [intros _; constructor | reflexivity].
  - split; [discriminate | intros H; inversion H].
  - rewrite andb_true_iff, IH1, IH2. split.
    + intros [H1 H2]. exact (MCat r1 r2 [] [] H1 H2).
    + intros H. apply matches_cat in H as (s1 & s2 & Heq & H1 & H2).
      symmetry in Heq. apply app_eq_nil in Heq as [-> ->]. split; assumption.
  - rewrite orb_true_iff, IH1, IH2. split.
    + intros [H|H]; [apply MAltL | apply MAltR]; exact H.
    + intros H. inversion H; subst; [left | right]; assumption.
  - split; [intros _; constructor | reflexivity].
Qed.

Lemma star_cons (r : regex) (c : ascii) (s : list ascii) :
  Matches (Star r) (c :: s) ->
  exists s1 s2, s = s1 ++ s2 /\ Matches r (c :: s1) /\ Matches (Star r) s2.
Proof.
  intros H. remember (Star r) as r' eqn:Hr. remember (c :: s) as s' eqn:Hs.
  revert s Hs.
  induction H as [| | | | | |r0 s1 s2 H1 _ H2 IH2]; intros t Ht;
    try discriminate Hr; try discriminate Ht.
  injection Hr as ->.
  destruct s1 as [|c1 s1].
  - cbn [app] in Ht. apply IH2; [reflexivity | exact Ht].
  - cbn [app] in Ht. injection Ht as -> <-.
    exists s1, s2. split; [reflexivity|]. split; assumption.
Qed.

Lemma deriv_spec (r : regex) (c : ascii) (s : list ascii) :
  Matches (deriv c r) s <-> Matches r (c :: s).
Proof.
  revert s.
  induction r as [| |p|r1 IH1 r2 IH2|r1 IH1 r2 IH2|r IH]; intros s; cbn [deriv].
  - split; intros H; inversion H.
  - split; intros H; inversion H.
  - destruct (p c) eqn:Hp.
    + split.
      * intros H. inversion H; subst. constructor. exact Hp.
      * intros H. inversion H; subst. constructor.
    + split; intros H; inversion H; subst. congruence.
  - assert (Hcat : Matches (Cat (deriv c r1) r2) s
                   <-> exists s1 s2, s = s1 ++ s2 /\ Matches r1 (c :: s1)
                                     /\ Matches r2 s2).
    { split.
      - intros H. apply matches_cat in H as (s1 & s2 & -> & H1 & H2).
        exists s1, s2. split; [reflexivity|]. split; [apply IH1; exact H1 | exact H2].
      - intros (s1 & s2 & -> & H1 & H2). constructor; [apply IH1; exact H1 | exact H2]. }
    assert (Hsplit : Matches (Cat r1 r2) (c :: s)
                     <-> (exists s1 s2, s = s1 ++ s2 /\ Matches r1 (c :: s1)
                                        /\ Matches r2 s2)
                         \/ (Matches r1 [] /\ Matches r2 (c :: s))).
    { split.
      - intros H. apply matches_cat in H as (s1 & s2 & Heq & H1 & H2).
        destruct s1 as [|c1 s1].
        + right. cbn [app] in Heq. subst s2. split; assumption.
        + left. cbn [app] in Heq. injection Heq as <- ->.
          exists s1, s2. split; [reflexivity|]. split; assumption.
      - intros [(s1 & s2 & -> & H1 & H2) | [H1 H2]].
        + exact (MCat r1 r2 (c :: s1) s2 H1 H2).
        + exact (MCat r1 r2 [] (c :: s) H1 H2). }
    destruct (nullable r1) eqn:Hnull.
    + rewrite Hsplit. split.
      * intros H. inversion H; subst.
        -- left. apply Hcat. assumption.
        -- right. split; [apply nullable_spec; exact Hnull | apply IH2; assumption].
      * intros [H | [_ H2]].
        -- apply MAltL. apply Hcat. exact H.
        -- apply MAltR. apply IH2. exact H2.
    + rewrite Hsplit, Hcat. split; [intros H; left; exact H|].
      intros [H | [H1 _]]; [exact H|].
      apply nullable_spec in H1. congruence.
  - split.
    + intros H. inversion H; subst; [apply MAltL; apply IH1 | apply MAltR; apply IH2];
        assumption.
    + intros H. inversion H; subst; [apply MAltL; apply IH1 | apply MAltR; apply IH2];
        assumption.
  - split.
    + intros H. apply matches_cat in H as (s1 & s2 & -> & H1 & H2).
      exact (MStarCons r (c :: s1) s2 (proj1 (IH s1) H1) H2).
    + intros H. apply star_cons in H as (s1 & s2 & -> & H1 & H2).
      constructor; [apply IH; exact H1 | exact H2].
Qed.

Lemma matchesPrefix_spec (r : regex) (s : list ascii) :
  matchesPrefix r s = true
  <-> exists found after, s = found ++ after /\ Matches r found.
Proof.
  revert r. induction s as [|c s IH]; intros r; cbn [matchesPrefix].
  - rewrite orb_false_r, nullable_spec. split.
    + intros H. exists [], []. split; [reflexivity | exact H].
    + intros (found & after & Heq & H). symmetry in Heq.
      apply app_eq_nil in Heq as [-> _]. exact H.
  - rewrite orb_true_iff, nullable_spec, IH. split.
    + intros [H | (found & after & -> & H)].
      * exists [], (c :: s). split; [reflexivity | exact H].
      * exists (c :: found), after. split; [reflexivity | apply deriv_spec; exact H].
    + intros (found & after & Heq & H). destruct found as [|c' found].
      * left. exact H.
      * right. cbn [app] in Heq. injection Heq as <- ->.
        exists found, after. split; [reflexivity | apply deriv_spec; exact H].
Qed.

(** [Regex.test] decides whether some substring matches. *)
Lemma test_spec (r : regex) (s : list ascii) :
  test r s = true <-> Contains r s.
Proof.
  unfold Contains. induction s as [|c s IH]; cbn [test].
  - rewrite orb_false_r, matchesPrefix_spec. split.
    + intros (found & after & Heq & H). exists [], found, after.
      split; [exact Heq | exact H].
    + intros (before & found & after & Heq & H). symmetry in Heq.
      apply app_eq_nil in Heq as [-> Heq]. exists found, after.
      split; [symmetry; exact Heq | exact H].
  - rewrite orb_true_iff, matchesPrefix_spec, IH. split.
    + intros [(found & after & Heq & H) | (before & found & after & -> & H)].
      * exists [], found, after. split; [exact Heq | exact H].
      * exists (c :: before), found, after. split; [reflexivity | exact H].
    + intros (before & found & after & Heq & H). destruct before as [|c' before].
      * left. exists found, after. split; [exact Heq | exact H].
      * right. cbn [app] in Heq. injection Heq as <- ->.
        exists before, found, after. split; [reflexivity | exact H].
Qed.



Lemma list_ascii_of_string_app (s1 s2 : string) :
  String.list_ascii_of_string (s1 +:+ s2)
  = String.list_ascii_of_string s1 ++ String.list_ascii_of_string s2.
Proof.
  induction s1 as [|c s1 IH]; [reflexivity|].
  change (c :: String.list_ascii_of_string (s1 +:+ s2)
          = c :: (String.list_ascii_of_string s1 ++ String.list_ascii_of_string s2)).
  rewrite IH. reflexivity.
Qed.

Lemma matches_lit (s : list ascii) : Matches (lit s) s.
Proof.
  induction s as [|c s IH]; cbn [lit]; [constructor|].
  apply (MCat (char c) (lit s) [c] s); [|exact IH].
  constructor. apply Ascii.eqb_refl.
Qed.

Lemma matches_spaces (n : nat) : Matches spaces (repeat " "%char n).
Proof.
  induction n as [|n IH]; cbn [repeat]; [constructor|].
  apply (MStarCons (Class isSpace) [" "%char] (repeat " "%char n)); [|exact IH].
  constructor. reflexivity.
Qed.

(** A callable of three parameters whose source text calls [eval], with
    any number of blanks before the parenthesis, is rejected with the
    error of the first pattern, wherever the call stands in the text. *)
Theorem validateMiddleware_rejects_eval (f : Injector.MiddlewareFunction)
    (before after : string) (blanks : nat) :
  Injector.fn_length f = 3%nat ->
  Injector.fn_source f
  = (before +:+ "eval" +:+ String.string_of_list_ascii (repeat " "%char blanks)
       +:+ "(" +:+ after)%string ->
  Injector.validateMiddleware f
  = Some (Injector.DangerousPattern "eval\s*\(").
Proof.
  intros Hlen Hsource. unfold Injector.validateMiddleware.
  rewrite Hlen. cbn [Nat.eqb negb].
  assert (Htest : test (Cat (literal "eval") (Cat spaces (char "("%char)))
                    (String.list_ascii_of_string (Injector.fn_source f)) = true).
  { apply test_spec. rewrite Hsource.
    exists (String.list_ascii_of_string before),
      (String.list_ascii_of_string "eval" ++ repeat " "%char blanks ++ ["("%char]),
      (String.list_ascii_of_string after).
    split.
    - rewrite !list_ascii_of_string_app.
      rewrite String.list_ascii_of_string_of_list_ascii.
      rewrite <- !app_assoc. reflexivity.
    - apply MCat; [apply matches_lit|].
      apply MCat; [apply matches_spaces|].
      constructor. reflexivity. }
  unfold dangerousPatterns. cbn [List.find snd fst]. rewrite Htest. reflexivity.
Qed.

Lemma validateMiddleware_rejects_eval_witness :
  Injector.validateMiddleware
    {| Injector.fn_length := 3;
       Injector.fn_source := "function (req, res, next) { eval  (req.body.code); next(); }";
       Injector.fn_run := fun req =>
         {| Injector.ex_request := req; Injector.ex_next := [None];
            Injector.ex_throws := None |} |}
  = Some (Injector.DangerousPattern "eval\s*\(").
Proof.
  apply (validateMiddleware_rejects_eval _
           "function (req, res, next) { " "req.body.code); next(); }" 2).
  - reflexivity.
  - reflexivity.
Defined.

End RegexCorrectness.

(** ** Canary deployer: routing of the requests *)

Section CanaryRouting.
Import Canary Routing.

Lemma featureFlags_updateDeployment (d : Deployer) (deploymentId : string)
    (dep : ActiveDeployment) (now : Z) :
  featureFlags (updateDeployment d deploymentId dep now) = featureFlags d.
Proof. reflexivity. Qed.

Lemma featureFlags_deployToPercentage (d : Deployer) (deploymentId : string)
    (pct : number) (st : CanaryStage) (now : Z) (dep : ActiveDeployment) :
  deployments d !! deploymentId = Some dep ->
  featureFlags (deployToPercentage d deploymentId pct st now)
  = <[flagKey deploymentId :=
        {| key := flagKey deploymentId; enabled := true; rolloutPercentage := pct |}]>
      (featureFlags d).
Proof.
  intros Hdep. unfold deployToPercentage. rewrite Hdep.
  rewrite (proj1 (addEvent_rest _ _ _ _ _)). reflexivity.
Qed.

Lemma featureFlags_completeDeployment (d : Deployer) (deploymentId : string)
    (now : Z) :
  featureFlags (completeDeployment d deploymentId now) = featureFlags d.
Proof.
  unfold completeDeployment. destruct (deployments d !! deploymentId); [|reflexivity].
  cbn [featureFlags setMetricsCollector].
  rewrite (proj1 (addEvent_rest _ _ _ _ _)). reflexivity.
Qed.

Lemma scaled_draw_below_100 (q : Q) :
  (0 <= q)%Q -> (q < 1)%Q ->
  JS.lt (JS.mul (JS.Fin q) (JS.ofZ 100)) (JS.ofZ 100) = true
  /\ JS.lt (JS.mul (JS.Fin q) (JS.ofZ 100)) (JS.Fin 0) = false.
Proof.
  intros Hlo Hhi. unfold JS.mul, JS.ofZ, JS.lt, JS.Qlt_bool.
  assert (Hlow : (0 <= Qred (q * inject_Z 100))%Q).
  { rewrite Qred_correct. apply Qmult_le_0_compat; [exact Hlo | discriminate]. }
  assert (Hhigh : (Qred (q * inject_Z 100) < inject_Z 100)%Q).
  { rewrite Qred_correct.
    apply Qlt_le_trans with (1 * inject_Z 100)%Q.
    - apply Qmult_lt_compat_r; [reflexivity | exact Hhi].
    - discriminate. }
  split.
  - apply negb_true_iff. apply not_true_is_false. intros Hle.
    apply Qle_bool_iff in Hle. apply (Qlt_not_le _ _ Hhigh Hle).
  - apply negb_false_iff. apply Qle_bool_iff. exact Hlow.
Qed.

(** Once [deployToPercentage] has run for a deployment, the canary
    middleware of that deployment hands a request to the new middleware
    exactly when the draw of the request, times 100, is below the
    percentage: at 100% every request is handed over, and at 0% none. *)
Theorem deployToPercentage_routes (d : Deployer) (deploymentId : string)
    (pct : number) (st : CanaryStage) (now : Z) (dep : ActiveDeployment)
    (newMiddleware : Injector.MiddlewareFunction) (random : number)
    (req : Injector.Request) :
  deployments d !! deploymentId = Some dep ->
  isDraw random ->
  let d' := deployToPercentage d deploymentId pct st now in
  let passed := {| Injector.ex_request := req; Injector.ex_next := [None];
                   Injector.ex_throws := None |} in
  createCanaryMiddleware d' deploymentId newMiddleware random req
  = (if JS.lt (JS.mul random (JS.ofZ 100)) pct
     then Injector.fn_run newMiddleware req else passed)
  /\ (pct = JS.ofZ 100 ->
      createCanaryMiddleware d' deploymentId newMiddleware random req
      = Injector.fn_run newMiddleware req)
  /\ (pct = JS.Fin 0 ->
      createCanaryMiddleware d' deploymentId newMiddleware random req = passed).
Proof.
  intros Hdep (q & -> & Hlo & Hhi) d' passed.
  assert (Hroute : createCanaryMiddleware d' deploymentId newMiddleware (JS.Fin q) req
                   = if JS.lt (JS.mul (JS.Fin q) (JS.ofZ 100)) pct
                     then Injector.fn_run newMiddleware req else passed).
  { unfold createCanaryMiddleware, shouldUseNewMiddleware. subst d'.
    rewrite (featureFlags_deployToPercentage _ _ _ _ _ _ Hdep).
    rewrite lookup_insert_eq. cbn [enabled rolloutPercentage andb]. reflexivity. }
  destruct (scaled_draw_below_100 q Hlo Hhi) as [Hfull Hnone].
  split; [exact Hroute|]. split.
  - intros ->. rewrite Hroute, Hfull. reflexivity.
  - intros ->. rewrite Hroute, Hnone. reflexivity.
Qed.

(** The first stage of the default plan, at 10%: a draw of 0.05 is routed
    to the new middleware. *)
Lemma deployToPercentage_routes_witness :
  let d' := deployToPercentage Scenario.started "d1" (JS.ofZ 10)
              (stage3 10 30) Scenario.t0 in
  createCanaryMiddleware d' "d1" Scenario.passing (JS.Fin (1 # 20)) Scenario.post
  = Injector.fn_run Scenario.passing Scenario.post.
Proof.
  destruct (deployments Scenario.started !! "d1") as [dep|] eqn:Hdep;
    [|vm_compute in Hdep; discriminate Hdep].
  destruct (deployToPercentage_routes Scenario.started "d1" (JS.ofZ 10)
              (stage3 10 30) Scenario.t0 dep Scenario.passing (JS.Fin (1 # 20))
              Scenario.post Hdep) as (Hroute & _ & _).
  - exists (1 # 20)%Q. split; [reflexivity|]. split; [discriminate | reflexivity].
  - exact Hroute.
Defined.

(** After [rollbackDeployment] on a deployment that exists, the canary
    middleware of the deployment hands no request to the new middleware:
    every request goes to [next()], whatever the draw. *)
Theorem rollbackDeployment_stops_routing (d : Deployer) (deploymentId : string)
    (trigger : Trigger) (now : Z) (dep : ActiveDeployment)
    (newMiddleware : Injector.MiddlewareFunction) (random : number)
    (req : Injector.Request) :
  deployments d !! deploymentId = Some dep ->
  createCanaryMiddleware (rollbackDeployment d deploymentId trigger now)
    deploymentId newMiddleware random req
  = {| Injector.ex_request := req; Injector.ex_next := [None];
       Injector.ex_throws := None |}.
Proof.
  intros Hdep. unfold createCanaryMiddleware, shouldUseNewMiddleware.
  rewrite (rollbackDeployment_found _ _ _ _ _ Hdep). cbn [featureFlags].
  rewrite lookup_delete_eq. reflexivity.
Qed.

(** The deployment of [Scenario.bothMonitoring] at 10%, rolled back: a
    draw of 0 is not routed to the new middleware any more. *)
Lemma rollbackDeployment_stops_routing_witness :
  createCanaryMiddleware
    (rollbackDeployment Scenario.bothMonitoring "d1" Manual (Scenario.t0 + 3000))
    "d1" Scenario.passing (JS.Fin 0) Scenario.post
  = {| Injector.ex_request := Scenario.post; Injector.ex_next := [None];
       Injector.ex_throws := None |}.
Proof.
  destruct (deployments Scenario.bothMonitoring !! "d1") as [dep|] eqn:Hdep;
    [|vm_compute in Hdep; discriminate Hdep].
  exact (rollbackDeployment_stops_routing Scenario.bothMonitoring "d1" Manual
           (Scenario.t0 + 3000) dep Scenario.passing (JS.Fin 0) Scenario.post Hdep).
Defined.

(** [completeDeployment] reports the deployment as completed at 100% of
    the traffic, but it leaves the feature flags as they are: the canary
    middleware goes on routing with the percentage of the last stage that
    was deployed. *)
Theorem completeDeployment_keeps_routing (d : Deployer) (deploymentId : string)
    (now : Z) (dep : ActiveDeployment) :
  deployments d !! deploymentId = Some dep ->
  let d' := completeDeployment d deploymentId now in
  (exists s, getDeploymentStatus d' deploymentId = Some s
             /\ stage s = Completed /\ trafficPercentage s = JS.ofZ 100)
  /\ featureFlags d' = featureFlags d
  /\ forall other newMiddleware random req,
       createCanaryMiddleware d' other newMiddleware random req
       = createCanaryMiddleware d other newMiddleware random req.
Proof.
  intros Hdep d'. split; [|split].
  - apply viewOf_status. apply viewOf_completeDeployment.
    rewrite viewOf_lookup, Hdep. eexists. reflexivity.
  - apply featureFlags_completeDeployment.
  - intros other newMiddleware random req.
    unfold createCanaryMiddleware, shouldUseNewMiddleware. subst d'.
    rewrite featureFlags_completeDeployment. reflexivity.
Qed.

(** A plan whose last stage is at 10%: the completed deployment reports
    100%, and a draw of 0.5 still goes to [next()]. *)
Lemma completeDeployment_keeps_routing_witness :
  let d0 := deployCanary (create Metrics.create) "d1" Scenario.fix1
              (Some Scenario.descending) Scenario.t0 in
  let d := deployToPercentage d0 "d1" (JS.ofZ 10) (Scenario.stageOf 10 1)
             Scenario.t0 in
  let d' := completeDeployment d "d1" (Scenario.t0 + 2000) in
  (trafficPercentage <$> getDeploymentStatus d' "d1") = Some (JS.ofZ 100)
  /\ createCanaryMiddleware d' "d1" Scenario.passing (JS.Fin (1 # 2)) Scenario.post
     = {| Injector.ex_request := Scenario.post; Injector.ex_next := [None];
          Injector.ex_throws := None |}.
Proof.
  intros d0 d d'.
  destruct (deployments d !! "d1") as [dep|] eqn:Hdep;
    [|vm_compute in Hdep; discriminate Hdep].
  destruct (completeDeployment_keeps_routing d "d1" (Scenario.t0 + 2000) dep Hdep)
    as ((s & Hs & _ & Htraffic) & _ & Hroute).
  split.
  - fold d' in Hs. rewrite Hs. cbn [fmap option_fmap option_map]. rewrite Htraffic.
    reflexivity.
  - fold d'. rewrite Hroute. vm_compute. reflexivity.
Defined.

End CanaryRouting.

(** ** Canary deployer: the event log and the metrics history *)

Section CanaryLogs.
Import Canary Invariants.

Lemma length_keepLast {A : Type} (n : nat) (xs : list A) :
  (length (keepLast n xs) <= n)%nat.
Proof.
  unfold keepLast. destruct (Nat.ltb_spec n (length xs)) as [Hlt | Hge].
  - unfold Metrics.lastN. rewrite length_drop. lia.
  - exact Hge.
Qed.

Lemma allStatus_updateDeployment (P : DeploymentStatus -> Prop) (d : Deployer)
    (deploymentId : string) (dep : ActiveDeployment) (now : Z) :
  allStatus P d -> P (withLastUpdate (status dep) now) ->
  allStatus P (updateDeployment d deploymentId dep now).
Proof.
  intros Hall Hdep key dep' Hlookup. rewrite lookup_updateDeployment in Hlookup.
  destruct (decide (deploymentId = key)) as [_ | _].
  - apply (inj Some) in Hlookup. subst dep'. exact Hdep.
  - exact (Hall key dep' Hlookup).
Qed.

Lemma bounded_addEvent (d : Deployer) (deploymentId : string)
    (type : EventType) (message : Message) (now : Z) :
  allStatus bounded d -> allStatus bounded (addEvent d deploymentId type message now).
Proof.
  intros Hall. unfold addEvent.
  destruct (deployments d !! deploymentId) as [dep|] eqn:Hdep; [|exact Hall].
  apply allStatus_updateDeployment; [exact Hall|].
  split; cbn [events history withLastUpdate withEvents status setStatus].
  - apply length_keepLast.
  - exact (proj2 (Hall _ _ Hdep)).
Qed.

Lemma bounded_deployToPercentage (d : Deployer) (deploymentId : string)
    (pct : number) (st : CanaryStage) (now : Z) :
  allStatus bounded d ->
  allStatus bounded (deployToPercentage d deploymentId pct st now).
Proof.
  intros Hall. unfold deployToPercentage.
  destruct (deployments d !! deploymentId) as [dep|] eqn:Hdep; [|exact Hall].
  apply bounded_addEvent. apply allStatus_updateDeployment.
  - exact Hall.
  - exact (Hall _ _ Hdep).
Qed.

Lemma bounded_completeDeployment (d : Deployer) (deploymentId : string) (now : Z) :
  allStatus bounded d -> allStatus bounded (completeDeployment d deploymentId now).
Proof.
  intros Hall. unfold completeDeployment.
  destruct (deployments d !! deploymentId) as [dep|] eqn:Hdep; [|exact Hall].
  change (allStatus bounded
            (addEvent
               (updateDeployment d deploymentId
                  (setStatus dep
                     (withTraffic (withStage (status dep) Completed) (JS.ofZ 100)))
                  now)
               deploymentId StageComplete DeploymentCompleted now)).
  apply bounded_addEvent. apply allStatus_updateDeployment.
  - exact Hall.
  - exact (Hall _ _ Hdep).
Qed.

Lemma bounded_rollbackDeployment (d : Deployer) (deploymentId : string)
    (trigger : Trigger) (now : Z) :
  allStatus bounded d ->
  allStatus bounded (rollbackDeployment d deploymentId trigger now).
Proof.
  intros Hall.
  destruct (deployments d !! deploymentId) as [dep|] eqn:Hdep.
  - rewrite (rollbackDeployment_found _ _ _ _ _ Hdep).
    intros key dep' Hlookup. cbn [deployments] in Hlookup.
    rewrite lookup_insert in Hlookup.
    destruct (decide (deploymentId = key)) as [_ | _].
    + apply (inj Some) in Hlookup. subst dep'.
      split; cbn [events history status setStatus].
      * apply length_keepLast.
      * exact (proj2 (Hall _ _ Hdep)).
    + exact (Hall key dep' Hlookup).
  - unfold rollbackDeployment. rewrite Hdep. exact Hall.
Qed.

Lemma bounded_monitorTick (d : Deployer) (deploymentId : string)
    (st : CanaryStage) (stageIndex : nat) (ms : MonitorState) (now : Z) :
  allStatus bounded d ->
  allStatus bounded (fst (monitorTick d deploymentId st stageIndex ms now)).
Proof.
  intros Hall. unfold monitorTick.
  destruct (deployments d !! deploymentId) as [dep|] eqn:Hdep; [|exact Hall].
  destruct (_ <=? _); [apply bounded_addEvent; exact Hall|].
  destruct (_ <=? _); [|exact Hall].
  assert (Hchecked :
    allStatus bounded
      (updateDeployment d deploymentId
         (setStatus dep
            (withMetrics (status dep)
               (Metrics.getMetrics (metricsCollector d)
                  (targetEndpoint (middleware dep))
                  (windowSize (monitoring (plan dep))) now)
               (keepLast 20
                  (history (status dep)
                   ++ [Metrics.getMetrics (metricsCollector d)
                         (targetEndpoint (middleware dep))
                         (windowSize (monitoring (plan dep))) now])))) now)).
  { apply allStatus_updateDeployment; [exact Hall|].
    split; cbn [events history withLastUpdate withMetrics status setStatus].
    - exact (proj1 (Hall _ _ Hdep)).
    - apply length_keepLast. }
  cbv zeta.
  destruct (Metrics.healthy _); cbn [fst].
  - apply bounded_addEvent. exact Hchecked.
  - apply bounded_addEvent. apply bounded_addEvent. exact Hchecked.
Qed.

Lemma bounded_monitorLoop (deploymentId : string) (st : CanaryStage)
    (stageIndex : nat) (inputs : list Input) :
  forall (d : Deployer) (ms : MonitorState),
    allStatus bounded d ->
    let r := monitorLoop d deploymentId st stageIndex ms inputs in
    Forall (allStatus bounded) (trace r) /\ allStatus bounded (final r).
Proof.
  induction inputs as [|input rest IH]; intros d ms Hall.
  - split; [constructor | exact Hall].
  - destruct input as [now | now | endpoint request now | endpoint now];
      cbn [monitorLoop].
    + pose proof (bounded_monitorTick d deploymentId st stageIndex ms now Hall)
        as Htick.
      destruct (monitorTick d deploymentId st stageIndex ms now) as [d' [ms' | ok why]];
        cbn [fst] in Htick.
      * destruct (IH d' ms' Htick) as [Htrace Hfinal].
        split; [constructor; assumption | exact Hfinal].
      * split; [constructor; [exact Htick | constructor] | exact Htick].
    + split; [constructor | exact Hall].
    + destruct (IH (setMetricsCollector d
                      (Metrics.recordRequest (metricsCollector d) endpoint request now))
                   ms Hall) as [Htrace Hfinal].
      split; [constructor; assumption | exact Hfinal].
    + destruct (IH (setMetricsCollector d
                      (Metrics.establishBaseline (metricsCollector d) endpoint now))
                   ms Hall) as [Htrace Hfinal].
      split; [constructor; assumption | exact Hfinal].
Qed.

Lemma bounded_processStages (deploymentId : string) (sts : list CanaryStage) :
  forall (stageIndex : nat) (d : Deployer) (now : Z) (inputs : list Input),
    allStatus bounded d ->
    Forall (allStatus bounded)
      (processStages sts stageIndex d deploymentId now inputs).
Proof.
  induction sts as [|st rest IH]; intros stageIndex d now inputs Hall;
    cbn [processStages].
  - constructor; [apply bounded_completeDeployment; exact Hall | constructor].
  - pose proof (bounded_deployToPercentage d deploymentId (percentage st) st now Hall)
      as Hdeployed.
    constructor; [exact Hdeployed|].
    assert (Hrun : Forall (allStatus bounded)
                     (trace (monitorStage
                               (deployToPercentage d deploymentId (percentage st) st now)
                               deploymentId st stageIndex now inputs))
                   /\ allStatus bounded
                        (final (monitorStage
                                  (deployToPercentage d deploymentId (percentage st) st now)
                                  deploymentId st stageIndex now inputs))).
    { unfold monitorStage.
      destruct (deployments _ !! deploymentId).
      - apply bounded_monitorLoop. exact Hdeployed.
      - split; [constructor | exact Hdeployed]. }
    destruct Hrun as [Htrace Hfinal].
    apply Forall_app. split; [exact Htrace|].
    destruct (outcome _) as [|[|] why now' inputs'].
    + constructor.
    + apply IH. exact Hfinal.
    + constructor; [apply bounded_rollbackDeployment; exact Hfinal | constructor].
Qed.

(** The event log of a deployment never holds more than 50 events and its
    metrics history never more than 20 samples: this holds when
    [deployCanary] has created the deployment and in every state that
    [processDeployment] goes through, for all deployments of the
    deployer. *)
Theorem logs_stay_bounded (d : Deployer) (deploymentId : string)
    (mw : MiddlewareDefinition) (partial : option PartialPlan) (now later : Z)
    (inputs : list Input) :
  allStatus bounded d ->
  let d0 := deployCanary d deploymentId mw partial now in
  Forall (allStatus bounded) (d0 :: processDeployment d0 deploymentId later inputs).
Proof.
  intros Hall d0.
  assert (Hd0 : allStatus bounded d0).
  { subst d0. unfold deployCanary. apply bounded_addEvent.
    intros key dep Hlookup. cbn [deployments setDeployments] in Hlookup.
    rewrite lookup_insert in Hlookup.
    destruct (decide (deploymentId = key)) as [_ | _].
    - apply (inj Some) in Hlookup. subst dep.
      split; cbn [events history status]; apply Nat.le_0_l.
    - exact (Hall key dep Hlookup). }
  constructor; [exact Hd0|].
  unfold processDeployment.
  destruct (deployments d0 !! deploymentId) as [dep|] eqn:Hdep; [|constructor].
  assert (Hstarted :
    allStatus bounded
      (updateDeployment d0 deploymentId
         (setStatus dep (withStage (status dep) Deploying)) later)).
  { apply allStatus_updateDeployment; [exact Hd0 | exact (Hd0 _ _ Hdep)]. }
  constructor; [exact Hstarted|].
  apply bounded_processStages. exact Hstarted.
Qed.

(** The run of [Scenario.firstRun], on a deployer without deployments. *)
Lemma logs_stay_bounded_witness :
  Forall (allStatus bounded) Scenario.firstRun.
Proof.
  apply (logs_stay_bounded (create Metrics.create) "d1" Scenario.fix1 None
           Scenario.t0 Scenario.t0 [Tick (Scenario.t0 + 1000)]).
  intros key dep Hlookup. vm_compute in Hlookup. discriminate Hlookup.
Defined.

End CanaryLogs.

(** ** Canary deployer: the first health check of a stage *)

Section CanaryFirstCheck.
Import Canary.

Lemma low_sample_issues (c : Metrics.Collector) (endpoint : string)
    (thresholds : Thresholds) (now : Z) :
  (sampleSize (Metrics.getMetrics c endpoint Metrics.defaultWindow now) < 10)%nat ->
  Metrics.healthy (Metrics.checkHealthThresholds c endpoint thresholds now) = false
  /\ In Metrics.InsufficientSampleSize
        (Metrics.issues (Metrics.checkHealthThresholds c endpoint thresholds now)).
Proof.
  intros Hlow.
  assert (Hgate : Metrics.sampleSizeOk
                    (Metrics.checks
                       (Metrics.checkHealthThresholds c endpoint thresholds now))
                  = false).
  { unfold Metrics.checkHealthThresholds. cbn [Metrics.checks Metrics.sampleSizeOk].
    apply Nat.leb_gt. exact Hlow. }
  assert (Hunhealthy :
    Metrics.healthy (Metrics.checkHealthThresholds c endpoint thresholds now) = false).
  { rewrite healthy_checks. rewrite Hgate. apply andb_false_r. }
  split; [exact Hunhealthy|].
  unfold Metrics.checkHealthThresholds in *.
  cbn [Metrics.healthy Metrics.checks Metrics.issues] in *.
  rewrite Hunhealthy. apply identifyIssues_sample_size. exact Hgate.
Qed.

Lemma deployToPercentage_lookup (d : Deployer) (deploymentId : string)
    (pct : number) (st : CanaryStage) (now : Z) (dep : ActiveDeployment) :
  deployments d !! deploymentId = Some dep ->
  let d1 := deployToPercentage d deploymentId pct st now in
  metricsCollector d1 = metricsCollector d
  /\ exists dep1,
       deployments d1 !! deploymentId = Some dep1
       /\ middleware dep1 = middleware dep
       /\ plan dep1 = plan dep
       /\ stageStartTime dep1 = now.
Proof.
  intros Hdep d1. subst d1. unfold deployToPercentage. rewrite Hdep. split.
  - rewrite (proj2 (addEvent_rest _ _ _ _ _)). reflexivity.
  - rewrite lookup_addEvent.
    destruct (decide (deploymentId = deploymentId)) as [_ | Hne]; [|contradiction].
    rewrite lookup_updateDeployment.
    destruct (decide (deploymentId = deploymentId)) as [_ | Hne]; [|contradiction].
    cbn [fmap option_fmap option_map]. eexists. split; [reflexivity|].
    split; [reflexivity|]. split; reflexivity.
Qed.

Lemma monitorTick_low_sample (d : Deployer) (deploymentId : string)
    (st : CanaryStage) (stageIndex : nat) (ms : MonitorState) (now : Z)
    (dep : ActiveDeployment) :
  deployments d !! deploymentId = Some dep ->
  now - stageStartTime dep < duration st * 1000 ->
  sampleFrequency (monitoring (plan dep)) * 1000 <= now - lastCheckTime ms ->
  (sampleSize (Metrics.getMetrics (metricsCollector d)
                 (targetEndpoint (middleware dep)) Metrics.defaultWindow now)
   < 10)%nat ->
  exists issues,
    snd (monitorTick d deploymentId st stageIndex ms now)
    = Resolve false (Some (HealthCheckFailed issues))
    /\ In Metrics.InsufficientSampleSize issues.
Proof.
  intros Hdep Hrunning Hdue Hlow. unfold monitorTick. rewrite Hdep.
  apply Z.leb_gt in Hrunning. rewrite Hrunning.
  apply Z.leb_le in Hdue. rewrite Hdue. cbv zeta.
  change (metricsCollector (updateDeployment d deploymentId _ now))
    with (metricsCollector d).
  destruct (low_sample_issues (metricsCollector d) (targetEndpoint (middleware dep))
              (rollbackThresholds (plan dep)) now Hlow) as [Hunhealthy Hissue].
  rewrite Hunhealthy. cbn [snd]. eexists. split; [reflexivity | exact Hissue].
Qed.

(** The first firing of the interval of a stage always runs a health
    check (the time of the last check starts at 0). When the stage is not
    over then and the 60-second window of the endpoint holds fewer than 10
    samples, the check fails, the later stages are not deployed and the
    deployment is rolled back: the states of the run are the stage
    deployed, the failed check and the rollback, which leaves the
    deployment failed at 0% of the traffic. *)
Theorem first_check_low_traffic_rolls_back (d : Deployer) (deploymentId : string)
    (dep : ActiveDeployment) (st : CanaryStage) (rest : list CanaryStage)
    (stageIndex : nat) (now later : Z) (inputs : list Input) :
  deployments d !! deploymentId = Some dep ->
  later - now < duration st * 1000 ->
  sampleFrequency (monitoring (plan dep)) * 1000 <= later ->
  (sampleSize (Metrics.getMetrics (metricsCollector d)
                 (targetEndpoint (middleware dep)) Metrics.defaultWindow later)
   < 10)%nat ->
  exists deployed checked,
    processStages (st :: rest) stageIndex d deploymentId now (Tick later :: inputs)
    = [deployed; checked; rollbackDeployment checked deploymentId Automatic later]
    /\ Traces.viewOf deploymentId deployed = Some (MonitoringStage, percentage st)
    /\ Traces.viewOf deploymentId
         (rollbackDeployment checked deploymentId Automatic later)
       = Some (Failed, JS.Fin 0).
Proof.
  intros Hdep Hrunning Hdue Hlow. cbn [processStages].
  set (d1 := deployToPercentage d deploymentId (percentage st) st now).
  destruct (deployToPercentage_lookup d deploymentId (percentage st) st now dep Hdep)
    as (Hcollector & dep1 & Hdep1 & Hmiddleware & Hplan & Hstart).
  fold d1 in Hcollector, Hdep1.
  assert (Hview1 : Traces.viewOf deploymentId d1 = Some (MonitoringStage, percentage st)).
  { apply viewOf_deployToPercentage. rewrite viewOf_lookup, Hdep. eexists. reflexivity. }
  destruct (monitorTick_low_sample d1 deploymentId st stageIndex
              {| checksCompleted := 0; lastCheckTime := 0 |} later dep1 Hdep1)
    as (issues & Htick & _).
  - rewrite Hstart. exact Hrunning.
  - rewrite Hplan. cbn [lastCheckTime]. rewrite Z.sub_0_r. exact Hdue.
  - rewrite Hcollector, Hmiddleware. exact Hlow.
  - pose proof (viewOf_monitorTick deploymentId deploymentId d1 st stageIndex
                  {| checksCompleted := 0; lastCheckTime := 0 |} later) as Hview2.
    unfold monitorStage. rewrite Hdep1. cbn [monitorLoop].
    destruct (monitorTick d1 deploymentId st stageIndex
                {| checksCompleted := 0; lastCheckTime := 0 |} later)
      as [d2 result].
    cbn [snd] in Htick. cbn [fst] in Hview2. subst result.
    cbn [trace outcome final app].
    exists d1, d2. split; [reflexivity|]. split; [exact Hview1|].
    apply viewOf_rollbackDeployment. rewrite Hview2, Hview1. eexists. reflexivity.
Qed.

(** The stages of the default plan for the deployment of
    [Scenario.started], whose endpoint has no recorded request. *)
Lemma first_check_low_traffic_rolls_back_witness :
  exists deployed checked,
    processStages [stage3 10 30; stage3 50 60; stage3 100 60] 0 Scenario.started
      "d1" Scenario.t0 [Tick (Scenario.t0 + 1000)]
    = [deployed; checked;
       rollbackDeployment checked "d1" Automatic (Scenario.t0 + 1000)]
    /\ Traces.viewOf "d1" deployed = Some (MonitoringStage, JS.ofZ 10)
    /\ Traces.viewOf "d1"
         (rollbackDeployment checked "d1" Automatic (Scenario.t0 + 1000))
       = Some (Failed, JS.Fin 0).
Proof.
  destruct (deployments Scenario.started !! "d1") as [dep|] eqn:Hdep;
    [|vm_compute in Hdep; discriminate Hdep].
  apply (first_check_low_traffic_rolls_back Scenario.started "d1" dep (stage3 10 30)
           [stage3 50 60; stage3 100 60] 0 Scenario.t0 (Scenario.t0 + 1000) [] Hdep).
  - vm_compute. reflexivity.
  - vm_compute in Hdep. injection Hdep as <-. vm_compute. discriminate.
  - vm_compute in Hdep. injection Hdep as <-. vm_compute. lia.
Defined.

End CanaryFirstCheck.

(** ** Rollback manager: polls that do not roll back, and the records *)

Section RollbackPolls.
Import Rollback.

(** A poll of a deployment that has completed or failed stops the
    monitoring of the deployment and does nothing else: the monitor is
    removed, and the deployer, the injector and the rollback history are as
    before. *)
Theorem performHealthCheck_done_stops_monitoring (m : Manager)
    (rollbackId deploymentId : string) (now : Z) (monitor : RollbackMonitor)
    (s : DeploymentStatus) :
  monitors m !! deploymentId = Some monitor ->
  Canary.getDeploymentStatus (canaryDeployer m) deploymentId = Some s ->
  isDone (stage s) = true ->
  performHealthCheck m rollbackId deploymentId now
  = (Ok tt, setMonitors m (delete deploymentId (monitors m))).
Proof.
  intros Hmon Hstatus Hdone. unfold performHealthCheck. rewrite Hmon.
  cbn [canaryDeployer setMonitors]. rewrite Hstatus, Hdone.
  unfold stopMonitoring, setMonitors. cbn [injector canaryDeployer monitors rollbackHistory].
  rewrite delete_insert_eq. reflexivity.
Qed.

(** The deployment of [Scenario.firstRun] has failed; a monitor for it is
    removed by its first poll. *)
Lemma performHealthCheck_done_stops_monitoring_witness :
  let m := startMonitoring (create Scenario.full Scenario.afterFirstRun)
             "mon-1" "d1" (Scenario.planWith Scenario.aggressive) Scenario.t0 in
  performHealthCheck m "rb-1" "d1" (Scenario.t0 + 5000)
  = (Ok tt, setMonitors m (delete "d1" (monitors m))).
Proof.
  intros m.
  destruct (monitors m !! "d1") as [monitor|] eqn:Hmon;
    [|vm_compute in Hmon; discriminate Hmon].
  destruct (Canary.getDeploymentStatus (canaryDeployer m) "d1") as [s|] eqn:Hs;
    [|vm_compute in Hs; discriminate Hs].
  apply (performHealthCheck_done_stops_monitoring m "rb-1" "d1" (Scenario.t0 + 5000)
           monitor s Hmon Hs).
  vm_compute in Hs. injection Hs as <-. reflexivity.
Defined.

Lemma filter_empty_of_all_false {A : Type} (f : A -> bool) (l : list A) :
  Forall (fun x => f x = false) l -> List.filter f l = [].
Proof.
  induction 1 as [|x l Hx _ IH]; [reflexivity|].
  cbn [List.filter]. rewrite Hx. exact IH.
Qed.

(** A poll of a deployment that is under way does not roll back when no
    violation that it finds is critical and, counting the ones it has just
    found, each violated metric has fewer than three violations within the
    last 60 seconds: the violations are added to the monitor, the number of
    checks grows by one, and the deployer, the injector and the rollback
    history are as before. *)
Theorem sparse_violations_keep_deployment (m : Manager)
    (rollbackId deploymentId : string) (now : Z) (monitor : RollbackMonitor)
    (s : DeploymentStatus) :
  monitors m !! deploymentId = Some monitor ->
  Canary.getDeploymentStatus (canaryDeployer m) deploymentId = Some s ->
  isDone (stage s) = false ->
  let currentMetrics :=
    Metrics.getMetrics (metricsCollector m) "/api/signup" 30 now in
  let vs := Decisions.found monitor currentMetrics now in
  Forall (fun v => isCritical v = false) vs ->
  Forall (fun v =>
            (length (Decisions.recentOf now (metric (rv_trigger v))
                       (violations monitor ++ vs)) < 3)%nat) vs ->
  let r := performHealthCheck m rollbackId deploymentId now in
  fst r = Ok tt
  /\ canaryDeployer (snd r) = canaryDeployer m
  /\ injector (snd r) = injector m
  /\ rollbackHistory (snd r) = rollbackHistory m
  /\ exists monitor',
       monitors (snd r) !! deploymentId = Some monitor'
       /\ checks monitor' = S (checks monitor)
       /\ lastCheck monitor' = now
       /\ violations monitor' = violations monitor ++ vs.
Proof.
  intros Hmon Hstatus Hnotdone currentMetrics vs Hmild Hsparse r. subst r.
  unfold performHealthCheck, extractEndpointFromDeployment. rewrite Hmon.
  unfold metricsCollector in *. cbn [canaryDeployer setMonitors monitors].
  rewrite Hstatus, Hnotdone.
  rewrite (evaluateRollbackTriggers_found _ _ (checked now monitor))
    by apply lookup_insert_eq.
  change (Decisions.found (checked now monitor)) with (Decisions.found monitor).
  fold currentMetrics. fold vs.
  destruct (0 <? length vs)%nat eqn:Hany.
  - assert (Hno : shouldTriggerRollback (pushViolations vs (checked now monitor)) vs now
                  = false).
    { unfold shouldTriggerRollback.
      rewrite (filter_empty_of_all_false isCritical vs Hmild).
      change (0 <? length (@nil RollbackViolation))%nat with false. cbv iota.
      rewrite filter_empty_of_all_false; [reflexivity|].
      eapply Forall_impl; [exact Hsparse|]. intros v Hv. cbn beta in Hv |- *.
      cbn [violations pushViolations checked]. rewrite filter_filter.
      apply Nat.leb_gt. exact Hv. }
    rewrite Hno. cbn [fst snd canaryDeployer injector rollbackHistory monitors].
    split; [reflexivity|]. split; [reflexivity|]. split; [reflexivity|].
    split; [reflexivity|]. eexists. split; [apply lookup_insert_eq|].
    split; [reflexivity|]. split; reflexivity.
  - cbn [fst snd canaryDeployer injector rollbackHistory monitors].
    split; [reflexivity|]. split; [reflexivity|]. split; [reflexivity|].
    split; [reflexivity|]. eexists. split; [apply lookup_insert_eq|].
    split; [reflexivity|]. split; [reflexivity|].
    apply Nat.ltb_ge in Hany. destruct vs; [|cbn in Hany; lia].
    cbn [violations checked]. rewrite app_nil_r. reflexivity.
Qed.

(** Three failures in ten requests against a threshold of 5%: the first
    poll records one violation and leaves the deployment at 10%. *)
Lemma sparse_violations_keep_deployment_witness :
  let m := Scenario.monitoring 3 Scenario.fivePercent in
  let r := performHealthCheck m "rb-1" "d1" (Scenario.t0 + 5000) in
  fst r = Ok tt
  /\ canaryDeployer (snd r) = canaryDeployer m
  /\ rollbackHistory (snd r) = rollbackHistory m
  /\ (length <$> (violations <$> monitors (snd r) !! "d1")) = Some 1%nat.
Proof.
  intros m r.
  destruct (monitors m !! "d1") as [monitor|] eqn:Hmon;
    [|vm_compute in Hmon; discriminate Hmon].
  destruct (Canary.getDeploymentStatus (canaryDeployer m) "d1") as [s|] eqn:Hs;
    [|vm_compute in Hs; discriminate Hs].
  destruct (sparse_violations_keep_deployment m "rb-1" "d1" (Scenario.t0 + 5000)
              monitor s Hmon Hs)
    as (Hok & Hdeployer & _ & Hhistory & monitor' & Hmon' & _ & _ & Hviolations).
  - vm_compute in Hs. injection Hs as <-. reflexivity.
  - vm_compute in Hmon. injection Hmon as <-. vm_compute.
    constructor; [reflexivity | constructor].
  - vm_compute in Hmon. injection Hmon as <-. vm_compute.
    constructor; [lia | constructor].
  - fold r in Hok, Hdeployer, Hhistory, Hmon'.
    split; [exact Hok|]. split; [exact Hdeployer|]. split; [exact Hhistory|].
    rewrite Hmon'. cbn [fmap option_fmap option_map]. rewrite Hviolations.
    vm_compute in Hmon. injection Hmon as <-. vm_compute. reflexivity.
Defined.

(** When the deployer does not know the deployment of an active monitor,
    the health check of the turn fails and the turn runs a rollback: the
    deployer has nothing to roll back and is left as it is, yet a record
    of a successful automatic rollback is added to the history, and the
    monitor is removed. *)
Theorem monitorTurn_unknown_deployment (m : Manager)
    (rollbackId deploymentId : string) (now : Z) (monitor : RollbackMonitor) :
  monitors m !! deploymentId = Some monitor ->
  mon_active monitor = true ->
  Canary.deployments (canaryDeployer m) !! deploymentId = None ->
  monitorTurn m rollbackId deploymentId now
  = {| injector := injector m;
       canaryDeployer := canaryDeployer m;
       monitors := delete deploymentId (monitors m);
       rollbackHistory :=
         rollbackHistory m
         ++ [{| rec_id := rollbackId; rec_deploymentId := deploymentId;
                rec_trigger := Automatic; rec_reason := HealthCheckError;
                rec_startTime := now; rec_endTime := now;
                rec_success := true;
                rec_strategy := strategy (rollbackPlan monitor) |}] |}.
Proof.
  intros Hmon Hactive Hunknown. unfold monitorTurn. rewrite Hmon, Hactive.
  cbn [negb]. unfold performHealthCheck. rewrite Hmon.
  cbn [canaryDeployer setMonitors]. unfold Canary.getDeploymentStatus.
  rewrite Hunknown. cbn [fmap option_fmap option_map].
  rewrite (executeRollback_found _ rollbackId deploymentId Automatic HealthCheckError
             now (checked now monitor));
    [|cbn [monitors]; apply lookup_insert_eq].
  cbn [snd injector canaryDeployer monitors rollbackHistory rollbackPlan checked
       setMonitors].
  unfold Canary.rollbackDeployment. rewrite Hunknown.
  rewrite delete_insert_eq. reflexivity.
Qed.

(** A monitor started for an id that the deployer has never seen. *)
Lemma monitorTurn_unknown_deployment_witness :
  let m := startMonitoring (create Scenario.full Scenario.started)
             "mon-1" "d9" (Scenario.planWith Scenario.aggressive) Scenario.t0 in
  let m' := monitorTurn m "rb-1" "d9" (Scenario.t0 + 5000) in
  canaryDeployer m' = canaryDeployer m
  /\ (rec_success <$> rollbackHistory m') = [true]
  /\ monitors m' !! "d9" = None.
Proof.
  intros m m'.
  destruct (monitors m !! "d9") as [monitor|] eqn:Hmon;
    [|vm_compute in Hmon; discriminate Hmon].
  assert (Hturn := monitorTurn_unknown_deployment m "rb-1" "d9" (Scenario.t0 + 5000)
                     monitor Hmon).
  fold m' in Hturn. rewrite Hturn.
  - split; [reflexivity|]. split; [reflexivity|]. cbn [monitors].
    apply lookup_delete_eq.
  - vm_compute in Hmon. injection Hmon as <-. reflexivity.
  - vm_compute. reflexivity.
Defined.

Lemma last_keepLast_snoc {A : Type} (n : nat) (l : list A) (x : A) :
  (0 < n)%nat -> last (Canary.keepLast n (l ++ [x])) = Some x.
Proof.
  intros Hn. unfold Canary.keepLast.
  destruct (n <? length (l ++ [x]))%nat.
  - apply last_lastN_snoc. exact Hn.
  - apply last_snoc.
Qed.

(** [manualRollback] of a monitored deployment records a manual rollback
    with the given reason in the history of the manager, but the deployer is
    told that the rollback is automatic: the last event of the deployment,
    which has failed, says so. The monitor is removed, so a second
    [manualRollback] fails and changes nothing. *)
Theorem manualRollback_logged_as_automatic (m : Manager)
    (rollbackId deploymentId reason : string) (now : Z)
    (monitor : RollbackMonitor) (dep : Canary.ActiveDeployment) :
  monitors m !! deploymentId = Some monitor ->
  Canary.deployments (canaryDeployer m) !! deploymentId = Some dep ->
  let r := manualRollback m rollbackId deploymentId reason now in
  fst r = Ok tt
  /\ (exists record,
         rollbackHistory (snd r) = rollbackHistory m ++ [record]
         /\ rec_trigger record = Manual
         /\ rec_reason record = ManualReason reason)
  /\ (exists s,
         Canary.getDeploymentStatus (canaryDeployer (snd r)) deploymentId = Some s
         /\ stage s = Failed
         /\ last (events s)
            = Some {| ev_timestamp := now; ev_type := RollbackEvent;
                      ev_message := RolledBack Automatic |})
  /\ (forall rollbackId' reason' later,
         manualRollback (snd r) rollbackId' deploymentId reason' later
         = (Err (NoMonitorFound deploymentId), snd r)).
Proof.
  intros Hmon Hdep r.
  assert (Hr : r = (Ok tt,
                    {| injector := injector m;
                       canaryDeployer :=
                         Canary.rollbackDeployment (canaryDeployer m) deploymentId
                           Automatic now;
                       monitors := delete deploymentId (monitors m);
                       rollbackHistory :=
                         rollbackHistory m
                         ++ [{| rec_id := rollbackId; rec_deploymentId := deploymentId;
                                rec_trigger := Manual;
                                rec_reason := ManualReason reason;
                                rec_startTime := now; rec_endTime := now;
                                rec_success := true;
                                rec_strategy := strategy (rollbackPlan monitor) |}] |})).
  { subst r. unfold manualRollback. rewrite Hmon.
    apply executeRollback_found. exact Hmon. }
  rewrite Hr. cbn [fst snd rollbackHistory canaryDeployer].
  split; [reflexivity|]. split; [|split].
  - eexists. split; [reflexivity|]. split; reflexivity.
  - rewrite (rollbackDeployment_found _ _ _ _ _ Hdep).
    unfold Canary.getDeploymentStatus. cbn [Canary.deployments].
    rewrite lookup_insert_eq. cbn [fmap option_fmap option_map].
    eexists. split; [reflexivity|]. cbn [Canary.status Canary.setStatus stage events].
    split; [reflexivity|]. apply last_keepLast_snoc. lia.
  - intros rollbackId' reason' later. unfold manualRollback. cbn [monitors].
    rewrite lookup_delete_eq. reflexivity.
Qed.

(** The monitored deployment of [Scenario.monitoring]. *)
Lemma manualRollback_logged_as_automatic_witness :
  let m := Scenario.monitoring 0 Scenario.aggressive in
  let r := manualRollback m "rb-1" "d1" "operator" (Scenario.t0 + 5000) in
  (rec_trigger <$> rollbackHistory (snd r)) = [Manual]
  /\ (ev_message <$> (Canary.getDeploymentStatus (canaryDeployer (snd r)) "d1"
                        ≫= fun s => last (events s)))
     = Some (RolledBack Automatic).
Proof.
  intros m r.
  destruct (monitors m !! "d1") as [monitor|] eqn:Hmon;
    [|vm_compute in Hmon; discriminate Hmon].
  destruct (Canary.deployments (canaryDeployer m) !! "d1") as [dep|] eqn:Hdep;
    [|vm_compute in Hdep; discriminate Hdep].
  destruct (manualRollback_logged_as_automatic m "rb-1" "d1" "operator"
              (Scenario.t0 + 5000) monitor dep Hmon Hdep)
    as (_ & (record & Hhistory & Htrigger & _) & (s & Hs & _ & Hlast) & _).
  fold r in Hhistory, Hs. split.
  - rewrite Hhistory. change (rollbackHistory m) with (@nil RollbackRecord).
    cbn [app fmap list_fmap]. rewrite Htrigger. reflexivity.
  - rewrite Hs. cbn [mbind option_bind]. rewrite Hlast. reflexivity.
Defined.

End RollbackPolls.

(** ** Rollback manager: the history that is reported *)

Section RollbackReports.
Import Rollback Reporting.

(** [getRollbackHistory(limit)] returns the [limit] most recent records,
    the most recent first, for a positive [limit]; with a limit of 0 it
    returns the whole history, because [slice(-0)] is [slice(0)]; and with a
    negative limit it leaves out the oldest [-limit] records. *)
Theorem getRollbackHistory_limit (m : Manager) (limit : Z) :
  getRollbackHistory m limit
  = if limit <? 0 then rev (drop (Z.to_nat (- limit)) (rollbackHistory m))
    else if limit =? 0 then rev (rollbackHistory m)
    else take (Z.to_nat limit) (rev (rollbackHistory m)).
Proof.
  unfold getRollbackHistory, slice.
  set (h := rollbackHistory m).
  destruct (Z.ltb_spec limit 0) as [Hneg | Hnonneg].
  - destruct (Z.ltb_spec (- limit) 0) as [Himpossible | _]; [lia|].
    f_equal. destruct (Z.le_gt_cases (- limit) (Z.of_nat (length h))) as [Hle | Hgt].
    + rewrite Z.min_l by exact Hle. reflexivity.
    + rewrite Z.min_r by lia. rewrite Nat2Z.id.
      rewrite !drop_ge by lia. reflexivity.
  - destruct (Z.eqb_spec limit 0) as [-> | Hpositive].
    + cbn [Z.opp Z.ltb Z.compare]. rewrite Z.min_l by lia. reflexivity.
    + destruct (Z.ltb_spec (- limit) 0) as [_ | Himpossible]; [|lia].
      rewrite firstn_rev. f_equal. f_equal. lia.
Qed.

Example getRollbackHistory_zero :
  let record k :=
    {| rec_id := k; rec_deploymentId := "d1"; rec_trigger := Automatic;
       rec_reason := HealthCheckError; rec_startTime := 0; rec_endTime := 0;
       rec_success := true; rec_strategy := Immediate |} in
  let m := pushRecord (pushRecord (pushRecord (create Scenario.full Scenario.started)
                                     (record "a")) (record "b")) (record "c") in
  (rec_id <$> getRollbackHistory m 2) = ["c"; "b"]%string
  /\ (rec_id <$> getRollbackHistory m 0) = ["c"; "b"; "a"]%string.
Proof. vm_compute. split; reflexivity. Qed.

End RollbackReports.

(** ** Emergency stops *)

Section EmergencyStops.
Import Rollback Traces.

Lemma emergencyStop_idempotent (inj : Injector.Injector) :
  Injector.emergencyStop (Injector.emergencyStop inj) = Injector.emergencyStop inj.
Proof.
  unfold Injector.emergencyStop, Injector.setActiveMiddleware.
  cbn [Injector.activeMiddleware Injector.middlewareStack Injector.app
       Injector.config Injector.backupFiles].
  f_equal. rewrite <- map_fmap_compose. apply map_fmap_ext.
  intros injectionId record _. reflexivity.
Qed.

(** [SelfHealingDeployer.emergencyStop] stops the injector and then runs
    [emergencyRollbackAll], which stops the injector itself: the result is
    the one of [emergencyRollbackAll] alone. *)
Theorem emergencyStop_is_emergencyRollbackAll (m : Manager) (now : Z) :
  Orchestrator.emergencyStop m now = emergencyRollbackAll m now.
Proof.
  unfold Orchestrator.emergencyStop, emergencyRollbackAll.
  cbn [canaryDeployer injector setInjector setCanaryDeployer monitors rollbackHistory].
  rewrite emergencyStop_idempotent. reflexivity.
Qed.

Lemma rollbackEach_untouched (key : string) (now : Z)
    (toRollback : list DeploymentStatus) :
  forall d, (forall s, In s toRollback -> st_id s <> key) ->
            viewOf key (rollbackEach now d toRollback) = viewOf key d.
Proof.
  induction toRollback as [|s rest IH]; intros d Hother; [reflexivity|].
  cbn [rollbackEach fold_left].
  change (viewOf key
            (rollbackEach now
               (Canary.rollbackDeployment d (st_id s) Automatic now) rest)
          = viewOf key d).
  rewrite IH.
  - apply viewOf_rollbackDeployment_other. apply Hother. left. reflexivity.
  - intros s' Hin. apply Hother. right. exact Hin.
Qed.

Lemma rollbackEach_ids (key : string) (now : Z) (toRollback : list DeploymentStatus) :
  forall d, idOf key (rollbackEach now d toRollback) = idOf key d.
Proof.
  induction toRollback as [|s rest IH]; intros d; [reflexivity|].
  cbn [rollbackEach fold_left].
  change (idOf key
            (rollbackEach now
               (Canary.rollbackDeployment d (st_id s) Automatic now) rest)
          = idOf key d).
  rewrite IH. apply idOf_rollbackDeployment.
Qed.

Lemma In_getActiveDeployments (d : Canary.Deployer) (s : DeploymentStatus) :
  In s (Canary.getActiveDeployments d)
  <-> exists key dep, Canary.deployments d !! key = Some dep /\ Canary.status dep = s.
Proof.
  unfold Canary.getActiveDeployments. rewrite <- list_elem_of_In.
  rewrite list_elem_of_fmap. split.
  - intros (dep & -> & Hdep). apply list_elem_of_fmap in Hdep as ([key dep'] & -> & Hin).
    apply elem_of_map_to_list in Hin. exists key, dep'. split; [exact Hin | reflexivity].
  - intros (key & dep & Hdep & <-). exists dep. split; [reflexivity|].
    apply list_elem_of_fmap. exists (key, dep). split; [reflexivity|].
    apply elem_of_map_to_list. exact Hdep.
Qed.

(** After the rollbacks of [emergencyRollbackAll], every deployment of a
    deployer that stores its deployments under their ids has completed or
    failed. *)
Lemma rollbackEach_all_done (d : Canary.Deployer) (now : Z) :
  wellFormed d ->
  let toRollback :=
    List.filter (fun s => negb (isDone (stage s))) (Canary.getActiveDeployments d) in
  forall s, In s (Canary.getActiveDeployments (rollbackEach now d toRollback)) ->
            isDone (stage s) = true.
Proof.
  intros Hwf toRollback s Hin.
  apply In_getActiveDeployments in Hin as (key & dep1 & Hdep1 & <-).
  pose proof (rollbackEach_ids key now toRollback d) as Hids.
  unfold idOf in Hids. rewrite Hdep1 in Hids.
  destruct (Canary.deployments d !! key) as [dep|] eqn:Hdep; [|discriminate Hids].
  pose proof (Hwf key dep Hdep) as Hid.
  assert (Hsome : is_Some (viewOf key d)).
  { rewrite viewOf_lookup, Hdep. eexists. reflexivity. }
  assert (Hview1 : viewOf key (rollbackEach now d toRollback)
                   = Some (stage (Canary.status dep1),
                           trafficPercentage (Canary.status dep1))).
  { rewrite viewOf_lookup, Hdep1. reflexivity. }
  destruct (isDone (stage (Canary.status dep))) eqn:Hdone.
  - rewrite rollbackEach_untouched in Hview1.
    + rewrite viewOf_lookup, Hdep in Hview1. cbn [fmap option_fmap option_map] in Hview1.
      injection Hview1 as Hstage _. rewrite <- Hstage. exact Hdone.
    + intros s Hs Hkey. apply filter_In in Hs as [Hs Hnotdone].
      apply In_getActiveDeployments in Hs as (key' & dep' & Hdep' & <-).
      rewrite (Hwf key' dep' Hdep') in Hkey. subst key'.
      rewrite Hdep in Hdep'. injection Hdep' as <-.
      rewrite Hdone in Hnotdone. discriminate Hnotdone.
  - rewrite rollbackEach_fails_listed in Hview1.
    + injection Hview1 as Hstage _. rewrite <- Hstage. reflexivity.
    + exact Hsome.
    + exists (Canary.status dep). split; [|exact Hid].
      apply filter_In. split; [|rewrite Hdone; reflexivity].
      apply In_getActiveDeployments. exists key, dep. split; [exact Hdep | reflexivity].
Qed.

(** On a deployer that stores its deployments under their ids,
    [emergencyRollbackAll] finds nothing to do when it runs a second time:
    no deployment is left to roll back and no injection is active, so the
    manager stays as the first run has left it. *)
Theorem emergencyRollbackAll_again (m : Manager) (now later : Z) :
  wellFormed (canaryDeployer m) ->
  emergencyRollbackAll (emergencyRollbackAll m now) later = emergencyRollbackAll m now.
Proof.
  intros Hwf. unfold emergencyRollbackAll at 1.
  assert (Hnone :
    List.filter (fun s => negb (isDone (stage s)))
      (Canary.getActiveDeployments (canaryDeployer (emergencyRollbackAll m now)))
    = []).
  { apply filter_empty_of_all_false. apply Forall_forall. intros s Hs.
    apply list_elem_of_In in Hs.
    unfold emergencyRollbackAll in Hs. cbn [canaryDeployer setInjector setCanaryDeployer] in Hs.
    rewrite (rollbackEach_all_done _ now Hwf s Hs). reflexivity. }
  rewrite Hnone. cbn [rollbackEach fold_left].
  unfold emergencyRollbackAll.
  cbn [canaryDeployer injector setInjector setCanaryDeployer monitors rollbackHistory].
  rewrite emergencyStop_idempotent. reflexivity.
Qed.

(** The manager of [Scenario.started], with one deployment being
    planned. *)
Lemma emergencyRollbackAll_again_witness :
  let m := create Scenario.full Scenario.started in
  emergencyRollbackAll (emergencyRollbackAll m (Scenario.t0 + 1000)) (Scenario.t0 + 2000)
  = emergencyRollbackAll m (Scenario.t0 + 1000).
Proof.
  apply (emergencyRollbackAll_again (create Scenario.full Scenario.started)
           (Scenario.t0 + 1000) (Scenario.t0 + 2000)).
  apply wellFormed_deployCanary. apply wellFormed_create.
Defined.

End EmergencyStops.

(** ** The orchestrator: [deployFix] and the shipped triggers *)

Section OrchestratorProperties.
Import Rollback.

Lemma lt_below (a b : Q) (x : number) :
  (b <= a)%Q -> JS.lt (JS.Fin a) x = true -> JS.lt (JS.Fin b) x = true.
Proof.
  intros Hle. destruct x as [q| | |]; cbn [JS.lt]; try (intros H; exact H).
  unfold JS.Qlt_bool. rewrite !negb_true_iff. intros Hlt.
  apply not_true_is_false. intros Hqb. apply Qle_bool_iff in Hqb.
  apply not_true_iff_false in Hlt. apply Hlt. apply Qle_bool_iff.
  exact (Qle_trans _ _ _ Hqb Hle).
Qed.

Lemma lt_above (a b : Q) (x : number) :
  (a <= b)%Q -> JS.lt x (JS.Fin a) = true -> JS.lt x (JS.Fin b) = true.
Proof.
  intros Hle. destruct x as [q| | |]; cbn [JS.lt]; try (intros H; exact H).
  unfold JS.Qlt_bool. rewrite !negb_true_iff. intros Hlt.
  apply not_true_is_false. intros Hbq. apply Qle_bool_iff in Hbq.
  apply not_true_iff_false in Hlt. apply Hlt. apply Qle_bool_iff.
  exact (Qle_trans _ _ _ Hle Hbq).
Qed.

(** Under each of the three shipped trigger sets ([conservative],
    [moderate], [aggressive]), a single poll of a deployment that is under
    way and observes an error rate above 0.5 or a success rate below 0.5
    rolls the deployment back: each set has a trigger on both rates, with
    thresholds that such an observation violates. *)
Theorem shipped_triggers_roll_back_critical (m : Manager)
    (rollbackId deploymentId : string) (now : Z) (monitor : RollbackMonitor)
    (s : DeploymentStatus) (ts : list RollbackTrigger) :
  monitors m !! deploymentId = Some monitor ->
  Canary.getDeploymentStatus (canaryDeployer m) deploymentId = Some s ->
  isDone (stage s) = false ->
  In ts Orchestrator.shipped ->
  triggers (rollbackPlan monitor) = Some ts ->
  let currentMetrics :=
    Metrics.getMetrics (metricsCollector m) "/api/signup" 30 now in
  JS.gt (errorRate currentMetrics) (JS.Fin (1 # 2)) = true
  \/ JS.lt (successRate currentMetrics) (JS.Fin (1 # 2)) = true ->
  Decisions.rolledBackBy m (snd (performHealthCheck m rollbackId deploymentId now))
    deploymentId (Decisions.found monitor currentMetrics now).
Proof.
  intros Hmon Hstatus Hnotdone Hshipped Hts currentMetrics Hobserved.
  assert (Htrigger : exists trigger,
             In trigger ts /\ Decisions.criticalFor currentMetrics trigger = true).
  { destruct Hobserved as [Herrors | Hsuccesses].
    - assert (Hany : forall t, (t <= 1 # 2)%Q ->
                Decisions.criticalFor currentMetrics
                  (Orchestrator.trigger ErrorRate (JS.Fin t) 0) = true).
      { intros t Ht. unfold Decisions.criticalFor. cbn [metric threshold Orchestrator.trigger].
        rewrite Herrors. unfold JS.gt in *. rewrite (lt_below _ _ _ Ht Herrors).
        reflexivity. }
      destruct Hshipped as [<- | [<- | [<- | []]]].
      + exists (Orchestrator.trigger ErrorRate (JS.Fin (1 # 20)) 60).
        split; [left; reflexivity | apply (Hany (1 # 20)); discriminate].
      + exists (Orchestrator.trigger ErrorRate (JS.Fin (1 # 10)) 30).
        split; [left; reflexivity | apply (Hany (1 # 10)); discriminate].
      + exists (Orchestrator.trigger ErrorRate (JS.Fin (1 # 4)) 10).
        split; [left; reflexivity | apply (Hany (1 # 4)); discriminate].
    - assert (Hany : forall t, (1 # 2 <= t)%Q ->
                Decisions.criticalFor currentMetrics
                  (Orchestrator.trigger SuccessRate (JS.Fin t) 0) = true).
      { intros t Ht. unfold Decisions.criticalFor. cbn [metric threshold Orchestrator.trigger].
        rewrite Hsuccesses. rewrite (lt_above _ _ _ Ht Hsuccesses). reflexivity. }
      destruct Hshipped as [<- | [<- | [<- | []]]].
      + exists (Orchestrator.trigger SuccessRate (JS.Fin (19 # 20)) 60).
        split; [right; left; reflexivity | apply (Hany (19 # 20)); discriminate].
      + exists (Orchestrator.trigger SuccessRate (JS.Fin (9 # 10)) 30).
        split; [right; left; reflexivity | apply (Hany (9 # 10)); discriminate].
      + exists (Orchestrator.trigger SuccessRate (JS.Fin (3 # 4)) 10).
        split; [right; left; reflexivity | apply (Hany (3 # 4)); discriminate]. }
  destruct Htrigger as (trigger & Hin & Hcritical).
  destruct (critical_violation currentMetrics now trigger Hcritical)
    as (v & Hv & Hvcritical).
  pose proof (found_of_violated monitor currentMetrics now ts trigger v Hts Hin Hv)
    as Hfound.
  apply (performHealthCheck_under_way m rollbackId deploymentId now monitor s
           Hmon Hstatus Hnotdone).
  - exact (In_nonempty _ _ Hfound).
  - unfold shouldTriggerRollback.
    pose proof (filter_nonempty isCritical _ v Hfound Hvcritical) as Hlen.
    apply Nat.ltb_lt in Hlen. fold currentMetrics. rewrite Hlen. reflexivity.
Qed.

(** The surge of failures of [Scenario.afterSurge], monitored with the
    conservative triggers. *)
Lemma shipped_triggers_roll_back_critical_witness :
  let m := Scenario.monitoringSurge Orchestrator.conservative in
  exists vs,
    Decisions.rolledBackBy m
      (snd (performHealthCheck m "rb-1" "d1" (Scenario.t0 + 5000))) "d1" vs.
Proof.
  intros m.
  destruct (Canary.getDeploymentStatus (canaryDeployer m) "d1")
    as [s|] eqn:Hs; [|vm_compute in Hs; discriminate Hs].
  destruct (monitors m !! "d1")
    as [monitor|] eqn:Hmon; [|vm_compute in Hmon; discriminate Hmon].
  eexists.
  apply (shipped_triggers_roll_back_critical m "rb-1" "d1" (Scenario.t0 + 5000)
           monitor s Orchestrator.conservative Hmon Hs).
  - vm_compute in Hs. injection Hs as <-. reflexivity.
  - left. reflexivity.
  - vm_compute in Hmon. injection Hmon as <-. reflexivity.
  - left. vm_compute. reflexivity.
Defined.


Lemma injectMiddleware_success (inj : Injector.Injector) (injectionId : string)
    (now : Z) (fsOk : bool) (definition : MiddlewareDefinition)
    (f : Injector.MiddlewareFunction) (injected : string)
    (inj' : Injector.Injector) :
  Injector.injectMiddleware inj injectionId now fsOk definition f = (Ok injected, inj') ->
  Injector.config inj' = Injector.config inj
  /\ (1 <= size (Injector.activeMiddleware inj'))%nat.
Proof.
  unfold Injector.injectMiddleware.
  destruct (if validateBeforeDeploy (Injector.config inj)
            then Injector.validateMiddleware f else None); [discriminate|].
  destruct (_ <=? _); [discriminate|].
  destruct (_ && _); [discriminate|].
  intros [= _ <-]. cbn [Injector.config Injector.activeMiddleware].
  split; [reflexivity|].
  destruct (size (<[injectionId := _]> (Injector.activeMiddleware inj))) eqn:Hsize;
    [|lia].
  apply map_size_empty_iff in Hsize. apply insert_non_empty in Hsize.
  contradiction.
Qed.




Lemma begun_default (d : Canary.Deployer) (deploymentId : string)
    (definition : MiddlewareDefinition) (now : Z) :
  exists d1 dep1,
    Orchestrator.begun (Canary.deployCanary d deploymentId definition None now)
      deploymentId now
    = Canary.deployToPercentage d1 deploymentId (JS.ofZ 10) (Canary.stage3 10 30) now
    /\ Canary.deployments d1 !! deploymentId = Some dep1
    /\ Canary.featureFlags d1 = Canary.featureFlags d
    /\ Canary.metricsCollector d1
       = Metrics.startCollection (Canary.metricsCollector d)
           (targetEndpoint definition) now.
Proof.
  set (d0 := Canary.deployCanary d deploymentId definition None now).
  assert (Hdep : exists dep,
             Canary.deployments d0 !! deploymentId = Some dep
             /\ Canary.middleware dep = definition
             /\ stages (Canary.plan dep)
                = [Canary.stage3 10 30; Canary.stage3 50 60; Canary.stage3 100 60]).
  { subst d0. unfold Canary.deployCanary. rewrite lookup_addEvent.
    destruct (decide (deploymentId = deploymentId)) as [_ | Hne]; [|contradiction].
    cbn [Canary.deployments Canary.setDeployments].
    rewrite lookup_insert_eq. cbn [fmap option_fmap option_map].
    eexists. split; [reflexivity|]. split; reflexivity. }
  destruct Hdep as (dep & Hdep & Hmiddleware & Hstages).
  assert (Hrest : Canary.featureFlags d0 = Canary.featureFlags d
                  /\ Canary.metricsCollector d0 = Canary.metricsCollector d).
  { subst d0. unfold Canary.deployCanary. split.
    - rewrite (proj1 (addEvent_rest _ _ _ _ _)). reflexivity.
    - rewrite (proj2 (addEvent_rest _ _ _ _ _)). reflexivity. }
  destruct Hrest as [Hflags Hcollector].
  set (d1 := Canary.setMetricsCollector
               (Canary.updateDeployment d0 deploymentId
                  (Canary.setStatus dep
                     (Canary.withStage (Canary.status dep) Deploying)) now)
               (Metrics.startCollection (Canary.metricsCollector d0)
                  (targetEndpoint (Canary.middleware dep)) now)).
  assert (Hdep1 : Canary.deployments d1 !! deploymentId
                  = Some (Canary.setStatus
                            (Canary.setStatus dep
                               (Canary.withStage (Canary.status dep) Deploying))
                            (Canary.withLastUpdate
                               (Canary.withStage (Canary.status dep) Deploying) now))).
  { subst d1. cbn [Canary.deployments Canary.setMetricsCollector].
    rewrite lookup_updateDeployment.
    destruct (decide (deploymentId = deploymentId)) as [_ | Hne]; [|contradiction].
    reflexivity. }
  exists d1. eexists. split; [|split; [exact Hdep1 | split]].
  - unfold Orchestrator.begun, Canary.processDeployment. rewrite Hdep, Hstages.
    change (Canary.updateDeployment d0 deploymentId
              (Canary.setStatus dep (Canary.withStage (Canary.status dep) Deploying))
              now)
      with (Canary.setMetricsCollector d1 (Canary.metricsCollector d0)).
    change (Canary.setMetricsCollector
              (Canary.setMetricsCollector d1 (Canary.metricsCollector d0))
              (Metrics.startCollection
                 (Canary.metricsCollector
                    (Canary.setMetricsCollector d1 (Canary.metricsCollector d0)))
                 (targetEndpoint (Canary.middleware dep)) now))
      with d1.
    cbn [Canary.processStages].
    change (percentage (Canary.stage3 10 30)) with (JS.ofZ 10).
    set (d2 := Canary.deployToPercentage d1 deploymentId (JS.ofZ 10)
                 (Canary.stage3 10 30) now).
    destruct (deployToPercentage_lookup d1 deploymentId (JS.ofZ 10)
                (Canary.stage3 10 30) now _ Hdep1) as (_ & dep2 & Hdep2 & _).
    fold d2 in Hdep2. unfold Canary.monitorStage. rewrite Hdep2.
    reflexivity.
  - subst d1. cbn [Canary.featureFlags Canary.setMetricsCollector Canary.updateDeployment
                   Canary.setDeployments]. exact Hflags.
  - subst d1. cbn [Canary.metricsCollector Canary.setMetricsCollector].
    rewrite Hcollector, Hmiddleware. reflexivity.
Qed.

(** When the injection succeeds, [deployFix] returns the id of the
    deployment and leaves, before any timer has fired: the injection
    registered and active; the deployment in the first stage of the default
    plan, monitoring at 10% of the traffic, with the requests routed at that
    percentage and the metrics of the endpoint being collected; and an
    active rollback monitor for it with the aggressive triggers and the
    immediate strategy. The rollback history is unchanged. *)
Theorem deployFix_starts_monitored_canary (m : Manager)
    (injectionId deploymentId monitorId : string) (fsOk : bool) (now : Z)
    (f : Injector.MiddlewareFunction) (middlewareCode middlewareName endpoint : string)
    (injected : string) (inj' : Injector.Injector) :
  Injector.injectMiddleware (injector m) injectionId now fsOk
    (Orchestrator.definitionOf middlewareCode middlewareName endpoint now) f
  = (Ok injected, inj') ->
  let r := Orchestrator.deployFix m injectionId deploymentId monitorId fsOk now f
             middlewareCode middlewareName endpoint in
  fst r = Ok deploymentId
  /\ injector (snd r) = inj'
  /\ (exists record,
         Injector.getInjectionStatus (injector (snd r)) injectionId = Some record
         /\ Injector.active record = true)
  /\ Traces.viewOf deploymentId (canaryDeployer (snd r))
     = Some (MonitoringStage, JS.ofZ 10)
  /\ Canary.featureFlags (canaryDeployer (snd r)) !! Canary.flagKey deploymentId
     = Some {| key := Canary.flagKey deploymentId; enabled := true;
               rolloutPercentage := JS.ofZ 10 |}
  /\ endpoint ∈ Metrics.activeCollectors (metricsCollector (snd r))
  /\ (exists monitor,
         monitors (snd r) !! deploymentId = Some monitor
         /\ mon_active monitor = true
         /\ triggers (rollbackPlan monitor) = Some Orchestrator.aggressive
         /\ strategy (rollbackPlan monitor) = Immediate
         /\ violations monitor = [])
  /\ rollbackHistory (snd r) = rollbackHistory m.
Proof.
  intros Hinject r. subst r. unfold Orchestrator.deployFix. rewrite Hinject.
  cbn [fst snd]. split; [reflexivity|].
  unfold startMonitoring.
  cbn [injector canaryDeployer monitors rollbackHistory setMonitors setInjector
       setCanaryDeployer].
  split; [reflexivity|]. split.
  { unfold Injector.injectMiddleware in Hinject.
    destruct (if validateBeforeDeploy (Injector.config (injector m))
              then Injector.validateMiddleware f else None); [discriminate Hinject|].
    destruct (_ <=? _); [discriminate Hinject|].
    destruct (_ && _); [discriminate Hinject|].
    injection Hinject as _ <-. unfold Injector.getInjectionStatus.
    cbn [Injector.activeMiddleware]. rewrite lookup_insert_eq.
    eexists. split; reflexivity. }
  destruct (begun_default (canaryDeployer m) deploymentId
              (Orchestrator.definitionOf middlewareCode middlewareName endpoint now) now)
    as (d1 & dep1 & -> & Hdep1 & _ & Hcollector).
  split; [|split; [|split; [|split]]].
  - apply viewOf_deployToPercentage. rewrite viewOf_lookup, Hdep1. eexists. reflexivity.
  - rewrite (featureFlags_deployToPercentage _ _ _ _ _ _ Hdep1).
    apply lookup_insert_eq.
  - unfold metricsCollector.
    cbn [canaryDeployer setMonitors setCanaryDeployer setInjector].
    pose proof (deployToPercentage_lookup d1 deploymentId (JS.ofZ 10)
                  (Canary.stage3 10 30) now dep1 Hdep1) as Hdeployed.
    cbv zeta in Hdeployed. destruct Hdeployed as (Hsame & _).
    rewrite Hsame, Hcollector.
    cbn [targetEndpoint Orchestrator.definitionOf]. unfold Metrics.startCollection.
    destruct (decide (endpoint ∈ Metrics.activeCollectors
                                   (Canary.metricsCollector (canaryDeployer m))))
      as [Hactive | _]; [exact Hactive|].
    cbn [Metrics.activeCollectors]. apply elem_of_union. left.
    apply elem_of_singleton. reflexivity.
  - rewrite lookup_insert_eq. eexists. split; [reflexivity|].
    split; [reflexivity|]. split; [reflexivity|]. split; reflexivity.
  - reflexivity.
Qed.

(** A fix for [/api/signup] that passes the validation, on the production
    settings. *)
Lemma deployFix_starts_monitored_canary_witness :
  let m := create (Injector.create Scenario.production) (Canary.create Metrics.create) in
  let r := Orchestrator.deployFix m "inj-1" "d1" "mon-1" true Scenario.t0
             Scenario.passing "code" "phone-adapter" Scenario.signup in
  fst r = Ok "d1"%string
  /\ Traces.viewOf "d1" (canaryDeployer (snd r)) = Some (MonitoringStage, JS.ofZ 10)
  /\ rollbackHistory (snd r) = [].
Proof.
  intros m r.
  destruct (Injector.injectMiddleware (injector m) "inj-1" Scenario.t0 true
              (Orchestrator.definitionOf "code" "phone-adapter" Scenario.signup
                 Scenario.t0) Scenario.passing) as [[injected | e] inj'] eqn:Hinject;
    [|vm_compute in Hinject; discriminate Hinject].
  destruct (deployFix_starts_monitored_canary m "inj-1" "d1" "mon-1" true Scenario.t0
              Scenario.passing "code" "phone-adapter" Scenario.signup injected inj'
              Hinject) as (Hok & _ & _ & Hview & _ & _ & _ & Hhistory).
  split; [exact Hok|]. split; [exact Hview | exact Hhistory].
Defined.

(** The rollback of a deployment does not remove its injection. On
    settings that allow one injection, as the production settings do, a
    [deployFix] that follows a successful one therefore fails, also after the
    first deployment has been rolled back by hand, and it changes
    nothing. *)
Theorem deployFix_after_rollback_fails (m m1 m2 : Manager)
    (injectionId deploymentId monitorId : string) (fsOk : bool) (now : Z)
    (f : Injector.MiddlewareFunction) (middlewareCode middlewareName endpoint : string)
    (rollbackId reason : string) (later : Z) (outcome : Result ManagerError unit) :
  maxConcurrentDeploys (Injector.config (injector m)) <= 1 ->
  Orchestrator.deployFix m injectionId deploymentId monitorId fsOk now f
    middlewareCode middlewareName endpoint = (Ok deploymentId, m1) ->
  manualRollback m1 rollbackId deploymentId reason later = (outcome, m2) ->
  outcome = Ok tt
  /\ Traces.viewOf deploymentId (canaryDeployer m2) = Some (Failed, JS.Fin 0)
  /\ forall injectionId' deploymentId' monitorId' fsOk' now' f' code' name' endpoint',
       exists e,
         Orchestrator.deployFix m2 injectionId' deploymentId' monitorId' fsOk' now' f'
           code' name' endpoint' = (Err e, m2).
Proof.
  intros Hcap Hfirst Hrollback.
  unfold Orchestrator.deployFix in Hfirst.
  destruct (Injector.injectMiddleware (injector m) injectionId now fsOk
              (Orchestrator.definitionOf middlewareCode middlewareName endpoint now) f)
    as [[injected | e] inj'] eqn:Hinject; [|discriminate Hfirst].
  injection Hfirst as <-.
  assert (Hfull : maxConcurrentDeploys (Injector.config inj')
                  <= Z.of_nat (size (Injector.activeMiddleware inj'))).
  { destruct (injectMiddleware_success _ _ _ _ _ _ _ _ Hinject) as [-> Hsize]. lia. }
  unfold startMonitoring in Hrollback. unfold manualRollback in Hrollback.
  cbn [monitors setMonitors] in Hrollback. rewrite lookup_insert_eq in Hrollback.
  erewrite executeRollback_found in Hrollback
    by (cbn [monitors]; apply lookup_insert_eq).
  injection Hrollback as <- <-.
  cbn [canaryDeployer injector setInjector setCanaryDeployer].
  split; [reflexivity|]. split.
  - apply viewOf_rollbackDeployment.
    destruct (begun_default (canaryDeployer m) deploymentId
                (Orchestrator.definitionOf middlewareCode middlewareName endpoint now)
                now) as (d1 & dep1 & -> & Hdep1 & _).
    rewrite viewOf_deployToPercentage; [eexists; reflexivity|].
    rewrite viewOf_lookup, Hdep1. eexists. reflexivity.
  - intros injectionId' deploymentId' monitorId' fsOk' now' f' code' name' endpoint'.
    unfold Orchestrator.deployFix. cbn [injector].
    unfold Injector.injectMiddleware.
    destruct (if validateBeforeDeploy (Injector.config inj')
              then Injector.validateMiddleware f' else None) as [e|].
    + exists e. reflexivity.
    + apply Z.leb_le in Hfull. rewrite Hfull. eexists. reflexivity.
Qed.

(** The production settings: a first fix is deployed and rolled back by
    hand, and a second fix is refused. *)
Lemma deployFix_after_rollback_fails_witness :
  let m := create (Injector.create Scenario.production) (Canary.create Metrics.create) in
  let m1 := snd (Orchestrator.deployFix m "inj-1" "d1" "mon-1" true Scenario.t0
                   Scenario.passing "code" "phone-adapter" Scenario.signup) in
  let m2 := snd (manualRollback m1 "rb-1" "d1" "operator" (Scenario.t0 + 5000)) in
  Traces.viewOf "d1" (canaryDeployer m2) = Some (Failed, JS.Fin 0)
  /\ exists e,
       Orchestrator.deployFix m2 "inj-2" "d2" "mon-2" true (Scenario.t0 + 9000)
         Scenario.passing "code" "phone-adapter" Scenario.signup = (Err e, m2).
Proof.
  intros m m1 m2.
  destruct (deployFix_after_rollback_fails m m1 m2 "inj-1" "d1" "mon-1" true
              Scenario.t0 Scenario.passing "code" "phone-adapter" Scenario.signup
              "rb-1" "operator" (Scenario.t0 + 5000)
              (fst (manualRollback m1 "rb-1" "d1" "operator" (Scenario.t0 + 5000))))
    as (_ & Hfailed & Hrefused).
  - vm_compute. discriminate.
  - subst m1.
    destruct (Orchestrator.deployFix m "inj-1" "d1" "mon-1" true Scenario.t0
                Scenario.passing "code" "phone-adapter" Scenario.signup)
      as [[deploymentId | e] after] eqn:Hfix;
      [|vm_compute in Hfix; discriminate Hfix].
    assert (Hid : deploymentId = "d1"%string).
    { apply (f_equal fst) in Hfix. vm_compute in Hfix. injection Hfix as <-.
      reflexivity. }
    rewrite Hid. reflexivity.
  - subst m2. apply surjective_pairing.
  - split; [exact Hfailed|]. apply Hrefused.
Defined.

End OrchestratorProperties.

(** ** Middleware injector: updates *)

Section InjectorUpdates.
Import Injector.

(** A successful [updateMiddleware] replaces the callable in the record of
    the injection and keeps its counters and its state, but it mounts
    nothing: the handlers of the app are the ones that were there, so every
    mounted wrapper answers every request as before the update, with the
    callable that it was created with. *)
Theorem updateMiddleware_not_mounted (inj : Injector) (injectionId : string)
    (newMiddlewareFunction : MiddlewareFunction) (existing : InjectedMiddleware) :
  activeMiddleware inj !! injectionId = Some existing ->
  (if validateBeforeDeploy (config inj)
   then validateMiddleware newMiddlewareFunction else None) = None ->
  let r := updateMiddleware inj injectionId newMiddlewareFunction in
  fst r = Ok tt
  /\ (exists record,
         getInjectionStatus (snd r) injectionId = Some record
         /\ im_function record = newMiddlewareFunction
         /\ w_function (wrappedFunction record) = newMiddlewareFunction
         /\ active record = active existing
         /\ requestCount record = requestCount existing
         /\ errorCount record = errorCount existing)
  /\ app (snd r) = app inj
  /\ middlewareStack (snd r) = middlewareStack inj
  /\ forall w req, fst (callWrapper (snd r) w req) = fst (callWrapper inj w req).
Proof.
  intros Hexisting Hvalid r. subst r. unfold updateMiddleware.
  rewrite Hexisting, Hvalid. cbn [fst snd].
  split; [reflexivity|]. split; [|split; [reflexivity|split; [reflexivity|]]].
  - unfold getInjectionStatus. cbn [activeMiddleware setActiveMiddleware].
    rewrite lookup_insert_eq. eexists. split; [reflexivity|].
    split; [reflexivity|]. split; [reflexivity|]. split; [reflexivity|].
    split; reflexivity.
  - intros w req. unfold callWrapper. cbn [activeMiddleware setActiveMiddleware].
    rewrite lookup_insert.
    destruct (decide (injectionId = w_injectionId w)) as [Heq | Hne].
    + rewrite <- Heq, Hexisting. cbn [active].
      destruct (negb (active existing)); [reflexivity|].
      destruct (negb (matchesConditions req (conditions (w_definition w))));
        reflexivity.
    + destruct (activeMiddleware inj !! w_injectionId w) as [m|]; [|reflexivity].
      destruct (negb (active m)); [reflexivity|].
      destruct (negb (matchesConditions req (conditions (w_definition w))));
        reflexivity.
Qed.

(** The injection of [Scenario.full], updated with a callable that ends
    the request with an error: the mounted wrapper still calls [next()]
    without one. *)
Lemma updateMiddleware_not_mounted_witness :
  let failing :=
    {| fn_length := 3; fn_source := "function reject(req, res, next) { next(e); }";
       fn_run := fun req => {| ex_request := req; ex_next := [Some "rejected"%string];
                               ex_throws := None |} |} in
  let updated := snd (updateMiddleware Scenario.full "inj-1" failing) in
  let mounted := createWrapperMiddleware "inj-1" Scenario.fix1 Scenario.passing in
  (im_function <$> getInjectionStatus updated "inj-1") = Some failing
  /\ inv_next (fst (callWrapper updated mounted Scenario.post)) = [None].
Proof.
  intros failing updated mounted.
  destruct (activeMiddleware Scenario.full !! "inj-1") as [existing|] eqn:Hexisting;
    [|vm_compute in Hexisting; discriminate Hexisting].
  destruct (updateMiddleware_not_mounted Scenario.full "inj-1" failing existing
              Hexisting) as (_ & (record & Hrecord & Hfunction & _) & _ & _ & Hcalls).
  - vm_compute. reflexivity.
  - fold updated in Hrecord, Hcalls. split.
    + rewrite Hrecord. cbn [fmap option_fmap option_map]. rewrite Hfunction.
      reflexivity.
    + rewrite Hcalls. vm_compute. reflexivity.
Defined.

End InjectorUpdates.
